(** * school_eco_system_simulator: a shallow embedding and its properties

    The Python module simulates a fictional school ecosystem year by year.
    This development embeds the simulation engine ([SchoolEcosystem] and
    its tick methods), the external world and the future-hope estimator,
    and proves the properties listed in the testable-properties section of
    the specification.

    Modelling conventions.
    - There are two models of the engine.  In the exact model, which
      comes first and carries the invariants, a Python [float] is an
      exact rational ([Q]); rounding, infinities and NaN are outside it.
      In the binary64 model ([Module Binary64]) a Python [float] is an
      IEEE 754 binary64 number and every operation rounds as in the
      source; it carries what depends on a comparison at a boundary or
      on a sum being exact.
    - The one transcendental call, [math.exp], is the real exponential,
      so the future-hope probability lives in [R]; [Raising] adds the
      [OverflowError] of [math.exp].
    - A Python [int] is a [Z].
    - The float-valued attributes of [SchoolEcosystem] are addressed by
      name, as the source does with [getattr]/[setattr]: the type
      [float_attr] enumerates the attribute names and the object carries a
      store [floats : float_attr -> Q].
    - The process-wide generator of the [random] module is an explicit
      value [Rng]: a sequence of the results of [random.random()] and the
      number of draws consumed so far. *)

From Stdlib Require Import ZArith QArith Qreals Psatz Bool List String Ascii Reals.
From Stdlib Require Import Floats.PrimFloat Numbers.Cyclic.Int63.Uint63.
Import ListNotations.

Set Warnings "-inexact-float".

Open Scope Q_scope.

(** ** Python comparison and min/max on floats *)

Definition Qltb (a b : Q) : bool := negb (Qle_bool b a).
Definition Qgtb (a b : Q) : bool := Qltb b a.
Definition Qgeb (a b : Q) : bool := Qle_bool b a.

(** [min(a, b)] keeps the first argument unless the second is smaller;
    [max(a, b)] keeps the first argument unless the second is larger. *)
Definition pymin (a b : Q) : Q := if Qltb b a then b else a.
Definition pymax (a b : Q) : Q := if Qgtb b a then b else a.

(** [max(0.0, min(1.0, v))] *)
Definition clamp01 (v : Q) : Q := pymax 0.0 (pymin 1.0 v).

(** ** The random module *)

Record Rng := mkRng { draws : nat -> Q; pos : nat }.

(** [random.random()] *)
Definition random (g : Rng) : Q * Rng :=
  (draws g (pos g), mkRng (draws g) (S (pos g))).

(** [random.uniform(a, b)] is [a + (b - a) * random()]. *)
Definition uniform (a b : Q) (g : Rng) : Q * Rng :=
  let '(r, g) := random g in (a + (b - a) * r, g).

(** ** Individual actors *)

Inductive Role := teacher | admin | student.
Inductive OpportunityChoice := none | stay_inside | leave_outside.
Inductive ChangeAttitude := resist | neutral | support.

Record Actor := mkActor {
  name : string;
  role : Role;
  os_version : string;
  adaptability : Q;
  protected : bool;
  change_attitude : ChangeAttitude;
  burned_out : bool;
  has_left_system : bool;
  rebooted_outside : bool;
  casualty_of_system : bool;
  opportunity_cost : Q;
  opportunity_choice : OpportunityChoice;
  future_hope_probability : R;
  is_future_hope : bool
}.

(** The dataclass constructor with its defaults. *)
Definition new_Actor (n : string) (r : Role) (os : string) (ad : Q)
    (prot : bool) (att : ChangeAttitude) : Actor :=
  mkActor n r os ad prot att false false false false 0 none 0%R false.

Definition is_staff (a : Actor) : bool :=
  match role a with teacher | admin => true | student => false end.

Definition is_student (a : Actor) : bool :=
  match role a with student => true | _ => false end.

(** ** External world *)

Record ExternalWorld := mkExternalWorld {
  selection_pressure : Q;
  ai_shift_speed : Q
}.

(** [sub in s] on Python strings. *)
Definition contains (sub s : string) : bool :=
  match index 0 sub s with Some _ => true | None => false end.

Definition required_threshold (self : ExternalWorld) : Q :=
  selection_pressure self + (ai_shift_speed self * 0.1).

Definition base_effective_adaptability (self : ExternalWorld) (actor : Actor) : Q :=
  let base := adaptability actor in
  let base :=
    if contains "LegacyOS" (os_version actor) then base - 0.15 else base in
  let base :=
    if existsb (fun tag => contains tag (os_version actor))
         ["HighAdaptOS"; "MasOS"; "LLM-aware"]%string
    then base + 0.15 else base in
  let base :=
    match change_attitude actor with
    | support => base + 0.05
    | resist => base - 0.05
    | neutral => base
    end in
  base.

Definition evaluate_actor (self : ExternalWorld) (actor : Actor) : bool :=
  let base := base_effective_adaptability self actor in
  let required := required_threshold self in
  Qgeb base required.

Definition reintegration_outcome (self : ExternalWorld) (actor : Actor)
    (g : Rng) : string * Rng :=
  let base := base_effective_adaptability self actor in
  let base := if burned_out actor then base - 0.2 else base in
  let '(u, g) := uniform (-0.1) 0.1 g in
  let base := base + u in
  let required := required_threshold self in
  ((if Qgeb base required then "rebooted" else "casualty")%string, g).

(** ** Macro constraints and dynamics coefficients *)

Record EnvironmentConstraints := mkEnv {
  budget_pressure : Q;
  regulation_rigidity : Q;
  demographic_pressure : Q
}.

Record DynamicsCoefficients := mkDyn {
  infra_to_burnout : Q;
  dxclarity_to_burnout : Q;
  workload_to_burnout : Q;
  complexity_to_burnout : Q;
  trustlack_to_burnout : Q;
  personalization_to_burnout : Q;
  llm_relief_to_burnout : Q;
  ai_service_relief_to_burnout : Q;
  external_system_to_productivity : Q;
  complexity_to_productivity : Q;
  workload_to_productivity : Q;
  infra_bad_to_productivity : Q;
  fragmentation_to_productivity : Q;
  personalization_to_productivity : Q;
  llm_to_productivity : Q;
  ai_access_to_productivity : Q;
  base_eff_infra_weight : Q;
  base_eff_dxclarity_weight : Q;
  suppression_bonus_to_eff : Q;
  llm_to_efficiency : Q;
  db_to_efficiency : Q;
  portal_to_efficiency : Q;
  personalization_to_efficiency : Q
}.

Definition default_dynamics : DynamicsCoefficients :=
  mkDyn 0.1 0.1 0.05 0.05 0.05 0.05
        0.04 0.03
        0.03 0.04 0.02 0.02 0.03 0.03
        0.05 0.03
        0.4 0.3 0.1 0.1 0.05 0.05 0.05.

(** ** School ecosystem *)

(** The names of the float attributes of [SchoolEcosystem]. *)
Inductive float_attr :=
  | infrastructure_health | dx_clarity | burnout_index | student_exit_rate
  | recruitment_difficulty
  | suppression_level | systemic_opportunity_cost
  | external_system_dependency | external_spend | learning_cost_index
  | system_complexity | workload_index
  | productivity_index | efficiency_index_true | efficiency_index_recognized
  | strategic_consistency | change_request_intensity | change_rejection_rate
  | educational_asset_index | central_repository_level
  | student_learning_efficiency | competitor_gap_index
  | innovation_potential_index | local_llm_infra_level
  | ai_service_quality_index | ai_accessibility_index
  | portal_maturity | database_foundation | process_fragmentation_index
  | pm_capability | grand_design_clarity | leadership_trust_battery
  | info_transparency
  | task_personalization_index
  | randomness.

Scheme Equality for float_attr.

Record SchoolEcosystem := mkSchool {
  eco_name : string;
  env : EnvironmentConstraints;
  dynamics : DynamicsCoefficients;
  actors : list Actor;
  floats : float_attr -> Q;
  years_simulated : Z;
  change_seeds_planted : Z;
  change_seeds_suppressed : Z;
  has_swot : bool;
  rhetorical_change_slogans : Z
}.

Notation "s '.[' a ']'" := (floats s a) (at level 1, left associativity, format "s .[ a ]").

(** Attribute assignment. *)
Definition set (a : float_attr) (v : Q) (s : SchoolEcosystem) : SchoolEcosystem :=
  mkSchool (eco_name s) (env s) (dynamics s) (actors s)
    (fun b => if float_attr_beq a b then v else s.[b])
    (years_simulated s) (change_seeds_planted s) (change_seeds_suppressed s)
    (has_swot s) (rhetorical_change_slogans s).

Definition set_actors (l : list Actor) (s : SchoolEcosystem) : SchoolEcosystem :=
  mkSchool (eco_name s) (env s) (dynamics s) l (floats s)
    (years_simulated s) (change_seeds_planted s) (change_seeds_suppressed s)
    (has_swot s) (rhetorical_change_slogans s).

Definition set_years_simulated (n : Z) (s : SchoolEcosystem) : SchoolEcosystem :=
  mkSchool (eco_name s) (env s) (dynamics s) (actors s) (floats s)
    n (change_seeds_planted s) (change_seeds_suppressed s)
    (has_swot s) (rhetorical_change_slogans s).

Definition set_change_seeds_planted (n : Z) (s : SchoolEcosystem) : SchoolEcosystem :=
  mkSchool (eco_name s) (env s) (dynamics s) (actors s) (floats s)
    (years_simulated s) n (change_seeds_suppressed s)
    (has_swot s) (rhetorical_change_slogans s).

Definition set_change_seeds_suppressed (n : Z) (s : SchoolEcosystem) : SchoolEcosystem :=
  mkSchool (eco_name s) (env s) (dynamics s) (actors s) (floats s)
    (years_simulated s) (change_seeds_planted s) n
    (has_swot s) (rhetorical_change_slogans s).

Definition set_rhetorical_change_slogans (n : Z) (s : SchoolEcosystem) : SchoolEcosystem :=
  mkSchool (eco_name s) (env s) (dynamics s) (actors s) (floats s)
    (years_simulated s) (change_seeds_planted s) (change_seeds_suppressed s)
    (has_swot s) n.

(** [self.a += d] and [self.a -= d] *)
Definition add_to (a : float_attr) (d : Q) (s : SchoolEcosystem) : SchoolEcosystem :=
  set a (s.[a] + d) s.
Definition sub_from (a : float_attr) (d : Q) (s : SchoolEcosystem) : SchoolEcosystem :=
  set a (s.[a] - d) s.

(** [for attr in (...): setattr(self, attr, max(0.0, min(1.0, getattr(self, attr))))] *)
Definition clamp_attrs (l : list float_attr) (s : SchoolEcosystem) : SchoolEcosystem :=
  fold_left (fun s a => set a (clamp01 s.[a]) s) l s.

(** The field defaults of the dataclass. *)
Definition default_floats (a : float_attr) : Q :=
  match a with
  | infrastructure_health => 0.4
  | dx_clarity => 0.1
  | burnout_index => 0.0
  | student_exit_rate => 0.0
  | recruitment_difficulty => 0.3
  | suppression_level => 0.8
  | systemic_opportunity_cost => 0.0
  | external_system_dependency => 0.0
  | external_spend => 0.0
  | learning_cost_index => 0.0
  | system_complexity => 0.3
  | workload_index => 0.5
  | productivity_index => 0.7
  | efficiency_index_true => 0.4
  | efficiency_index_recognized => 0.1
  | strategic_consistency => 0.2
  | change_request_intensity => 0.3
  | change_rejection_rate => 0.6
  | educational_asset_index => 0.1
  | central_repository_level => 0.0
  | student_learning_efficiency => 0.4
  | competitor_gap_index => 0.1
  | innovation_potential_index => 0.0
  | local_llm_infra_level => 0.0
  | ai_service_quality_index => 0.0
  | ai_accessibility_index => 0.0
  | portal_maturity => 0.1
  | database_foundation => 0.1
  | process_fragmentation_index => 0.7
  | pm_capability => 0.2
  | grand_design_clarity => 0.1
  | leadership_trust_battery => 0.4
  | info_transparency => 0.3
  | task_personalization_index => 0.85
  | randomness => 0.05
  end.

Definition new_SchoolEcosystem (n : string) (e : EnvironmentConstraints) : SchoolEcosystem :=
  mkSchool n e default_dynamics [] default_floats 0 0 0 false 0.

Definition add_actor (actor : Actor) (self : SchoolEcosystem) : SchoolEcosystem :=
  set_actors (actors self ++ [actor]) self.

(** *** The noise helper *)

Definition _noise (self : SchoolEcosystem) (scale : Q) (g : Rng) : Q * Rng :=
  if Qle_bool self.[randomness] 0 || Qle_bool scale 0 then (0, g)
  else let '(u, g) := uniform (- scale) scale g in (u * self.[randomness], g).

(** *** Internal dynamics *)

Definition _tick_infrastructure (self : SchoolEcosystem) (g : Rng)
    : SchoolEcosystem * Rng :=
  let '(n, g) := _noise self 0.02 g in
  let self := add_to infrastructure_health (-0.03 + n) self in
  let self := set infrastructure_health (clamp01 self.[infrastructure_health]) self in
  (self, g).

Definition _tick_dx_clarity (self : SchoolEcosystem) (g : Rng)
    : SchoolEcosystem * Rng :=
  let '(n, g) := _noise self 0.02 g in
  let self := add_to dx_clarity (-0.02 + n) self in
  let self := set dx_clarity (clamp01 self.[dx_clarity]) self in
  (self, g).

Definition _tick_strategy_layer (self : SchoolEcosystem) : SchoolEcosystem :=
  let strong_suppression := Qgtb self.[suppression_level] 0.6 in
  let self :=
    if negb (has_swot self) && strong_suppression then
      let self := add_to change_request_intensity (0.03 * self.[suppression_level]) self in
      let self := add_to change_rejection_rate (0.02 * self.[suppression_level]) self in
      let self := sub_from strategic_consistency (0.03 * self.[suppression_level]) self in
      let self := set_rhetorical_change_slogans (rhetorical_change_slogans self + 1)%Z self in
      let self := add_to burnout_index (0.02 * self.[suppression_level]) self in
      let self := add_to systemic_opportunity_cost (0.1 * self.[suppression_level]) self in
      self
    else self in
  let self :=
    if has_swot self && Qltb self.[suppression_level] 0.4 && Qgtb self.[dx_clarity] 0.5 then
      let self := sub_from change_request_intensity 0.02 self in
      let self := sub_from change_rejection_rate 0.03 self in
      let self := add_to strategic_consistency 0.05 self in
      self
    else self in
  clamp_attrs [change_request_intensity; change_rejection_rate; strategic_consistency] self.

Definition _tick_portal_and_db (self : SchoolEcosystem) (g : Rng)
    : SchoolEcosystem * Rng :=
  (* Negative path *)
  let '(self, g) :=
    if Qltb self.[portal_maturity] 0.4
       && Qltb self.[database_foundation] 0.4
       && Qltb self.[dx_clarity] 0.3
    then
      let '(n, g) := _noise self 0.02 g in
      let self := add_to process_fragmentation_index (0.04 + n) self in
      let self := add_to workload_index 0.02 self in
      let self := add_to system_complexity 0.03 self in
      let self := sub_from student_learning_efficiency 0.02 self in
      let self := sub_from productivity_index 0.01 self in
      let self := add_to task_personalization_index 0.03 self in
      (self, g)
    else (self, g) in
  (* Positive path (regulation can slow it) *)
  let self :=
    if Qltb self.[suppression_level] 0.4
       && Qgtb self.[dx_clarity] 0.5
       && Qgtb self.[infrastructure_health] 0.4
    then
      let factor := 1.0 - 0.5 * regulation_rigidity (env self) in
      if Qgtb factor 0.0 then
        let self := add_to portal_maturity (0.05 * factor) self in
        let self := add_to database_foundation (0.05 * factor) self in
        let self := sub_from process_fragmentation_index (0.05 * factor) self in
        let self := add_to educational_asset_index (0.03 * factor) self in
        let self := sub_from task_personalization_index (0.05 * factor) self in
        self
      else self
    else self in
  (clamp_attrs
     [portal_maturity; database_foundation; process_fragmentation_index;
      student_learning_efficiency; productivity_index;
      task_personalization_index; workload_index; system_complexity;
      educational_asset_index] self, g).

Definition _tick_pm_and_design (self : SchoolEcosystem) : SchoolEcosystem :=
  (* Negative PM world *)
  let self :=
    if Qltb self.[pm_capability] 0.4
       && Qltb self.[grand_design_clarity] 0.4
       && Qgtb self.[change_request_intensity] 0.4
       && Qgtb self.[change_rejection_rate] 0.5
    then
      let self := add_to burnout_index 0.03 self in
      let self := sub_from productivity_index 0.02 self in
      let self := sub_from leadership_trust_battery 0.03 self in
      let self := sub_from strategic_consistency 0.02 self in
      self
    else self in
  (* Positive PM world *)
  let self :=
    if Qgtb self.[pm_capability] 0.6
       && Qgtb self.[grand_design_clarity] 0.6
       && Qgtb self.[dx_clarity] 0.5
       && Qltb self.[suppression_level] 0.4
    then
      let self := sub_from burnout_index 0.02 self in
      let self := add_to productivity_index 0.03 self in
      let self := add_to leadership_trust_battery 0.05 self in
      let self := add_to strategic_consistency 0.03 self in
      self
    else self in
  clamp_attrs
    [burnout_index; productivity_index; leadership_trust_battery;
     strategic_consistency] self.

(** The comprehension selecting the high adapters among the staff. *)
Definition is_high_adapter (a : Actor) : bool :=
  is_staff a && Qgeb (adaptability a) 0.7.

Definition set_adaptability (v : Q) (a : Actor) : Actor :=
  mkActor (name a) (role a) (os_version a) v (protected a)
    (change_attitude a) (burned_out a) (has_left_system a)
    (rebooted_outside a) (casualty_of_system a) (opportunity_cost a)
    (opportunity_choice a) (future_hope_probability a) (is_future_hope a).

(** The body of the loop over [self.actors] in the suppressed branch. *)
Definition suppress_student (s : Q) (stud : Actor) : Actor :=
  if is_student stud then
    let stud := set_adaptability (adaptability stud - 0.01 * s) stud in
    set_adaptability (pymax 0.0 (adaptability stud)) stud
  else stud.

Definition _tick_change_dynamics (self : SchoolEcosystem) : SchoolEcosystem :=
  let high_adapters := filter is_high_adapter (actors self) in
  let seeds := Z.of_nat (List.length high_adapters) in
  if (seeds =? 0)%Z then self
  else
    let self := set_change_seeds_planted (change_seeds_planted self + seeds)%Z self in
    let s := self.[suppression_level] in
    let self :=
      if Qgtb s 0.5 then
        let self :=
          set_change_seeds_suppressed (change_seeds_suppressed self + seeds)%Z self in
        let self := add_to systemic_opportunity_cost (inject_Z seeds * 0.4 * s) self in
        let self := add_to burnout_index (0.04 * s) self in
        let self := sub_from dx_clarity (0.02 * s) self in
        set_actors (map (suppress_student s) (actors self)) self
      else
        let openness := 1.0 - s in
        let self := add_to infrastructure_health (0.04 * openness) self in
        let self := add_to dx_clarity (0.08 * openness) self in
        let self := sub_from burnout_index (0.02 * openness) self in
        self in
    let self := set dx_clarity (clamp01 self.[dx_clarity]) self in
    let self := set infrastructure_health (clamp01 self.[infrastructure_health]) self in
    let self := set burnout_index (clamp01 self.[burnout_index]) self in
    self.

Definition _tick_education_assets (self : SchoolEcosystem) : SchoolEcosystem :=
  (* Negative path *)
  let self :=
    if Qltb self.[educational_asset_index] 0.5
       && Qltb self.[central_repository_level] 0.3
       && Qltb self.[dx_clarity] 0.3
    then
      let self := sub_from student_learning_efficiency 0.03 self in
      let self := add_to competitor_gap_index 0.05 self in
      self
    else self in
  (* Positive path (budget can slow it) *)
  let self :=
    if Qltb self.[suppression_level] 0.4 && Qgtb self.[dx_clarity] 0.5 then
      let factor := 1.0 - 0.5 * budget_pressure (env self) in
      if Qgtb factor 0.0 then
        let self := add_to educational_asset_index (0.05 * factor) self in
        let self := add_to central_repository_level (0.05 * factor) self in
        let self := add_to student_learning_efficiency (0.04 * factor) self in
        let self := sub_from competitor_gap_index (0.03 * factor) self in
        self
      else self
    else self in
  (* Local LLM infra boosts learning efficiency and reduces the gap *)
  let self :=
    if Qgtb self.[local_llm_infra_level] 0.0 then
      let boost := 0.03 * self.[local_llm_infra_level] in
      let self := add_to student_learning_efficiency boost self in
      let self := sub_from competitor_gap_index (0.02 * self.[local_llm_infra_level]) self in
      self
    else self in
  clamp_attrs
    [student_learning_efficiency; competitor_gap_index;
     educational_asset_index; central_repository_level] self.

Definition _tick_innovation (self : SchoolEcosystem) : SchoolEcosystem :=
  let ready_for_innovation :=
    Qgeb self.[educational_asset_index] 0.5
    && Qgeb self.[central_repository_level] 0.5
    && Qgeb self.[dx_clarity] 0.6
    && Qltb self.[suppression_level] 0.4
    && Qgeb self.[infrastructure_health] 0.5
    && Qltb (budget_pressure (env self)) 0.8 in
  let self :=
    if ready_for_innovation then
      let self := add_to innovation_potential_index 0.05 self in
      let self :=
        set innovation_potential_index (pymin 1.0 self.[innovation_potential_index]) self in
      let budget_factor := 1.0 - 0.5 * budget_pressure (env self) in
      let self :=
        if Qgtb budget_factor 0 then
          add_to local_llm_infra_level
            (0.04 * self.[innovation_potential_index] * budget_factor) self
        else self in
      let self :=
        set local_llm_infra_level
          (pymin 1.0 (pymax 0.0 self.[local_llm_infra_level])) self in
      let self := add_to ai_service_quality_index (0.05 * self.[local_llm_infra_level]) self in
      let self := add_to ai_accessibility_index (0.04 * self.[local_llm_infra_level]) self in
      self
    else
      let decay := 0.02 in
      let self :=
        if Qgtb self.[suppression_level] 0.6 || Qltb self.[dx_clarity] 0.3 then
          sub_from innovation_potential_index decay self
        else self in
      let self := sub_from local_llm_infra_level 0.01 self in
      let self := sub_from ai_service_quality_index 0.01 self in
      let self := sub_from ai_accessibility_index 0.01 self in
      self in
  clamp_attrs
    [innovation_potential_index; local_llm_infra_level;
     ai_service_quality_index; ai_accessibility_index] self.

Definition _tick_external_systems (self : SchoolEcosystem) : SchoolEcosystem :=
  let self :=
    if Qltb self.[infrastructure_health] 0.6 && Qltb self.[dx_clarity] 0.3 then
      let self := add_to external_system_dependency 0.05 self in
      let self := add_to external_spend 0.10 self in
      let self := add_to learning_cost_index 0.05 self in
      let self := add_to system_complexity 0.04 self in
      let self := add_to workload_index 0.03 self in
      let self := add_to infrastructure_health 0.01 self in
      let self := add_to burnout_index 0.02 self in
      self
    else self in
  let self :=
    if Qltb self.[suppression_level] 0.4 && Qgtb self.[dx_clarity] 0.5 then
      let self := sub_from external_system_dependency 0.03 self in
      let self := sub_from system_complexity 0.03 self in
      let self := sub_from workload_index 0.02 self in
      let self := sub_from learning_cost_index 0.02 self in
      self
    else self in
  clamp_attrs
    [external_system_dependency; learning_cost_index;
     system_complexity; workload_index; infrastructure_health;
     burnout_index] self.

Definition _tick_trust_and_transparency (self : SchoolEcosystem) : SchoolEcosystem :=
  let self :=
    if Qgtb self.[suppression_level] 0.6
       || Qltb self.[info_transparency] 0.4
       || Qltb self.[dx_clarity] 0.3
    then sub_from leadership_trust_battery 0.03 self
    else self in
  let self :=
    if Qltb self.[suppression_level] 0.4
       && Qgtb self.[info_transparency] 0.6
       && Qgtb self.[pm_capability] 0.5
       && Qgtb self.[grand_design_clarity] 0.5
       && Qgtb self.[portal_maturity] 0.5
    then add_to leadership_trust_battery 0.05 self
    else self in
  let self :=
    if Qgtb self.[suppression_level] 0.6 then sub_from info_transparency 0.02 self
    else if Qltb self.[suppression_level] 0.4 then add_to info_transparency 0.02 self
    else self in
  clamp_attrs [leadership_trust_battery; info_transparency] self.

Definition set_burned_out (v : bool) (a : Actor) : Actor :=
  mkActor (name a) (role a) (os_version a) (adaptability a) (protected a)
    (change_attitude a) v (has_left_system a)
    (rebooted_outside a) (casualty_of_system a) (opportunity_cost a)
    (opportunity_choice a) (future_hope_probability a) (is_future_hope a).

Definition set_has_left_system (v : bool) (a : Actor) : Actor :=
  mkActor (name a) (role a) (os_version a) (adaptability a) (protected a)
    (change_attitude a) (burned_out a) v
    (rebooted_outside a) (casualty_of_system a) (opportunity_cost a)
    (opportunity_choice a) (future_hope_probability a) (is_future_hope a).

Definition set_opportunity_cost (v : Q) (a : Actor) : Actor :=
  mkActor (name a) (role a) (os_version a) (adaptability a) (protected a)
    (change_attitude a) (burned_out a) (has_left_system a)
    (rebooted_outside a) (casualty_of_system a) v
    (opportunity_choice a) (future_hope_probability a) (is_future_hope a).

Definition set_opportunity_choice (v : OpportunityChoice) (a : Actor) : Actor :=
  mkActor (name a) (role a) (os_version a) (adaptability a) (protected a)
    (change_attitude a) (burned_out a) (has_left_system a)
    (rebooted_outside a) (casualty_of_system a) (opportunity_cost a)
    v (future_hope_probability a) (is_future_hope a).

(** The body of the loop over [self.actors] that closes [_tick_burnout];
    [burnout] is [self.burnout_index] as the loop reads it. *)
Definition burnout_actor (burnout : Q) (a : Actor) : Actor :=
  if is_staff a && negb (has_left_system a) then
    let threshold := 0.5 + (0.5 - adaptability a) in
    if negb (burned_out a) && Qgtb burnout threshold then
      let a := set_burned_out true a in
      if Qgtb (adaptability a) 0.6 then
        let a := set_has_left_system true a in
        let a := set_opportunity_choice leave_outside a in
        let a := set_opportunity_cost (opportunity_cost a + 1.0) a in
        a
      else
        let a := set_opportunity_choice stay_inside a in
        let a := set_opportunity_cost (opportunity_cost a + 0.7) a in
        a
    else a
  else a.

(** [_tick_burnout] up to the noise draw: the drivers and the relief. *)
Definition burnout_drivers_and_relief (self : SchoolEcosystem) : SchoolEcosystem :=
  let d := dynamics self in
  (* Burnout drivers *)
  let self := add_to burnout_index (infra_to_burnout d * (1.0 - self.[infrastructure_health])) self in
  let self := add_to burnout_index (dxclarity_to_burnout d * (1.0 - self.[dx_clarity])) self in
  let self := add_to burnout_index (workload_to_burnout d * self.[workload_index]) self in
  let self := add_to burnout_index (complexity_to_burnout d * self.[system_complexity]) self in
  let self := add_to burnout_index (trustlack_to_burnout d * (1.0 - self.[leadership_trust_battery])) self in
  let self := add_to burnout_index (personalization_to_burnout d * self.[task_personalization_index]) self in
  (* Relief from good AI infra *)
  let relief := llm_relief_to_burnout d * self.[local_llm_infra_level] in
  let relief := relief + ai_service_relief_to_burnout d * self.[ai_service_quality_index] in
  let self := sub_from burnout_index relief self in
  self.

Definition _tick_burnout (self : SchoolEcosystem) (g : Rng)
    : SchoolEcosystem * Rng :=
  let self := burnout_drivers_and_relief self in
  let '(n, g) := _noise self 0.02 g in
  let self := add_to burnout_index n self in
  let self := set burnout_index (clamp01 self.[burnout_index]) self in
  let self :=
    set recruitment_difficulty
      (pymin 1.0
         (0.3
          + self.[burnout_index] * 0.2
          + self.[system_complexity] * 0.2
          + (1.0 - self.[leadership_trust_battery]) * 0.2
          + 0.1 * demographic_pressure (env self))) self in
  let self := set_actors (map (burnout_actor self.[burnout_index]) (actors self)) self in
  (self, g).

Definition _tick_students (self : SchoolEcosystem) (g : Rng)
    : SchoolEcosystem * Rng :=
  let raw :=
    (1.0 - self.[infrastructure_health]) * 0.2
    + self.[burnout_index] * 0.2
    + self.[competitor_gap_index] * 0.2
    + pymax 0.0 (0.5 - self.[student_learning_efficiency]) * 0.2
    + (1.0 - self.[leadership_trust_battery]) * 0.1
    + 0.1 * demographic_pressure (env self) in
  let raw := raw - 0.1 * self.[ai_accessibility_index] in
  let raw := raw - 0.1 * self.[ai_service_quality_index] in
  let '(n, g) := _noise self 0.05 g in
  let raw := raw + n in
  (set student_exit_rate (clamp01 raw) self, g).

(** [_tick_productivity_and_efficiency] in its three parts, as the
    comments of the source divide it; [d] is [self.dynamics] throughout. *)

(** Productivity: the eight contributions, before the noise draw. *)
Definition productivity_contributions (self : SchoolEcosystem) : SchoolEcosystem :=
  let d := dynamics self in
  (* Productivity: negative contributions *)
  let self := sub_from productivity_index (external_system_to_productivity d * self.[external_system_dependency]) self in
  let self := sub_from productivity_index (complexity_to_productivity d * self.[system_complexity]) self in
  let self := sub_from productivity_index (workload_to_productivity d * self.[workload_index]) self in
  let self := sub_from productivity_index (infra_bad_to_productivity d * (1.0 - self.[infrastructure_health])) self in
  let self := sub_from productivity_index (fragmentation_to_productivity d * self.[process_fragmentation_index]) self in
  let self := sub_from productivity_index (personalization_to_productivity d * self.[task_personalization_index]) self in
  (* Positive contributions *)
  let self := add_to productivity_index (llm_to_productivity d * self.[local_llm_infra_level]) self in
  let self := add_to productivity_index (ai_access_to_productivity d * self.[ai_accessibility_index]) self in
  self.

(** "True" efficiency is derived from infra, clarity, etc. *)
Definition true_efficiency (self : SchoolEcosystem) (g : Rng)
    : SchoolEcosystem * Rng :=
  let d := dynamics self in
  let base := 0.2 in
  let base := base + base_eff_infra_weight d * self.[infrastructure_health] in
  let base := base + base_eff_dxclarity_weight d * self.[dx_clarity] in
  let base :=
    if Qltb self.[suppression_level] 0.4 then base + suppression_bonus_to_eff d
    else base in
  let base := base + llm_to_efficiency d * self.[local_llm_infra_level] in
  let base := base + db_to_efficiency d * self.[database_foundation] in
  let base := base + portal_to_efficiency d * self.[portal_maturity] in
  let base := base - personalization_to_efficiency d * self.[task_personalization_index] in
  let '(n, g) := _noise self 0.03 g in
  let base := base + n in
  (set efficiency_index_true (clamp01 base) self, g).

(** Recognized efficiency (KPI) *)
Definition recognized_efficiency (self : SchoolEcosystem) : SchoolEcosystem :=
  let self := add_to efficiency_index_recognized (0.03 * self.[external_system_dependency]) self in
  let self := add_to efficiency_index_recognized (0.02 * self.[system_complexity]) self in
  let self := set efficiency_index_recognized (clamp01 self.[efficiency_index_recognized]) self in
  self.

Definition _tick_productivity_and_efficiency (self : SchoolEcosystem) (g : Rng)
    : SchoolEcosystem * Rng :=
  let self := productivity_contributions self in
  let '(n, g) := _noise self 0.03 g in
  let self := add_to productivity_index n self in
  let self := set productivity_index (clamp01 self.[productivity_index]) self in
  let '(self, g) := true_efficiency self g in
  let self := recognized_efficiency self in
  (self, g).

(** *** Simulation step *)

Definition simulate_year (self : SchoolEcosystem) (g : Rng)
    : SchoolEcosystem * Rng :=
  let self := set_years_simulated (years_simulated self + 1)%Z self in
  let '(self, g) := _tick_infrastructure self g in
  let '(self, g) := _tick_dx_clarity self g in
  let self := _tick_strategy_layer self in
  let '(self, g) := _tick_portal_and_db self g in
  let self := _tick_pm_and_design self in
  let self := _tick_change_dynamics self in
  let self := _tick_education_assets self in
  let self := _tick_innovation self in
  let self := _tick_external_systems self in
  let self := _tick_trust_and_transparency self in
  let '(self, g) := _tick_burnout self g in
  let '(self, g) := _tick_students self g in
  let '(self, g) := _tick_productivity_and_efficiency self g in
  (self, g).

(** [for _ in range(years): school.simulate_year()] *)
Fixpoint simulate_years (years : nat) (self : SchoolEcosystem) (g : Rng)
    : SchoolEcosystem * Rng :=
  match years with
  | O => (self, g)
  | S n => let '(self, g) := simulate_year self g in simulate_years n self g
  end.

(** ** Future hope probability (students) *)

Definition pyminR (a b : R) : R := if Rlt_dec b a then b else a.
Definition pymaxR (a b : R) : R := if Rlt_dec a b then b else a.

(** [delta = base - required] *)
Definition hope_delta (world : ExternalWorld) (actor : Actor) : Q :=
  let base := base_effective_adaptability world actor in
  let required := required_threshold world in
  base - required.

(** The environment score, after its clamp. *)
Definition hope_env_score (school : SchoolEcosystem) : Q :=
  let env_components :=
    [ 1.0 - school.[suppression_level];
      school.[dx_clarity];
      school.[student_learning_efficiency];
      school.[ai_accessibility_index] ] in
  let env_score :=
    fold_left Qplus env_components 0
    / inject_Z (Z.of_nat (List.length env_components)) in
  pymax 0.0 (pymin 1.0 env_score).

(** The logistic part of the function body, from [env_score] and [delta]. *)
Definition hope_logistic (env_score delta : Q) : R :=
  let baseline_logit := -2.5 + 3.0 * env_score in
  let logit := baseline_logit + 5.0 * delta in
  let p := (1 / (1 + exp (- Q2R logit)))%R in
  pymaxR 0 (pyminR 1 p).

Definition student_future_hope_probability (school : SchoolEcosystem)
    (world : ExternalWorld) (actor : Actor) : R :=
  hope_logistic (hope_env_score school) (hope_delta world actor).

(** *** The estimator with the error of [math.exp]

    [math.exp] raises [OverflowError] when its result exceeds the
    binary64 range.  The largest argument on which it returns is
    709.782712893384, the binary64 number 0x1.62e42fefa39efp+9. *)
Definition exp_overflow_limit : Q := 6243314768165359 # 8796093022208.

(** [math.exp(x)]: the real exponential, or [None] for [OverflowError]. *)
Definition math_exp (x : Q) : option R :=
  if Qgtb x exp_overflow_limit then None else Some (exp (Q2R x)).


(** The function as it runs: [None] when [math.exp(-logit)] raises. *)
Module Raising.

Definition hope_logistic (env_score delta : Q) : option R :=
  let baseline_logit := -2.5 + 3.0 * env_score in
  let logit := baseline_logit + 5.0 * delta in
  match math_exp (- logit) with
  | Some e =>
      let p := (1 / (1 + e))%R in
      Some (pymaxR 0 (pyminR 1 p))
  | None => None
  end.

Definition student_future_hope_probability (school : SchoolEcosystem)
    (world : ExternalWorld) (actor : Actor) : option R :=
  hope_logistic (hope_env_score school) (hope_delta world actor).

End Raising.


(** ** Reporting phase *)

Definition set_rebooted_outside (v : bool) (a : Actor) : Actor :=
  mkActor (name a) (role a) (os_version a) (adaptability a) (protected a)
    (change_attitude a) (burned_out a) (has_left_system a)
    v (casualty_of_system a) (opportunity_cost a)
    (opportunity_choice a) (future_hope_probability a) (is_future_hope a).

Definition set_casualty_of_system (v : bool) (a : Actor) : Actor :=
  mkActor (name a) (role a) (os_version a) (adaptability a) (protected a)
    (change_attitude a) (burned_out a) (has_left_system a)
    (rebooted_outside a) v (opportunity_cost a)
    (opportunity_choice a) (future_hope_probability a) (is_future_hope a).

Definition set_future_hope_probability (v : R) (a : Actor) : Actor :=
  mkActor (name a) (role a) (os_version a) (adaptability a) (protected a)
    (change_attitude a) (burned_out a) (has_left_system a)
    (rebooted_outside a) (casualty_of_system a) (opportunity_cost a)
    (opportunity_choice a) v (is_future_hope a).

Definition set_is_future_hope (v : bool) (a : Actor) : Actor :=
  mkActor (name a) (role a) (os_version a) (adaptability a) (protected a)
    (change_attitude a) (burned_out a) (has_left_system a)
    (rebooted_outside a) (casualty_of_system a) (opportunity_cost a)
    (opportunity_choice a) (future_hope_probability a) v.

(** First loop of [print_reintegration_report]: the staff who left. *)
Fixpoint reintegration_loop (world : ExternalWorld) (l : list Actor) (g : Rng)
    : list Actor * Rng :=
  match l with
  | [] => ([], g)
  | actor :: rest =>
      let '(actor, g) :=
        if is_staff actor && has_left_system actor then
          let '(outcome, g) := reintegration_outcome world actor g in
          if String.eqb outcome "rebooted"
          then (set_rebooted_outside true actor, g)
          else (set_casualty_of_system true actor, g)
        else (actor, g) in
      let '(rest, g) := reintegration_loop world rest g in
      (actor :: rest, g)
  end.

(** Second loop: every student gets a probability and a coin flip.  The
    result is the students as mutated, the list [future_hope_students]
    and the generator. *)
Fixpoint future_loop (school : SchoolEcosystem) (world : ExternalWorld)
    (students future_hope_students : list Actor) (g : Rng)
    : list Actor * list Actor * Rng :=
  match students with
  | [] => ([], future_hope_students, g)
  | actor :: rest =>
      let p_future := student_future_hope_probability school world actor in
      let actor := set_future_hope_probability p_future actor in
      let '(r, g) := random g in
      let actor :=
        set_is_future_hope (if Rlt_dec (Q2R r) p_future then true else false) actor in
      let future_hope_students :=
        if is_future_hope actor then future_hope_students ++ [actor]
        else future_hope_students in
      let '(rest, future_hope_students, g) :=
        future_loop school world rest future_hope_students g in
      (actor :: rest, future_hope_students, g)
  end.

(** [students] aliases the student objects of [school.actors]: the
    mutated students take their places in the roster. *)
Fixpoint write_back (roster students : list Actor) : list Actor :=
  match roster with
  | [] => []
  | a :: rest =>
      if is_student a then
        match students with
        | s :: ss => s :: write_back rest ss
        | [] => a :: write_back rest []
        end
      else a :: write_back rest students
  end.

Record Report := mkReport {
  report_school : SchoolEcosystem;
  report_rng : Rng;
  report_total : Z;
  report_fh : Z;
  report_ratio : Q
}.

Definition print_reintegration_report (school : SchoolEcosystem)
    (world : ExternalWorld) (g : Rng) : Report :=
  let '(roster, g) := reintegration_loop world (actors school) g in
  let school := set_actors roster school in
  let students := filter is_student (actors school) in
  let '(students, future_hope_students, g) :=
    future_loop school world students [] g in
  let school := set_actors (write_back (actors school) students) school in
  let total := Z.of_nat (List.length students) in
  let fh := Z.of_nat (List.length future_hope_students) in
  let ratio :=
    if (total >? 0)%Z then inject_Z fh / inject_Z total else 0.0 in
  mkReport school g total fh ratio.

(** ** A sample scenario

    The staff of [build_demo_scenario], with its world and constraints,
    and two students in place of the hundred generated ones. *)

Definition demo_world : ExternalWorld := mkExternalWorld 0.8 0.9.

Definition demo_env : EnvironmentConstraints := mkEnv 0.6 0.5 0.4.

Definition demo_school : SchoolEcosystem :=
  let school := new_SchoolEcosystem "ProtectedSchool" demo_env in
  let school := add_actor (new_Actor "LegacyDXChief" admin "LegacyOS-1995" 0.3 true neutral) school in
  let school := add_actor (new_Actor "LegacyTeacherA" teacher "LegacyOS-2000" 0.4 true support) school in
  let school := add_actor (new_Actor "LegacyTeacherB" teacher "LegacyOS-2005" 0.35 true resist) school in
  let school := add_actor (new_Actor "HighAdaptTeacher1" teacher "HighAdaptOS-2025 (LLM-aware)" 0.9 false support) school in
  let school := add_actor (new_Actor "HighAdaptTeacher2" teacher "HighAdaptOS-2022" 0.8 false support) school in
  let school := add_actor (new_Actor "HighAdaptTeacher3" teacher "HighAdaptOS-2020" 0.75 true neutral) school in
  let school := add_actor (new_Actor "Student1" student "StudentOS-1.0" 0.5 true neutral) school in
  let school := add_actor (new_Actor "Student2" student "StudentOS-1.0" 0.65 true support) school in
  school.

(** A generator whose every draw is one half. *)
Definition half_rng : Rng := mkRng (fun _ => 0.5) 0.

(** The thirteen ticks of a year as one list, in the order in which
    [simulate_year] calls them; [run] threads the school and the
    generator through such a list. *)
Definition tick := SchoolEcosystem -> Rng -> SchoolEcosystem * Rng.

Definition det (f : SchoolEcosystem -> SchoolEcosystem) : tick :=
  fun s g => (f s, g).

Definition run (l : list tick) (s : SchoolEcosystem) (g : Rng)
    : SchoolEcosystem * Rng :=
  fold_left (fun sg t => t (fst sg) (snd sg)) l (s, g).

Definition ticks_before_change : list tick :=
  [ _tick_infrastructure; _tick_dx_clarity; det _tick_strategy_layer;
    _tick_portal_and_db; det _tick_pm_and_design ].

Definition ticks_after_change : list tick :=
  [ det _tick_education_assets; det _tick_innovation;
    det _tick_external_systems; det _tick_trust_and_transparency;
    _tick_burnout; _tick_students; _tick_productivity_and_efficiency ].

Definition year_ticks : list tick :=
  ticks_before_change ++ [det _tick_change_dynamics] ++ ticks_after_change.

(** The demo school with its legacy staff only. *)
Definition legacy_school : SchoolEcosystem :=
  let school := new_SchoolEcosystem "ProtectedSchool" demo_env in
  let school := add_actor (new_Actor "LegacyDXChief" admin "LegacyOS-1995" 0.3 true neutral) school in
  let school := add_actor (new_Actor "LegacyTeacherA" teacher "LegacyOS-2000" 0.4 true support) school in
  let school := add_actor (new_Actor "LegacyTeacherB" teacher "LegacyOS-2005" 0.35 true resist) school in
  let school := add_actor (new_Actor "Student1" student "StudentOS-1.0" 0.5 true neutral) school in
  school.

(** A school with staff and no student. *)
Definition staff_school : SchoolEcosystem :=
  let school := new_SchoolEcosystem "ProtectedSchool" demo_env in
  let school := add_actor (new_Actor "LegacyDXChief" admin "LegacyOS-1995" 0.3 true neutral) school in
  let school := add_actor (new_Actor "HighAdaptTeacher1" teacher "HighAdaptOS-2025 (LLM-aware)" 0.9 false support) school in
  school.

(** The demo school at the moment its staff is at the top of the
    burnout scale. *)
Definition exhausted_school : SchoolEcosystem :=
  set burnout_index 1.0 demo_school.

(** ** Ranges *)

Definition in01 (v : Q) : Prop := 0 <= v <= 1.

(** The attributes documented as living in [0,1]: all the float
    attributes but the two accumulators and the randomness dial. *)
Definition bounded_attr (a : float_attr) : bool :=
  match a with
  | systemic_opportunity_cost | external_spend | randomness => false
  | _ => true
  end.

Definition env_in_range (e : EnvironmentConstraints) : Prop :=
  in01 (budget_pressure e) /\ in01 (regulation_rigidity e)
  /\ in01 (demographic_pressure e).

(** Every bounded attribute outside [ex] is in range, and so are the
    three constraints of [env]. *)
Definition bounded_except (ex : list float_attr) (s : SchoolEcosystem) : Prop :=
  (forall a, bounded_attr a = true -> ~ In a ex -> in01 s.[a])
  /\ env_in_range (env s).

Definition bounded_fields_ok (s : SchoolEcosystem) : Prop :=
  bounded_except [] s.

(** The same with any condition [E] on the constraints of [env] in the
    place of their ranges. *)
Definition bounded_under (E : EnvironmentConstraints -> Prop)
    (ex : list float_attr) (s : SchoolEcosystem) : Prop :=
  (forall a, bounded_attr a = true -> ~ In a ex -> in01 s.[a])
  /\ E (env s).

(** Every bounded attribute is in range, whatever [env] holds. *)
Definition bounded_attrs_ok (s : SchoolEcosystem) : Prop :=
  forall a, bounded_attr a = true -> in01 s.[a].

Definition pressure_not_negative (e : EnvironmentConstraints) : Prop :=
  0 <= demographic_pressure e.

(** A decision procedure for [bounded_fields_ok], used on concrete states. *)
Definition all_attrs : list float_attr :=
  [ infrastructure_health; dx_clarity; burnout_index; student_exit_rate;
    recruitment_difficulty; suppression_level; systemic_opportunity_cost;
    external_system_dependency; external_spend; learning_cost_index;
    system_complexity; workload_index; productivity_index;
    efficiency_index_true; efficiency_index_recognized;
    strategic_consistency; change_request_intensity; change_rejection_rate;
    educational_asset_index; central_repository_level;
    student_learning_efficiency; competitor_gap_index;
    innovation_potential_index; local_llm_infra_level;
    ai_service_quality_index; ai_accessibility_index; portal_maturity;
    database_foundation; process_fragmentation_index; pm_capability;
    grand_design_clarity; leadership_trust_battery; info_transparency;
    task_personalization_index; randomness ].

Definition in01b (v : Q) : bool := Qle_bool 0 v && Qle_bool v 1.

Definition bounded_fields_okb (s : SchoolEcosystem) : bool :=
  forallb (fun a => implb (bounded_attr a) (in01b s.[a])) all_attrs
  && in01b (budget_pressure (env s))
  && in01b (regulation_rigidity (env s))
  && in01b (demographic_pressure (env s)).

Definition bounded_attrs_okb (s : SchoolEcosystem) : bool :=
  forallb (fun a => implb (bounded_attr a) (in01b s.[a])) all_attrs.

(** The dataclass defaults under a demographic pressure of -10: every
    bounded attribute is in range, the constraint is not. *)
Definition negative_pressure_school : SchoolEcosystem :=
  new_SchoolEcosystem "GrowingTown" (mkEnv 0.5 0.5 (-10)).

(** ** What a tick leaves alone *)

(** [s'] differs from [s] at most in the float attributes of [writes],
    in the roster and in the integer counters. *)
Definition untouched (writes : list float_attr) (s s' : SchoolEcosystem) : Prop :=
  env s' = env s /\ dynamics s' = dynamics s /\ has_swot s' = has_swot s
  /\ forall a, ~ In a writes -> s'.[a] = s.[a].

Definition same_roster (s s' : SchoolEcosystem) : Prop :=
  actors s' = actors s.

Definition same_seeds (s s' : SchoolEcosystem) : Prop :=
  change_seeds_planted s' = change_seeds_planted s
  /\ change_seeds_suppressed s' = change_seeds_suppressed s.

(** ** The burnout trip, in the words of the specification *)

Definition burnout_threshold (a : Actor) : Q := 0.5 + (0.5 - adaptability a).

Definition trips (burnout : Q) (a : Actor) : Prop :=
  is_staff a = true /\ has_left_system a = false
  /\ burned_out a = false /\ burnout_threshold a < burnout.

Inductive burnout_outcome (burnout : Q) (a : Actor) : Actor -> Prop :=
  | outcome_unchanged :
      ~ trips burnout a -> burnout_outcome burnout a a
  | outcome_leave :
      trips burnout a -> 0.6 < adaptability a ->
      burnout_outcome burnout a
        (mkActor (name a) (role a) (os_version a) (adaptability a)
           (protected a) (change_attitude a) true true
           (rebooted_outside a) (casualty_of_system a)
           (opportunity_cost a + 1.0) leave_outside
           (future_hope_probability a) (is_future_hope a))
  | outcome_stay :
      trips burnout a -> adaptability a <= 0.6 ->
      burnout_outcome burnout a
        (mkActor (name a) (role a) (os_version a) (adaptability a)
           (protected a) (change_attitude a) true false
           (rebooted_outside a) (casualty_of_system a)
           (opportunity_cost a + 0.7) stay_inside
           (future_hope_probability a) (is_future_hope a)).

(** The two one-way flags of an actor, before and after. *)
Definition flags_kept (a a' : Actor) : Prop :=
  (burned_out a = true -> burned_out a' = true)
  /\ (has_left_system a = true -> has_left_system a' = true).

(** ** Write sets

    The float attributes each tick may assign. *)

Definition writes_infrastructure : list float_attr := [infrastructure_health].

Definition writes_dx_clarity : list float_attr := [dx_clarity].

Definition writes_strategy_layer : list float_attr :=
  [ change_request_intensity; change_rejection_rate; strategic_consistency;
    burnout_index; systemic_opportunity_cost ].

Definition writes_portal_and_db : list float_attr :=
  [ portal_maturity; database_foundation; process_fragmentation_index;
    student_learning_efficiency; productivity_index;
    task_personalization_index; workload_index; system_complexity;
    educational_asset_index ].

Definition writes_pm_and_design : list float_attr :=
  [ burnout_index; productivity_index; leadership_trust_battery;
    strategic_consistency ].

Definition writes_change_dynamics : list float_attr :=
  [ systemic_opportunity_cost; burnout_index; dx_clarity;
    infrastructure_health ].

Definition writes_education_assets : list float_attr :=
  [ student_learning_efficiency; competitor_gap_index;
    educational_asset_index; central_repository_level ].

Definition writes_innovation : list float_attr :=
  [ innovation_potential_index; local_llm_infra_level;
    ai_service_quality_index; ai_accessibility_index ].

Definition writes_external_systems : list float_attr :=
  [ external_system_dependency; external_spend; learning_cost_index;
    system_complexity; workload_index; infrastructure_health;
    burnout_index ].

Definition writes_trust_and_transparency : list float_attr :=
  [ leadership_trust_battery; info_transparency ].

Definition writes_burnout : list float_attr :=
  [ burnout_index; recruitment_difficulty ].

Definition writes_students : list float_attr := [student_exit_rate].

Definition writes_productivity_and_efficiency : list float_attr :=
  [ productivity_index; efficiency_index_true; efficiency_index_recognized ].

Definition writes_burnout_drivers_and_relief : list float_attr := [burnout_index].

Definition writes_productivity_contributions : list float_attr :=
  [productivity_index].

Definition writes_true_efficiency : list float_attr := [efficiency_index_true].

Definition writes_recognized_efficiency : list float_attr :=
  [efficiency_index_recognized].

(** A tick takes a state bounded outside [ex] to one bounded outside
    [ex'], and keeps the condition [E] on the constraints of [env]. *)
Definition tick_keeps (E : EnvironmentConstraints -> Prop)
    (ex ex' : list float_attr) (t : tick) : Prop :=
  forall s g, bounded_under E ex s -> bounded_under E ex' (fst (t s g)).

(** A tick writes no float attribute outside [w], and leaves [env],
    [dynamics] and [has_swot] alone. *)
Definition tick_writes (w : list float_attr) (t : tick) : Prop :=
  forall s g, untouched w s (fst (t s g)).

(** A tick leaves the roster and the two seed counters alone. *)
Definition tick_quiet (t : tick) : Prop :=
  forall s g, same_roster s (fst (t s g)) /\ same_seeds s (fst (t s g)).

(** With the randomness dial at zero or below, a tick draws nothing and
    its result does not depend on the generator. *)
Definition tick_noise_free (t : tick) : Prop :=
  forall s g g', s.[randomness] <= 0 ->
    fst (t s g) = fst (t s g') /\ snd (t s g) = g.

(** The actor fields that only the reporting phase assigns. *)
Definition report_fields_kept (a a' : Actor) : Prop :=
  rebooted_outside a' = rebooted_outside a
  /\ casualty_of_system a' = casualty_of_system a
  /\ future_hope_probability a' = future_hope_probability a
  /\ is_future_hope a' = is_future_hope a.

(** A tick takes every actor of the roster to an actor related to it by
    [R], position by position. *)
Definition tick_relates (R : Actor -> Actor -> Prop) (t : tick) : Prop :=
  forall s g, Forall2 R (actors s) (actors (fst (t s g))).

(** A tick never resets a flag of an actor of the roster. *)
Definition tick_keeps_flags (t : tick) : Prop := tick_relates flags_kept t.

(** Every tick of the year is noise free and leaves the dial alone. *)
Definition tick_deterministic (t : tick) : Prop :=
  tick_noise_free t
  /\ forall s g, (fst (t s g)).[randomness] = s.[randomness].

(** ** Relations on an actor before and after, for the roster *)

(** The identity of an actor: what no tick assigns. *)
Definition identity_kept (a a' : Actor) : Prop :=
  name a' = name a /\ role a' = role a /\ os_version a' = os_version a
  /\ protected a' = protected a /\ change_attitude a' = change_attitude a.

Definition cost_never_refunded (a a' : Actor) : Prop :=
  opportunity_cost a <= opportunity_cost a'.

(** Once an actor is burned out, the burnout loop passes it by. *)
Definition frozen_once_burned (a a' : Actor) : Prop :=
  burned_out a = true ->
  burned_out a' = true
  /\ has_left_system a' = has_left_system a
  /\ opportunity_cost a' = opportunity_cost a
  /\ opportunity_choice a' = opportunity_choice a.

(** The burnout loop skips students. *)
Definition student_lifecycle_kept (a a' : Actor) : Prop :=
  is_student a = true ->
  is_student a' = true
  /\ burned_out a' = burned_out a
  /\ has_left_system a' = has_left_system a
  /\ opportunity_cost a' = opportunity_cost a
  /\ opportunity_choice a' = opportunity_choice a.

(** The suppression loop skips the staff. *)
Definition staff_adaptability_kept (a a' : Actor) : Prop :=
  is_staff a = true ->
  is_staff a' = true /\ adaptability a' = adaptability a.

(** Adaptability only decays, and not below zero. *)
Definition adaptability_decays (a a' : Actor) : Prop :=
  0 <= adaptability a -> 0 <= adaptability a' <= adaptability a.

Definition high_adapter_kept (a a' : Actor) : Prop :=
  is_high_adapter a' = is_high_adapter a.

(** The three states of an actor that starts with the dataclass
    defaults. *)
Definition in_system_state (a : Actor) : Prop :=
  burned_out a = false /\ has_left_system a = false
  /\ opportunity_choice a = none /\ opportunity_cost a == 0.

Definition departed_state (a : Actor) : Prop :=
  is_staff a = true /\ burned_out a = true /\ has_left_system a = true
  /\ opportunity_choice a = leave_outside /\ opportunity_cost a == 1.0
  /\ 0.6 < adaptability a.

Definition stayed_state (a : Actor) : Prop :=
  is_staff a = true /\ burned_out a = true /\ has_left_system a = false
  /\ opportunity_choice a = stay_inside /\ opportunity_cost a == 0.7
  /\ adaptability a <= 0.6.

Definition lifecycle_state (a : Actor) : Prop :=
  in_system_state a \/ departed_state a \/ stayed_state a.

Definition lifecycle_kept (a a' : Actor) : Prop :=
  lifecycle_state a -> lifecycle_state a'.

(** ** Relations on the ecosystem before and after a tick *)

Definition tick_respects (R : SchoolEcosystem -> SchoolEcosystem -> Prop)
    (t : tick) : Prop :=
  forall s g, R s (fst (t s g)).

Definition same_books (s s' : SchoolEcosystem) : Prop :=
  eco_name s' = eco_name s /\ years_simulated s' = years_simulated s.

Definition same_slogans (s s' : SchoolEcosystem) : Prop :=
  rhetorical_change_slogans s' = rhetorical_change_slogans s.

(** What [simulate_year] never assigns. *)
Definition same_configuration (s s' : SchoolEcosystem) : Prop :=
  eco_name s' = eco_name s /\ env s' = env s /\ dynamics s' = dynamics s
  /\ has_swot s' = has_swot s
  /\ s'.[suppression_level] = s.[suppression_level]
  /\ s'.[pm_capability] = s.[pm_capability]
  /\ s'.[grand_design_clarity] = s.[grand_design_clarity]
  /\ s'.[randomness] = s.[randomness].

Definition accumulators_grow (s s' : SchoolEcosystem) : Prop :=
  s.[systemic_opportunity_cost] <= s'.[systemic_opportunity_cost]
  /\ s.[external_spend] <= s'.[external_spend].

(** The number of seeds a year plants: the teachers and admins of
    adaptability at least 0.7, departed or not. *)
Definition seeds_per_year (s : SchoolEcosystem) : Z :=
  Z.of_nat (List.length (filter is_high_adapter (actors s))).

(** The attributes that only a path gated by
    [suppression_level < 0.4] can raise. *)
Definition gated_improvement (a : float_attr) : bool :=
  match a with
  | portal_maturity | database_foundation
  | educational_asset_index | central_repository_level
  | innovation_potential_index | local_llm_infra_level
  | ai_service_quality_index | ai_accessibility_index
  | leadership_trust_battery | info_transparency
  | strategic_consistency => true
  | _ => false
  end.

Definition no_gated_improvement (s s' : SchoolEcosystem) : Prop :=
  0.4 <= s.[suppression_level] ->
  s'.[suppression_level] = s.[suppression_level]
  /\ forall a, gated_improvement a = true ->
       0 <= s.[a] -> 0 <= s'.[a] <= s.[a].



(** The slogans a year adds: one, when there is no SWOT and suppression
    is strong. *)
Definition slogans_per_year (s : SchoolEcosystem) : Z :=
  if negb (has_swot s) && Qgtb s.[suppression_level] 0.6 then 1 else 0.



(** ** The external world's verdicts *)


(** [len(s)] for a [str] held as its UTF-8 bytes: Python counts
    characters, and every character has exactly one byte that is not a
    continuation byte (0x80 to 0xBF). *)
Definition is_continuation_byte (c : ascii) : bool :=
  (128 <=? nat_of_ascii c)%nat && (nat_of_ascii c <=? 191)%nat.

Definition py_len (s : string) : nat :=
  List.length
    (filter (fun c => negb (is_continuation_byte c)) (list_ascii_of_string s)).

(** [f"{s:20s}"]: left aligned, filled with spaces up to a width
    counted in characters, never cut. *)
Definition pad (width : nat) (s : string) : string :=
  (s ++ string_of_list_ascii (repeat " "%char (width - py_len s)))%string.

Definition newline : string := String "010"%char EmptyString.

(** [print_world_comparison], as the list of the strings it prints. *)
Definition print_world_comparison (school : SchoolEcosystem)
    (world : ExternalWorld) : list string :=
  (newline ++ "=== External World Survival Check (Staff) ===")%string
  :: map (fun actor =>
            let survive := evaluate_actor world actor in
            let tag :=
              (if survive then "SURVIVES_OUTSIDE" else "ONLY_SAFE_INSIDE")%string in
            (pad 20 (name actor) ++ " (" ++ pad 30 (os_version actor)
             ++ ") -> " ++ tag)%string)
         (filter is_staff (actors school)).

(** What the comparison reads of an actor. *)
Definition comparison_kept (a a' : Actor) : Prop :=
  name a' = name a /\ role a' = role a /\ os_version a' = os_version a
  /\ change_attitude a' = change_attitude a
  /\ (is_staff a = true -> adaptability a' = adaptability a).

(** ** The reporting phase, actor by actor *)

(** The condition of the first loop of the report. *)
Definition departed_staff (a : Actor) : bool :=
  is_staff a && has_left_system a.

(** What the first loop does to an actor. *)
Definition verdict_step (a a' : Actor) : Prop :=
  if departed_staff a
  then a' = set_rebooted_outside true a \/ a' = set_casualty_of_system true a
  else a' = a.

(** What the second loop does to a student. *)
Definition hope_step (school : SchoolEcosystem) (world : ExternalWorld)
    (a a' : Actor) : Prop :=
  exists b,
    a' = set_is_future_hope b
           (set_future_hope_probability
              (student_future_hope_probability school world a) a).

(** What the whole report does to an actor of the roster. *)
Inductive report_outcome (school : SchoolEcosystem) (world : ExternalWorld)
    (a : Actor) : Actor -> Prop :=
  | outcome_rebooted :
      departed_staff a = true ->
      report_outcome school world a (set_rebooted_outside true a)
  | outcome_casualty :
      departed_staff a = true ->
      report_outcome school world a (set_casualty_of_system true a)
  | outcome_student b :
      is_student a = true ->
      report_outcome school world a
        (set_is_future_hope b
           (set_future_hope_probability
              (student_future_hope_probability school world a) a))
  | outcome_untouched :
      departed_staff a = false -> is_student a = false ->
      report_outcome school world a a.


(** ** The hidden message *)




(** Two ecosystems that differ at most in their rosters. *)
Definition only_roster_differs (s s' : SchoolEcosystem) : Prop :=
  eco_name s' = eco_name s /\ env s' = env s /\ dynamics s' = dynamics s
  /\ floats s' = floats s
  /\ years_simulated s' = years_simulated s
  /\ change_seeds_planted s' = change_seeds_planted s
  /\ change_seeds_suppressed s' = change_seeds_suppressed s
  /\ has_swot s' = has_swot s
  /\ rhetorical_change_slogans s' = rhetorical_change_slogans s.

(** No verdict of the external world yet. *)
Definition no_verdict (a : Actor) : Prop :=
  rebooted_outside a = false /\ casualty_of_system a = false.

(** Exactly one verdict for a teacher or admin who left, none for the
    others. *)
Definition one_verdict (a : Actor) : Prop :=
  if departed_staff a
  then rebooted_outside a = negb (casualty_of_system a)
  else no_verdict a.

(** ** The teacher counts of the summary *)

(** [a.role == "teacher"] *)
Definition is_teacher (a : Actor) : bool :=
  match role a with teacher => true | _ => false end.

Record TeacherCounts := mkTeacherCounts {
  teachers_total : Z;
  teachers_active : Z;
  teachers_burned_out : Z;
  teachers_who_left : Z;
  teachers_rebooted_outside : Z;
  teacher_casualties : Z
}.

(** The comprehensions over the teachers with which [summary] opens,
    and the six lengths that its last lines print. *)
Definition summary_counts (self : SchoolEcosystem) : TeacherCounts :=
  let teachers := filter is_teacher (actors self) in
  let active_teachers := filter (fun t => negb (has_left_system t)) teachers in
  let left_teachers := filter has_left_system teachers in
  let burned_teachers := filter burned_out teachers in
  let casualties := filter casualty_of_system teachers in
  let rebooted := filter rebooted_outside teachers in
  mkTeacherCounts
    (Z.of_nat (List.length teachers))
    (Z.of_nat (List.length active_teachers))
    (Z.of_nat (List.length burned_teachers))
    (Z.of_nat (List.length left_teachers))
    (Z.of_nat (List.length rebooted))
    (Z.of_nat (List.length casualties)).

(** What the counts read of an actor, and how a year may move it. *)
Definition counts_step (a a' : Actor) : Prop :=
  role a' = role a
  /\ (burned_out a = true -> burned_out a' = true)
  /\ (has_left_system a = true -> has_left_system a' = true)
  /\ rebooted_outside a' = rebooted_outside a
  /\ casualty_of_system a' = casualty_of_system a.

(** ** Stakeholder utilities *)

Record StakeholderUtility := mkStakeholderUtility {
  utility_name : string;
  (** the items of the dict, in insertion order *)
  weights : list (string * Q)
}.

(** The float attributes of a [SchoolEcosystem] by their names. *)
Definition float_attributes : list (string * float_attr) :=
  [ ("infrastructure_health", infrastructure_health);
    ("dx_clarity", dx_clarity);
    ("burnout_index", burnout_index);
    ("student_exit_rate", student_exit_rate);
    ("recruitment_difficulty", recruitment_difficulty);
    ("suppression_level", suppression_level);
    ("systemic_opportunity_cost", systemic_opportunity_cost);
    ("external_system_dependency", external_system_dependency);
    ("external_spend", external_spend);
    ("learning_cost_index", learning_cost_index);
    ("system_complexity", system_complexity);
    ("workload_index", workload_index);
    ("productivity_index", productivity_index);
    ("efficiency_index_true", efficiency_index_true);
    ("efficiency_index_recognized", efficiency_index_recognized);
    ("strategic_consistency", strategic_consistency);
    ("change_request_intensity", change_request_intensity);
    ("change_rejection_rate", change_rejection_rate);
    ("educational_asset_index", educational_asset_index);
    ("central_repository_level", central_repository_level);
    ("student_learning_efficiency", student_learning_efficiency);
    ("competitor_gap_index", competitor_gap_index);
    ("innovation_potential_index", innovation_potential_index);
    ("local_llm_infra_level", local_llm_infra_level);
    ("ai_service_quality_index", ai_service_quality_index);
    ("ai_accessibility_index", ai_accessibility_index);
    ("portal_maturity", portal_maturity);
    ("database_foundation", database_foundation);
    ("process_fragmentation_index", process_fragmentation_index);
    ("pm_capability", pm_capability);
    ("grand_design_clarity", grand_design_clarity);
    ("leadership_trust_battery", leadership_trust_battery);
    ("info_transparency", info_transparency);
    ("task_personalization_index", task_personalization_index);
    ("randomness", randomness) ]%string.

Fixpoint assoc {A : Type} (k : string) (l : list (string * A)) : option A :=
  match l with
  | [] => None
  | (k', v) :: rest => if String.eqb k k' then Some v else assoc k rest
  end.

(** [getattr(school, attr)] when it is a number that [w * v] takes: a
    float attribute, one of the four int attributes, or the bool
    [has_swot], which counts as 0 or 1.  [None] stands for the two ways
    in which [score] raises: the name is no attribute of the school, or
    the attribute is no number (the name, the constraints, the
    coefficients, the roster, a method). *)
Definition numeric_attribute (school : SchoolEcosystem) (attr : string)
    : option Q :=
  match assoc attr float_attributes with
  | Some a => Some school.[a]
  | None =>
      if (attr =? "years_simulated")%string
      then Some (inject_Z (years_simulated school))
      else if (attr =? "change_seeds_planted")%string
      then Some (inject_Z (change_seeds_planted school))
      else if (attr =? "change_seeds_suppressed")%string
      then Some (inject_Z (change_seeds_suppressed school))
      else if (attr =? "rhetorical_change_slogans")%string
      then Some (inject_Z (rhetorical_change_slogans school))
      else if (attr =? "has_swot")%string
      then Some (if has_swot school then 1 else 0)
      else None
  end.

(** The loop of [score] over [self.weights.items()]. *)
Fixpoint score_loop (school : SchoolEcosystem) (items : list (string * Q))
    (s : Q) : option Q :=
  match items with
  | [] => Some s
  | (attr, w) :: rest =>
      match numeric_attribute school attr with
      | Some v => score_loop school rest (s + w * v)
      | None => None
      end
  end.

Definition score (self : StakeholderUtility) (school : SchoolEcosystem)
    : option Q :=
  score_loop school (weights self) 0.0.

Definition build_default_utilities : list StakeholderUtility :=
  [ mkStakeholderUtility "TeacherPerspective"
      [ ("burnout_index", -0.7);
        ("workload_index", -0.5);
        ("student_learning_efficiency", 0.3);
        ("leadership_trust_battery", 0.4);
        ("recruitment_difficulty", -0.3) ]%string;
    mkStakeholderUtility "ManagementKPIPerspective"
      [ ("efficiency_index_recognized", 0.6);
        ("external_spend", -0.3);
        ("competitor_gap_index", -0.4);
        ("student_exit_rate", -0.4) ]%string;
    mkStakeholderUtility "StudentParentPerspective"
      [ ("student_learning_efficiency", 0.6);
        ("ai_accessibility_index", 0.4);
        ("ai_service_quality_index", 0.4);
        ("burnout_index", -0.3);
        ("student_exit_rate", -0.5) ]%string ].

(** * The binary64 model

    The same engine with the arithmetic of the source: a Python [float]
    is an IEEE 754 binary64 number, here a primitive [float], and every
    literal, sum, product and comparison rounds and compares as Python
    does.  The definitions follow those of the exact model statement by
    statement; only the number type differs.  The future-hope estimator
    is not repeated here: it calls [math.exp]. *)

Module Binary64.

#[local] Set Warnings "-inexact-float,-notation-overridden".
#[local] Open Scope float_scope.

(** ** Python comparison and min/max on floats *)

(** [a < b], [a > b], [a >= b] and [a <= b]: false when an operand is
    NaN. *)
Definition ltb (a b : float) : bool := PrimFloat.ltb a b.
Definition gtb (a b : float) : bool := PrimFloat.ltb b a.
Definition geb (a b : float) : bool := PrimFloat.leb b a.
Definition leb (a b : float) : bool := PrimFloat.leb a b.

(** [min(a, b)] keeps the first argument unless the second is smaller;
    [max(a, b)] keeps the first argument unless the second is larger. *)
Definition pymin (a b : float) : float := if ltb b a then b else a.
Definition pymax (a b : float) : float := if gtb b a then b else a.

(** [max(0.0, min(1.0, v))] *)
Definition clamp01 (v : float) : float := pymax 0.0 (pymin 1.0 v).

(** [float(n)] for an [int] that is the length of a list: exact below
    2^53, and a list is shorter than 2^63. *)
Definition of_int (n : Z) : float := PrimFloat.of_uint63 (Uint63.of_Z n).

(** ** The random module *)

Record Rng := mkRng { draws : nat -> float; pos : nat }.

(** [random.random()] *)
Definition random (g : Rng) : float * Rng :=
  (draws g (pos g), mkRng (draws g) (S (pos g))).

(** [random.uniform(a, b)] is [a + (b - a) * random()]. *)
Definition uniform (a b : float) (g : Rng) : float * Rng :=
  let '(r, g) := random g in (a + (b - a) * r, g).

(** ** Individual actors *)


Record Actor := mkActor {
  name : string;
  role : Role;
  os_version : string;
  adaptability : float;
  protected : bool;
  change_attitude : ChangeAttitude;
  burned_out : bool;
  has_left_system : bool;
  rebooted_outside : bool;
  casualty_of_system : bool;
  opportunity_cost : float;
  opportunity_choice : OpportunityChoice;
  future_hope_probability : float;
  is_future_hope : bool
}.

(** The dataclass constructor with its defaults. *)
Definition new_Actor (n : string) (r : Role) (os : string) (ad : float)
    (prot : bool) (att : ChangeAttitude) : Actor :=
  mkActor n r os ad prot att false false false false 0 none 0 false.

Definition is_staff (a : Actor) : bool :=
  match role a with teacher | admin => true | student => false end.

Definition is_student (a : Actor) : bool :=
  match role a with student => true | _ => false end.

(** ** External world *)

Record ExternalWorld := mkExternalWorld {
  selection_pressure : float;
  ai_shift_speed : float
}.

Definition required_threshold (self : ExternalWorld) : float :=
  selection_pressure self + (ai_shift_speed self * 0.1).

Definition base_effective_adaptability (self : ExternalWorld) (actor : Actor) : float :=
  let base := adaptability actor in
  let base :=
    if contains "LegacyOS" (os_version actor) then base - 0.15 else base in
  let base :=
    if existsb (fun tag => contains tag (os_version actor))
         ["HighAdaptOS"; "MasOS"; "LLM-aware"]%string
    then base + 0.15 else base in
  let base :=
    match change_attitude actor with
    | support => base + 0.05
    | resist => base - 0.05
    | neutral => base
    end in
  base.

Definition evaluate_actor (self : ExternalWorld) (actor : Actor) : bool :=
  let base := base_effective_adaptability self actor in
  let required := required_threshold self in
  geb base required.

Definition reintegration_outcome (self : ExternalWorld) (actor : Actor)
    (g : Rng) : string * Rng :=
  let base := base_effective_adaptability self actor in
  let base := if burned_out actor then base - 0.2 else base in
  let '(u, g) := uniform (-0.1) 0.1 g in
  let base := base + u in
  let required := required_threshold self in
  ((if geb base required then "rebooted" else "casualty")%string, g).

(** ** Macro constraints and dynamics coefficients *)

Record EnvironmentConstraints := mkEnv {
  budget_pressure : float;
  regulation_rigidity : float;
  demographic_pressure : float
}.

Record DynamicsCoefficients := mkDyn {
  infra_to_burnout : float;
  dxclarity_to_burnout : float;
  workload_to_burnout : float;
  complexity_to_burnout : float;
  trustlack_to_burnout : float;
  personalization_to_burnout : float;
  llm_relief_to_burnout : float;
  ai_service_relief_to_burnout : float;
  external_system_to_productivity : float;
  complexity_to_productivity : float;
  workload_to_productivity : float;
  infra_bad_to_productivity : float;
  fragmentation_to_productivity : float;
  personalization_to_productivity : float;
  llm_to_productivity : float;
  ai_access_to_productivity : float;
  base_eff_infra_weight : float;
  base_eff_dxclarity_weight : float;
  suppression_bonus_to_eff : float;
  llm_to_efficiency : float;
  db_to_efficiency : float;
  portal_to_efficiency : float;
  personalization_to_efficiency : float
}.

Definition default_dynamics : DynamicsCoefficients :=
  mkDyn 0.1 0.1 0.05 0.05 0.05 0.05
        0.04 0.03
        0.03 0.04 0.02 0.02 0.03 0.03
        0.05 0.03
        0.4 0.3 0.1 0.1 0.05 0.05 0.05.

(** ** School ecosystem *)

Record SchoolEcosystem := mkSchool {
  eco_name : string;
  env : EnvironmentConstraints;
  dynamics : DynamicsCoefficients;
  actors : list Actor;
  floats : float_attr -> float;
  years_simulated : Z;
  change_seeds_planted : Z;
  change_seeds_suppressed : Z;
  has_swot : bool;
  rhetorical_change_slogans : Z
}.


#[local] Notation "s '.[' a ']'" := (floats s a) (at level 1, left associativity, format "s .[ a ]").

(** Attribute assignment. *)
Definition set (a : float_attr) (v : float) (s : SchoolEcosystem) : SchoolEcosystem :=
  mkSchool (eco_name s) (env s) (dynamics s) (actors s)
    (fun b => if float_attr_beq a b then v else s.[b])
    (years_simulated s) (change_seeds_planted s) (change_seeds_suppressed s)
    (has_swot s) (rhetorical_change_slogans s).

Definition set_actors (l : list Actor) (s : SchoolEcosystem) : SchoolEcosystem :=
  mkSchool (eco_name s) (env s) (dynamics s) l (floats s)
    (years_simulated s) (change_seeds_planted s) (change_seeds_suppressed s)
    (has_swot s) (rhetorical_change_slogans s).

Definition set_years_simulated (n : Z) (s : SchoolEcosystem) : SchoolEcosystem :=
  mkSchool (eco_name s) (env s) (dynamics s) (actors s) (floats s)
    n (change_seeds_planted s) (change_seeds_suppressed s)
    (has_swot s) (rhetorical_change_slogans s).

Definition set_change_seeds_planted (n : Z) (s : SchoolEcosystem) : SchoolEcosystem :=
  mkSchool (eco_name s) (env s) (dynamics s) (actors s) (floats s)
    (years_simulated s) n (change_seeds_suppressed s)
    (has_swot s) (rhetorical_change_slogans s).

Definition set_change_seeds_suppressed (n : Z) (s : SchoolEcosystem) : SchoolEcosystem :=
  mkSchool (eco_name s) (env s) (dynamics s) (actors s) (floats s)
    (years_simulated s) (change_seeds_planted s) n
    (has_swot s) (rhetorical_change_slogans s).

Definition set_rhetorical_change_slogans (n : Z) (s : SchoolEcosystem) : SchoolEcosystem :=
  mkSchool (eco_name s) (env s) (dynamics s) (actors s) (floats s)
    (years_simulated s) (change_seeds_planted s) (change_seeds_suppressed s)
    (has_swot s) n.

(** [self.a += d] and [self.a -= d] *)
Definition add_to (a : float_attr) (d : float) (s : SchoolEcosystem) : SchoolEcosystem :=
  set a (s.[a] + d) s.
Definition sub_from (a : float_attr) (d : float) (s : SchoolEcosystem) : SchoolEcosystem :=
  set a (s.[a] - d) s.

(** [for attr in (...): setattr(self, attr, max(0.0, min(1.0, getattr(self, attr))))] *)
Definition clamp_attrs (l : list float_attr) (s : SchoolEcosystem) : SchoolEcosystem :=
  fold_left (fun s a => set a (clamp01 s.[a]) s) l s.

(** The field defaults of the dataclass. *)
Definition default_floats (a : float_attr) : float :=
  match a with
  | infrastructure_health => 0.4
  | dx_clarity => 0.1
  | burnout_index => 0.0
  | student_exit_rate => 0.0
  | recruitment_difficulty => 0.3
  | suppression_level => 0.8
  | systemic_opportunity_cost => 0.0
  | external_system_dependency => 0.0
  | external_spend => 0.0
  | learning_cost_index => 0.0
  | system_complexity => 0.3
  | workload_index => 0.5
  | productivity_index => 0.7
  | efficiency_index_true => 0.4
  | efficiency_index_recognized => 0.1
  | strategic_consistency => 0.2
  | change_request_intensity => 0.3
  | change_rejection_rate => 0.6
  | educational_asset_index => 0.1
  | central_repository_level => 0.0
  | student_learning_efficiency => 0.4
  | competitor_gap_index => 0.1
  | innovation_potential_index => 0.0
  | local_llm_infra_level => 0.0
  | ai_service_quality_index => 0.0
  | ai_accessibility_index => 0.0
  | portal_maturity => 0.1
  | database_foundation => 0.1
  | process_fragmentation_index => 0.7
  | pm_capability => 0.2
  | grand_design_clarity => 0.1
  | leadership_trust_battery => 0.4
  | info_transparency => 0.3
  | task_personalization_index => 0.85
  | randomness => 0.05
  end.

Definition new_SchoolEcosystem (n : string) (e : EnvironmentConstraints) : SchoolEcosystem :=
  mkSchool n e default_dynamics [] default_floats 0 0 0 false 0.

Definition add_actor (actor : Actor) (self : SchoolEcosystem) : SchoolEcosystem :=
  set_actors (actors self ++ [actor]) self.

(** *** The noise helper *)

Definition _noise (self : SchoolEcosystem) (scale : float) (g : Rng) : float * Rng :=
  if leb self.[randomness] 0 || leb scale 0 then (0, g)
  else let '(u, g) := uniform (- scale) scale g in (u * self.[randomness], g).

(** *** Internal dynamics *)

Definition _tick_infrastructure (self : SchoolEcosystem) (g : Rng)
    : SchoolEcosystem * Rng :=
  let '(n, g) := _noise self 0.02 g in
  let self := add_to infrastructure_health (-0.03 + n) self in
  let self := set infrastructure_health (clamp01 self.[infrastructure_health]) self in
  (self, g).

Definition _tick_dx_clarity (self : SchoolEcosystem) (g : Rng)
    : SchoolEcosystem * Rng :=
  let '(n, g) := _noise self 0.02 g in
  let self := add_to dx_clarity (-0.02 + n) self in
  let self := set dx_clarity (clamp01 self.[dx_clarity]) self in
  (self, g).

Definition _tick_strategy_layer (self : SchoolEcosystem) : SchoolEcosystem :=
  let strong_suppression := gtb self.[suppression_level] 0.6 in
  let self :=
    if negb (has_swot self) && strong_suppression then
      let self := add_to change_request_intensity (0.03 * self.[suppression_level]) self in
      let self := add_to change_rejection_rate (0.02 * self.[suppression_level]) self in
      let self := sub_from strategic_consistency (0.03 * self.[suppression_level]) self in
      let self := set_rhetorical_change_slogans (rhetorical_change_slogans self + 1)%Z self in
      let self := add_to burnout_index (0.02 * self.[suppression_level]) self in
      let self := add_to systemic_opportunity_cost (0.1 * self.[suppression_level]) self in
      self
    else self in
  let self :=
    if has_swot self && ltb self.[suppression_level] 0.4 && gtb self.[dx_clarity] 0.5 then
      let self := sub_from change_request_intensity 0.02 self in
      let self := sub_from change_rejection_rate 0.03 self in
      let self := add_to strategic_consistency 0.05 self in
      self
    else self in
  clamp_attrs [change_request_intensity; change_rejection_rate; strategic_consistency] self.

Definition _tick_portal_and_db (self : SchoolEcosystem) (g : Rng)
    : SchoolEcosystem * Rng :=
  (* Negative path *)
  let '(self, g) :=
    if ltb self.[portal_maturity] 0.4
       && ltb self.[database_foundation] 0.4
       && ltb self.[dx_clarity] 0.3
    then
      let '(n, g) := _noise self 0.02 g in
      let self := add_to process_fragmentation_index (0.04 + n) self in
      let self := add_to workload_index 0.02 self in
      let self := add_to system_complexity 0.03 self in
      let self := sub_from student_learning_efficiency 0.02 self in
      let self := sub_from productivity_index 0.01 self in
      let self := add_to task_personalization_index 0.03 self in
      (self, g)
    else (self, g) in
  (* Positive path (regulation can slow it) *)
  let self :=
    if ltb self.[suppression_level] 0.4
       && gtb self.[dx_clarity] 0.5
       && gtb self.[infrastructure_health] 0.4
    then
      let factor := 1.0 - 0.5 * regulation_rigidity (env self) in
      if gtb factor 0.0 then
        let self := add_to portal_maturity (0.05 * factor) self in
        let self := add_to database_foundation (0.05 * factor) self in
        let self := sub_from process_fragmentation_index (0.05 * factor) self in
        let self := add_to educational_asset_index (0.03 * factor) self in
        let self := sub_from task_personalization_index (0.05 * factor) self in
        self
      else self
    else self in
  (clamp_attrs
     [portal_maturity; database_foundation; process_fragmentation_index;
      student_learning_efficiency; productivity_index;
      task_personalization_index; workload_index; system_complexity;
      educational_asset_index] self, g).

Definition _tick_pm_and_design (self : SchoolEcosystem) : SchoolEcosystem :=
  (* Negative PM world *)
  let self :=
    if ltb self.[pm_capability] 0.4
       && ltb self.[grand_design_clarity] 0.4
       && gtb self.[change_request_intensity] 0.4
       && gtb self.[change_rejection_rate] 0.5
    then
      let self := add_to burnout_index 0.03 self in
      let self := sub_from productivity_index 0.02 self in
      let self := sub_from leadership_trust_battery 0.03 self in
      let self := sub_from strategic_consistency 0.02 self in
      self
    else self in
  (* Positive PM world *)
  let self :=
    if gtb self.[pm_capability] 0.6
       && gtb self.[grand_design_clarity] 0.6
       && gtb self.[dx_clarity] 0.5
       && ltb self.[suppression_level] 0.4
    then
      let self := sub_from burnout_index 0.02 self in
      let self := add_to productivity_index 0.03 self in
      let self := add_to leadership_trust_battery 0.05 self in
      let self := add_to strategic_consistency 0.03 self in
      self
    else self in
  clamp_attrs
    [burnout_index; productivity_index; leadership_trust_battery;
     strategic_consistency] self.

(** The comprehension selecting the high adapters among the staff. *)
Definition is_high_adapter (a : Actor) : bool :=
  is_staff a && geb (adaptability a) 0.7.

Definition set_adaptability (v : float) (a : Actor) : Actor :=
  mkActor (name a) (role a) (os_version a) v (protected a)
    (change_attitude a) (burned_out a) (has_left_system a)
    (rebooted_outside a) (casualty_of_system a) (opportunity_cost a)
    (opportunity_choice a) (future_hope_probability a) (is_future_hope a).

(** The body of the loop over [self.actors] in the suppressed branch. *)
Definition suppress_student (s : float) (stud : Actor) : Actor :=
  if is_student stud then
    let stud := set_adaptability (adaptability stud - 0.01 * s) stud in
    set_adaptability (pymax 0.0 (adaptability stud)) stud
  else stud.

Definition _tick_change_dynamics (self : SchoolEcosystem) : SchoolEcosystem :=
  let high_adapters := filter is_high_adapter (actors self) in
  let seeds := Z.of_nat (List.length high_adapters) in
  if (seeds =? 0)%Z then self
  else
    let self := set_change_seeds_planted (change_seeds_planted self + seeds)%Z self in
    let s := self.[suppression_level] in
    let self :=
      if gtb s 0.5 then
        let self :=
          set_change_seeds_suppressed (change_seeds_suppressed self + seeds)%Z self in
        let self := add_to systemic_opportunity_cost (of_int seeds * 0.4 * s) self in
        let self := add_to burnout_index (0.04 * s) self in
        let self := sub_from dx_clarity (0.02 * s) self in
        set_actors (map (suppress_student s) (actors self)) self
      else
        let openness := 1.0 - s in
        let self := add_to infrastructure_health (0.04 * openness) self in
        let self := add_to dx_clarity (0.08 * openness) self in
        let self := sub_from burnout_index (0.02 * openness) self in
        self in
    let self := set dx_clarity (clamp01 self.[dx_clarity]) self in
    let self := set infrastructure_health (clamp01 self.[infrastructure_health]) self in
    let self := set burnout_index (clamp01 self.[burnout_index]) self in
    self.

Definition _tick_education_assets (self : SchoolEcosystem) : SchoolEcosystem :=
  (* Negative path *)
  let self :=
    if ltb self.[educational_asset_index] 0.5
       && ltb self.[central_repository_level] 0.3
       && ltb self.[dx_clarity] 0.3
    then
      let self := sub_from student_learning_efficiency 0.03 self in
      let self := add_to competitor_gap_index 0.05 self in
      self
    else self in
  (* Positive path (budget can slow it) *)
  let self :=
    if ltb self.[suppression_level] 0.4 && gtb self.[dx_clarity] 0.5 then
      let factor := 1.0 - 0.5 * budget_pressure (env self) in
      if gtb factor 0.0 then
        let self := add_to educational_asset_index (0.05 * factor) self in
        let self := add_to central_repository_level (0.05 * factor) self in
        let self := add_to student_learning_efficiency (0.04 * factor) self in
        let self := sub_from competitor_gap_index (0.03 * factor) self in
        self
      else self
    else self in
  (* Local LLM infra boosts learning efficiency and reduces the gap *)
  let self :=
    if gtb self.[local_llm_infra_level] 0.0 then
      let boost := 0.03 * self.[local_llm_infra_level] in
      let self := add_to student_learning_efficiency boost self in
      let self := sub_from competitor_gap_index (0.02 * self.[local_llm_infra_level]) self in
      self
    else self in
  clamp_attrs
    [student_learning_efficiency; competitor_gap_index;
     educational_asset_index; central_repository_level] self.

Definition _tick_innovation (self : SchoolEcosystem) : SchoolEcosystem :=
  let ready_for_innovation :=
    geb self.[educational_asset_index] 0.5
    && geb self.[central_repository_level] 0.5
    && geb self.[dx_clarity] 0.6
    && ltb self.[suppression_level] 0.4
    && geb self.[infrastructure_health] 0.5
    && ltb (budget_pressure (env self)) 0.8 in
  let self :=
    if ready_for_innovation then
      let self := add_to innovation_potential_index 0.05 self in
      let self :=
        set innovation_potential_index (pymin 1.0 self.[innovation_potential_index]) self in
      let budget_factor := 1.0 - 0.5 * budget_pressure (env self) in
      let self :=
        if gtb budget_factor 0 then
          add_to local_llm_infra_level
            (0.04 * self.[innovation_potential_index] * budget_factor) self
        else self in
      let self :=
        set local_llm_infra_level
          (pymin 1.0 (pymax 0.0 self.[local_llm_infra_level])) self in
      let self := add_to ai_service_quality_index (0.05 * self.[local_llm_infra_level]) self in
      let self := add_to ai_accessibility_index (0.04 * self.[local_llm_infra_level]) self in
      self
    else
      let decay := 0.02 in
      let self :=
        if gtb self.[suppression_level] 0.6 || ltb self.[dx_clarity] 0.3 then
          sub_from innovation_potential_index decay self
        else self in
      let self := sub_from local_llm_infra_level 0.01 self in
      let self := sub_from ai_service_quality_index 0.01 self in
      let self := sub_from ai_accessibility_index 0.01 self in
      self in
  clamp_attrs
    [innovation_potential_index; local_llm_infra_level;
     ai_service_quality_index; ai_accessibility_index] self.

Definition _tick_external_systems (self : SchoolEcosystem) : SchoolEcosystem :=
  let self :=
    if ltb self.[infrastructure_health] 0.6 && ltb self.[dx_clarity] 0.3 then
      let self := add_to external_system_dependency 0.05 self in
      let self := add_to external_spend 0.10 self in
      let self := add_to learning_cost_index 0.05 self in
      let self := add_to system_complexity 0.04 self in
      let self := add_to workload_index 0.03 self in
      let self := add_to infrastructure_health 0.01 self in
      let self := add_to burnout_index 0.02 self in
      self
    else self in
  let self :=
    if ltb self.[suppression_level] 0.4 && gtb self.[dx_clarity] 0.5 then
      let self := sub_from external_system_dependency 0.03 self in
      let self := sub_from system_complexity 0.03 self in
      let self := sub_from workload_index 0.02 self in
      let self := sub_from learning_cost_index 0.02 self in
      self
    else self in
  clamp_attrs
    [external_system_dependency; learning_cost_index;
     system_complexity; workload_index; infrastructure_health;
     burnout_index] self.

Definition _tick_trust_and_transparency (self : SchoolEcosystem) : SchoolEcosystem :=
  let self :=
    if gtb self.[suppression_level] 0.6
       || ltb self.[info_transparency] 0.4
       || ltb self.[dx_clarity] 0.3
    then sub_from leadership_trust_battery 0.03 self
    else self in
  let self :=
    if ltb self.[suppression_level] 0.4
       && gtb self.[info_transparency] 0.6
       && gtb self.[pm_capability] 0.5
       && gtb self.[grand_design_clarity] 0.5
       && gtb self.[portal_maturity] 0.5
    then add_to leadership_trust_battery 0.05 self
    else self in
  let self :=
    if gtb self.[suppression_level] 0.6 then sub_from info_transparency 0.02 self
    else if ltb self.[suppression_level] 0.4 then add_to info_transparency 0.02 self
    else self in
  clamp_attrs [leadership_trust_battery; info_transparency] self.

Definition set_burned_out (v : bool) (a : Actor) : Actor :=
  mkActor (name a) (role a) (os_version a) (adaptability a) (protected a)
    (change_attitude a) v (has_left_system a)
    (rebooted_outside a) (casualty_of_system a) (opportunity_cost a)
    (opportunity_choice a) (future_hope_probability a) (is_future_hope a).

Definition set_has_left_system (v : bool) (a : Actor) : Actor :=
  mkActor (name a) (role a) (os_version a) (adaptability a) (protected a)
    (change_attitude a) (burned_out a) v
    (rebooted_outside a) (casualty_of_system a) (opportunity_cost a)
    (opportunity_choice a) (future_hope_probability a) (is_future_hope a).

Definition set_opportunity_cost (v : float) (a : Actor) : Actor :=
  mkActor (name a) (role a) (os_version a) (adaptability a) (protected a)
    (change_attitude a) (burned_out a) (has_left_system a)
    (rebooted_outside a) (casualty_of_system a) v
    (opportunity_choice a) (future_hope_probability a) (is_future_hope a).

Definition set_opportunity_choice (v : OpportunityChoice) (a : Actor) : Actor :=
  mkActor (name a) (role a) (os_version a) (adaptability a) (protected a)
    (change_attitude a) (burned_out a) (has_left_system a)
    (rebooted_outside a) (casualty_of_system a) (opportunity_cost a)
    v (future_hope_probability a) (is_future_hope a).

(** The body of the loop over [self.actors] that closes [_tick_burnout];
    [burnout] is [self.burnout_index] as the loop reads it. *)
Definition burnout_actor (burnout : float) (a : Actor) : Actor :=
  if is_staff a && negb (has_left_system a) then
    let threshold := 0.5 + (0.5 - adaptability a) in
    if negb (burned_out a) && gtb burnout threshold then
      let a := set_burned_out true a in
      if gtb (adaptability a) 0.6 then
        let a := set_has_left_system true a in
        let a := set_opportunity_choice leave_outside a in
        let a := set_opportunity_cost (opportunity_cost a + 1.0) a in
        a
      else
        let a := set_opportunity_choice stay_inside a in
        let a := set_opportunity_cost (opportunity_cost a + 0.7) a in
        a
    else a
  else a.

(** [_tick_burnout] up to the noise draw: the drivers and the relief. *)
Definition burnout_drivers_and_relief (self : SchoolEcosystem) : SchoolEcosystem :=
  let d := dynamics self in
  (* Burnout drivers *)
  let self := add_to burnout_index (infra_to_burnout d * (1.0 - self.[infrastructure_health])) self in
  let self := add_to burnout_index (dxclarity_to_burnout d * (1.0 - self.[dx_clarity])) self in
  let self := add_to burnout_index (workload_to_burnout d * self.[workload_index]) self in
  let self := add_to burnout_index (complexity_to_burnout d * self.[system_complexity]) self in
  let self := add_to burnout_index (trustlack_to_burnout d * (1.0 - self.[leadership_trust_battery])) self in
  let self := add_to burnout_index (personalization_to_burnout d * self.[task_personalization_index]) self in
  (* Relief from good AI infra *)
  let relief := llm_relief_to_burnout d * self.[local_llm_infra_level] in
  let relief := relief + ai_service_relief_to_burnout d * self.[ai_service_quality_index] in
  let self := sub_from burnout_index relief self in
  self.

Definition _tick_burnout (self : SchoolEcosystem) (g : Rng)
    : SchoolEcosystem * Rng :=
  let self := burnout_drivers_and_relief self in
  let '(n, g) := _noise self 0.02 g in
  let self := add_to burnout_index n self in
  let self := set burnout_index (clamp01 self.[burnout_index]) self in
  let self :=
    set recruitment_difficulty
      (pymin 1.0
         (0.3
          + self.[burnout_index] * 0.2
          + self.[system_complexity] * 0.2
          + (1.0 - self.[leadership_trust_battery]) * 0.2
          + 0.1 * demographic_pressure (env self))) self in
  let self := set_actors (map (burnout_actor self.[burnout_index]) (actors self)) self in
  (self, g).

Definition _tick_students (self : SchoolEcosystem) (g : Rng)
    : SchoolEcosystem * Rng :=
  let raw :=
    (1.0 - self.[infrastructure_health]) * 0.2
    + self.[burnout_index] * 0.2
    + self.[competitor_gap_index] * 0.2
    + pymax 0.0 (0.5 - self.[student_learning_efficiency]) * 0.2
    + (1.0 - self.[leadership_trust_battery]) * 0.1
    + 0.1 * demographic_pressure (env self) in
  let raw := raw - 0.1 * self.[ai_accessibility_index] in
  let raw := raw - 0.1 * self.[ai_service_quality_index] in
  let '(n, g) := _noise self 0.05 g in
  let raw := raw + n in
  (set student_exit_rate (clamp01 raw) self, g).

(** [_tick_productivity_and_efficiency] in its three parts, as the
    comments of the source divide it; [d] is [self.dynamics] throughout. *)

(** Productivity: the eight contributions, before the noise draw. *)
Definition productivity_contributions (self : SchoolEcosystem) : SchoolEcosystem :=
  let d := dynamics self in
  (* Productivity: negative contributions *)
  let self := sub_from productivity_index (external_system_to_productivity d * self.[external_system_dependency]) self in
  let self := sub_from productivity_index (complexity_to_productivity d * self.[system_complexity]) self in
  let self := sub_from productivity_index (workload_to_productivity d * self.[workload_index]) self in
  let self := sub_from productivity_index (infra_bad_to_productivity d * (1.0 - self.[infrastructure_health])) self in
  let self := sub_from productivity_index (fragmentation_to_productivity d * self.[process_fragmentation_index]) self in
  let self := sub_from productivity_index (personalization_to_productivity d * self.[task_personalization_index]) self in
  (* Positive contributions *)
  let self := add_to productivity_index (llm_to_productivity d * self.[local_llm_infra_level]) self in
  let self := add_to productivity_index (ai_access_to_productivity d * self.[ai_accessibility_index]) self in
  self.

(** "True" efficiency is derived from infra, clarity, etc. *)
Definition true_efficiency (self : SchoolEcosystem) (g : Rng)
    : SchoolEcosystem * Rng :=
  let d := dynamics self in
  let base := 0.2 in
  let base := base + base_eff_infra_weight d * self.[infrastructure_health] in
  let base := base + base_eff_dxclarity_weight d * self.[dx_clarity] in
  let base :=
    if ltb self.[suppression_level] 0.4 then base + suppression_bonus_to_eff d
    else base in
  let base := base + llm_to_efficiency d * self.[local_llm_infra_level] in
  let base := base + db_to_efficiency d * self.[database_foundation] in
  let base := base + portal_to_efficiency d * self.[portal_maturity] in
  let base := base - personalization_to_efficiency d * self.[task_personalization_index] in
  let '(n, g) := _noise self 0.03 g in
  let base := base + n in
  (set efficiency_index_true (clamp01 base) self, g).

(** Recognized efficiency (KPI) *)
Definition recognized_efficiency (self : SchoolEcosystem) : SchoolEcosystem :=
  let self := add_to efficiency_index_recognized (0.03 * self.[external_system_dependency]) self in
  let self := add_to efficiency_index_recognized (0.02 * self.[system_complexity]) self in
  let self := set efficiency_index_recognized (clamp01 self.[efficiency_index_recognized]) self in
  self.

Definition _tick_productivity_and_efficiency (self : SchoolEcosystem) (g : Rng)
    : SchoolEcosystem * Rng :=
  let self := productivity_contributions self in
  let '(n, g) := _noise self 0.03 g in
  let self := add_to productivity_index n self in
  let self := set productivity_index (clamp01 self.[productivity_index]) self in
  let '(self, g) := true_efficiency self g in
  let self := recognized_efficiency self in
  (self, g).

(** *** Simulation step *)

Definition simulate_year (self : SchoolEcosystem) (g : Rng)
    : SchoolEcosystem * Rng :=
  let self := set_years_simulated (years_simulated self + 1)%Z self in
  let '(self, g) := _tick_infrastructure self g in
  let '(self, g) := _tick_dx_clarity self g in
  let self := _tick_strategy_layer self in
  let '(self, g) := _tick_portal_and_db self g in
  let self := _tick_pm_and_design self in
  let self := _tick_change_dynamics self in
  let self := _tick_education_assets self in
  let self := _tick_innovation self in
  let self := _tick_external_systems self in
  let self := _tick_trust_and_transparency self in
  let '(self, g) := _tick_burnout self g in
  let '(self, g) := _tick_students self g in
  let '(self, g) := _tick_productivity_and_efficiency self g in
  (self, g).

(** [for _ in range(years): school.simulate_year()] *)
Fixpoint simulate_years (years : nat) (self : SchoolEcosystem) (g : Rng)
    : SchoolEcosystem * Rng :=
  match years with
  | O => (self, g)
  | S n => let '(self, g) := simulate_year self g in simulate_years n self g
  end.

(** ** The burnout trip, in the words of the specification *)

Definition burnout_threshold (a : Actor) : float := 0.5 + (0.5 - adaptability a).

Definition trips (burnout : float) (a : Actor) : Prop :=
  is_staff a = true /\ has_left_system a = false
  /\ burned_out a = false /\ gtb burnout (burnout_threshold a) = true.

Inductive burnout_outcome (burnout : float) (a : Actor) : Actor -> Prop :=
  | outcome_unchanged :
      ~ trips burnout a -> burnout_outcome burnout a a
  | outcome_leave :
      trips burnout a -> gtb (adaptability a) 0.6 = true ->
      burnout_outcome burnout a
        (mkActor (name a) (role a) (os_version a) (adaptability a)
           (protected a) (change_attitude a) true true
           (rebooted_outside a) (casualty_of_system a)
           (opportunity_cost a + 1.0) leave_outside
           (future_hope_probability a) (is_future_hope a))
  | outcome_stay :
      trips burnout a -> gtb (adaptability a) 0.6 = false ->
      burnout_outcome burnout a
        (mkActor (name a) (role a) (os_version a) (adaptability a)
           (protected a) (change_attitude a) true false
           (rebooted_outside a) (casualty_of_system a)
           (opportunity_cost a + 0.7) stay_inside
           (future_hope_probability a) (is_future_hope a)).

(** ** A school deep in opportunity cost *)

(** A teacher of adaptability 0.9 whose opportunity cost stands at
    1e17. *)
Definition indebted_teacher : Actor :=
  mkActor "HighAdaptTeacher1" teacher "HighAdaptOS-2025 (LLM-aware)" 0.9
    false support false false false false 1e17 none 0 false.

(** The dataclass defaults with [suppression_level = 0.9] and a
    systemic opportunity cost of 1e17, and that teacher as the roster. *)
Definition indebted_school : SchoolEcosystem :=
  let school := new_SchoolEcosystem "ProtectedSchool" (mkEnv 0.6 0.5 0.4) in
  let school := set suppression_level 0.9 school in
  let school := set systemic_opportunity_cost 1e17 school in
  add_actor indebted_teacher school.

(** A generator whose every draw is one half. *)
Definition half_rng : Rng := mkRng (fun _ => 0.5) 0.

End Binary64.

(** * Properties *)

(** ** Comparisons and clamps *)

Lemma Qltb_true a b : Qltb a b = true <-> a < b.
Proof.
  unfold Qltb. rewrite negb_true_iff.
  destruct (Qle_bool b a) eqn:E.
  - apply Qle_bool_iff in E. split; [discriminate | intro; lra].
  - split; [intros _ | reflexivity].
    destruct (Qlt_le_dec a b) as [H|H]; [exact H|].
    apply Qle_bool_iff in H. congruence.
Qed.

Lemma Qltb_false a b : Qltb a b = false <-> b <= a.
Proof. unfold Qltb. rewrite negb_false_iff. apply Qle_bool_iff. Qed.

Lemma Qgtb_true a b : Qgtb a b = true <-> b < a.
Proof. apply Qltb_true. Qed.

Lemma Qgtb_false a b : Qgtb a b = false <-> a <= b.
Proof. apply Qltb_false. Qed.

Lemma Qgeb_true a b : Qgeb a b = true <-> b <= a.
Proof. apply Qle_bool_iff. Qed.

Lemma Qle_bool_false a b : Qle_bool a b = false <-> b < a.
Proof.
  rewrite <- (Qltb_true b a). unfold Qltb.
  destruct (Qle_bool a b); simpl; split; congruence.
Qed.

(** Turn every boolean comparison among the hypotheses into an order. *)
Ltac order_hyps :=
  repeat match goal with
  | H : Qltb _ _ = true |- _ => apply Qltb_true in H
  | H : Qltb _ _ = false |- _ => apply Qltb_false in H
  | H : Qgtb _ _ = true |- _ => apply Qgtb_true in H
  | H : Qgtb _ _ = false |- _ => apply Qgtb_false in H
  | H : Qgeb _ _ = true |- _ => apply Qgeb_true in H
  | H : Qgeb _ _ = false |- _ => apply Qle_bool_false in H
  | H : Qle_bool _ _ = true |- _ => apply Qle_bool_iff in H
  | H : Qle_bool _ _ = false |- _ => apply Qle_bool_false in H
  end.

Lemma pymin_spec a b : (b < a /\ pymin a b = b) \/ (a <= b /\ pymin a b = a).
Proof.
  unfold pymin. destruct (Qltb b a) eqn:E; order_hyps; auto.
Qed.

Lemma pymax_spec a b : (a < b /\ pymax a b = b) \/ (b <= a /\ pymax a b = a).
Proof.
  unfold pymax. destruct (Qgtb b a) eqn:E; order_hyps; auto.
Qed.

Lemma clamp01_range v : in01 (clamp01 v).
Proof.
  unfold in01, clamp01.
  destruct (pymin_spec 1.0 v) as [[H1 ->]|[H1 ->]];
    [destruct (pymax_spec 0.0 v) as [[H2 ->]|[H2 ->]]
    |destruct (pymax_spec 0.0 1.0) as [[H2 ->]|[H2 ->]]]; lra.
Qed.

(** Clamping never takes a value of [0,1] below a smaller one. *)
Lemma clamp01_above u v : u <= 1 -> u <= v -> 0 <= v -> u <= clamp01 v.
Proof.
  intros Hu Huv Hv. unfold clamp01.
  destruct (pymin_spec 1.0 v) as [[H1 ->]|[H1 ->]];
    [destruct (pymax_spec 0.0 v) as [[H2 ->]|[H2 ->]]
    |destruct (pymax_spec 0.0 1.0) as [[H2 ->]|[H2 ->]]]; lra.
Qed.

Lemma pymin_one_range v : 0 <= v -> in01 (pymin 1.0 v).
Proof.
  intros Hv. unfold in01.
  destruct (pymin_spec 1.0 v) as [[H1 ->]|[H1 ->]]; lra.
Qed.

Lemma in01b_spec v : in01b v = true <-> in01 v.
Proof.
  unfold in01b, in01. rewrite andb_true_iff, !Qle_bool_iff. tauto.
Qed.

Lemma bounded_fields_okb_spec s :
  bounded_fields_okb s = true -> bounded_fields_ok s.
Proof.
  unfold bounded_fields_okb, bounded_fields_ok, bounded_except, env_in_range.
  rewrite !andb_true_iff, !in01b_spec, forallb_forall.
  intros [[[Hf Hb] Hr] Hd]. split; [|tauto].
  intros a Ha _. apply in01b_spec.
  assert (Hin : In a all_attrs) by (destruct a; simpl; tauto).
  specialize (Hf a Hin). rewrite Ha in Hf. exact Hf.
Qed.

(** ** Reading an attribute after a tick *)

(** Unfold a tick at its call, substitute its local names, and split on
    every noise draw and every branch condition. *)
Ltac open_tick T := cbv beta zeta delta [det T].

Ltac split_branches :=
  repeat match goal with
  | |- context [_noise ?s ?c ?g] => destruct (_noise s c g) as [? ?]
  | |- context [true_efficiency ?s ?g] => destruct (true_efficiency s g) as [? ?] eqn:?
  | |- context [if ?c then _ else _] => destruct c
  end.

Ltac reduce_attr :=
  cbn [fst snd floats set add_to sub_from clamp_attrs fold_left float_attr_beq
       set_actors set_years_simulated set_change_seeds_planted
       set_change_seeds_suppressed set_rhetorical_change_slogans
       env dynamics actors has_swot years_simulated change_seeds_planted
       change_seeds_suppressed rhetorical_change_slogans eco_name det].

Ltac reduce_attr_in H :=
  cbn [fst snd floats set add_to sub_from clamp_attrs fold_left float_attr_beq
       set_actors set_years_simulated set_change_seeds_planted
       set_change_seeds_suppressed set_rhetorical_change_slogans
       env dynamics actors has_swot years_simulated change_seeds_planted
       change_seeds_suppressed rhetorical_change_slogans eco_name det] in H.

(** The attribute is in the write set: the frame condition says nothing. *)
Ltac written Ha := exfalso; apply Ha; simpl; tauto.

(** The attribute is outside a given write set. *)
Ltac not_written :=
  let H := fresh in
  intros H; simpl in H;
  repeat (destruct H as [H|H]; [discriminate H|]); exact H.

Ltac frame_floats T :=
  let a := fresh "a" in
  let Ha := fresh "Ha" in
  intros a Ha; destruct a; try (written Ha);
  open_tick T; split_branches; reduce_attr; reflexivity.

Ltac frame_rest T :=
  open_tick T; split_branches; reduce_attr; reflexivity.

Ltac frame_tick T :=
  intros s g;
  unfold untouched, same_roster, same_seeds;
  repeat match goal with |- _ /\ _ => split end;
  first [ frame_floats T | frame_rest T ].

(** ** The footprint of each tick *)

Lemma writes_of_infrastructure :
  tick_writes writes_infrastructure _tick_infrastructure.
Proof. frame_tick _tick_infrastructure. Qed.

Lemma writes_of_dx_clarity :
  tick_writes writes_dx_clarity _tick_dx_clarity.
Proof. frame_tick _tick_dx_clarity. Qed.

Lemma writes_of_strategy_layer :
  tick_writes writes_strategy_layer (det _tick_strategy_layer).
Proof. frame_tick _tick_strategy_layer. Qed.

Lemma writes_of_portal_and_db :
  tick_writes writes_portal_and_db _tick_portal_and_db.
Proof. frame_tick _tick_portal_and_db. Qed.

Lemma writes_of_pm_and_design :
  tick_writes writes_pm_and_design (det _tick_pm_and_design).
Proof. frame_tick _tick_pm_and_design. Qed.

Lemma writes_of_change_dynamics :
  tick_writes writes_change_dynamics (det _tick_change_dynamics).
Proof. frame_tick _tick_change_dynamics. Qed.

Lemma writes_of_education_assets :
  tick_writes writes_education_assets (det _tick_education_assets).
Proof. frame_tick _tick_education_assets. Qed.

Lemma writes_of_innovation :
  tick_writes writes_innovation (det _tick_innovation).
Proof. frame_tick _tick_innovation. Qed.

Lemma writes_of_external_systems :
  tick_writes writes_external_systems (det _tick_external_systems).
Proof. frame_tick _tick_external_systems. Qed.

Lemma writes_of_trust_and_transparency :
  tick_writes writes_trust_and_transparency (det _tick_trust_and_transparency).
Proof. frame_tick _tick_trust_and_transparency. Qed.

Lemma writes_of_students :
  tick_writes writes_students _tick_students.
Proof. frame_tick _tick_students. Qed.

Lemma writes_of_burnout_drivers_and_relief :
  tick_writes writes_burnout_drivers_and_relief (det burnout_drivers_and_relief).
Proof. frame_tick burnout_drivers_and_relief. Qed.

Lemma writes_of_productivity_contributions :
  tick_writes writes_productivity_contributions (det productivity_contributions).
Proof. frame_tick productivity_contributions. Qed.

Lemma writes_of_true_efficiency :
  tick_writes writes_true_efficiency true_efficiency.
Proof. frame_tick true_efficiency. Qed.

Lemma writes_of_recognized_efficiency :
  tick_writes writes_recognized_efficiency (det recognized_efficiency).
Proof. frame_tick recognized_efficiency. Qed.

Lemma untouched_refl w s : untouched w s s.
Proof. unfold untouched. auto. Qed.

Lemma untouched_trans w s s1 s2 :
  untouched w s s1 -> untouched w s1 s2 -> untouched w s s2.
Proof.
  intros (He1 & Hd1 & Hw1 & Hf1) (He2 & Hd2 & Hw2 & Hf2).
  unfold untouched. repeat split; try congruence.
  intros a Ha. rewrite Hf2, Hf1; auto.
Qed.

Lemma untouched_weaken w w' s s' :
  incl w w' -> untouched w s s' -> untouched w' s s'.
Proof.
  intros Hi (He & Hd & Hw & Hf). unfold untouched. repeat split; auto.
Qed.

Lemma float_attr_beq_false a b : a <> b -> float_attr_beq a b = false.
Proof.
  intros Hab. destruct (float_attr_beq a b) eqn:E; [|reflexivity].
  apply internal_float_attr_dec_bl in E. contradiction.
Qed.

Lemma untouched_set w a v s : In a w -> untouched w s (set a v s).
Proof.
  intros Hin. unfold untouched. repeat split.
  intros b Hb. cbn [floats set].
  rewrite float_attr_beq_false; [reflexivity|]. intros ->. contradiction.
Qed.

Ltac incl_lists := let x := fresh in let H := fresh in
  intros x H; simpl in H |- *; tauto.

(** The two long ticks, as the composition of their parts. *)

Lemma burnout_stages s g :
  _tick_burnout s g =
  (let s1 := burnout_drivers_and_relief s in
   let ng := _noise s1 0.02 g in
   let s2 := add_to burnout_index (fst ng) s1 in
   let s3 := set burnout_index (clamp01 s2.[burnout_index]) s2 in
   let s4 :=
     set recruitment_difficulty
       (pymin 1.0
          (0.3
           + s3.[burnout_index] * 0.2
           + s3.[system_complexity] * 0.2
           + (1.0 - s3.[leadership_trust_battery]) * 0.2
           + 0.1 * demographic_pressure (env s3))) s3 in
   (set_actors (map (burnout_actor s4.[burnout_index]) (actors s4)) s4,
    snd ng)).
Proof.
  unfold _tick_burnout.
  generalize (burnout_drivers_and_relief s). intros s1. cbv zeta.
  destruct (_noise s1 0.02 g) as [n g1]. reflexivity.
Qed.

Lemma productivity_and_efficiency_stages s g :
  _tick_productivity_and_efficiency s g =
  (let s1 := productivity_contributions s in
   let ng := _noise s1 0.03 g in
   let s2 := add_to productivity_index (fst ng) s1 in
   let s3 := set productivity_index (clamp01 s2.[productivity_index]) s2 in
   let sg := true_efficiency s3 (snd ng) in
   (recognized_efficiency (fst sg), snd sg)).
Proof.
  unfold _tick_productivity_and_efficiency.
  generalize (productivity_contributions s). intros s1. cbv zeta.
  destruct (_noise s1 0.03 g) as [n g1]. cbn [fst snd].
  generalize (set productivity_index
       (clamp01 (add_to productivity_index n s1).[productivity_index])
       (add_to productivity_index n s1)). intros s2.
  destruct (true_efficiency s2 g1) as [s3 g3]. reflexivity.
Qed.

Lemma writes_of_burnout : tick_writes writes_burnout _tick_burnout.
Proof.
  intros s g. rewrite burnout_stages.
  pose proof (writes_of_burnout_drivers_and_relief s g) as H1.
  cbn [det fst] in H1. revert H1.
  generalize (burnout_drivers_and_relief s). intros s1 H1. cbv zeta.
  destruct (_noise s1 0.02 g) as [n g1]. cbn [fst snd].
  eapply untouched_trans;
    [eapply untouched_weaken; [|exact H1]; incl_lists|].
  unfold untouched. reduce_attr. repeat split.
  intros a Ha. destruct a; try (written Ha); reflexivity.
Qed.

Lemma writes_of_productivity_and_efficiency :
  tick_writes writes_productivity_and_efficiency
    _tick_productivity_and_efficiency.
Proof.
  intros s g. rewrite productivity_and_efficiency_stages.
  pose proof (writes_of_productivity_contributions s g) as H1.
  cbn [det fst] in H1. revert H1.
  generalize (productivity_contributions s). intros s1 H1. cbv zeta.
  destruct (_noise s1 0.03 g) as [n g1]. cbn [fst snd].
  match goal with
  | |- context [true_efficiency ?x ?y] =>
      pose proof (writes_of_true_efficiency x y) as Ht;
      destruct (true_efficiency x y) as [s3 g3]
  end.
  cbn [fst] in *.
  eapply untouched_trans;
    [eapply untouched_weaken; [|exact H1]; incl_lists|].
  eapply untouched_trans;
    [unfold add_to; eapply untouched_trans; apply untouched_set; simpl; tauto|].
  eapply untouched_trans; [eapply untouched_weaken; [|exact Ht]; incl_lists|].
  eapply untouched_weaken;
    [|exact (writes_of_recognized_efficiency s3 g3)]. incl_lists.
Qed.

(** Only the seed tick and the burnout tick touch the roster, and only
    the seed tick touches the seed counters. *)

Lemma quiet_infrastructure : tick_quiet _tick_infrastructure.
Proof. frame_tick _tick_infrastructure. Qed.

Lemma quiet_dx_clarity : tick_quiet _tick_dx_clarity.
Proof. frame_tick _tick_dx_clarity. Qed.

Lemma quiet_strategy_layer : tick_quiet (det _tick_strategy_layer).
Proof. frame_tick _tick_strategy_layer. Qed.

Lemma quiet_portal_and_db : tick_quiet _tick_portal_and_db.
Proof. frame_tick _tick_portal_and_db. Qed.

Lemma quiet_pm_and_design : tick_quiet (det _tick_pm_and_design).
Proof. frame_tick _tick_pm_and_design. Qed.

Lemma quiet_education_assets : tick_quiet (det _tick_education_assets).
Proof. frame_tick _tick_education_assets. Qed.

Lemma quiet_innovation : tick_quiet (det _tick_innovation).
Proof. frame_tick _tick_innovation. Qed.

Lemma quiet_external_systems : tick_quiet (det _tick_external_systems).
Proof. frame_tick _tick_external_systems. Qed.

Lemma quiet_trust_and_transparency :
  tick_quiet (det _tick_trust_and_transparency).
Proof. frame_tick _tick_trust_and_transparency. Qed.

Lemma quiet_students : tick_quiet _tick_students.
Proof. frame_tick _tick_students. Qed.

Lemma quiet_burnout_drivers_and_relief :
  tick_quiet (det burnout_drivers_and_relief).
Proof. frame_tick burnout_drivers_and_relief. Qed.

Lemma quiet_productivity_contributions :
  tick_quiet (det productivity_contributions).
Proof. frame_tick productivity_contributions. Qed.

Lemma quiet_true_efficiency : tick_quiet true_efficiency.
Proof. frame_tick true_efficiency. Qed.

Lemma quiet_recognized_efficiency : tick_quiet (det recognized_efficiency).
Proof. frame_tick recognized_efficiency. Qed.

Lemma quiet_productivity_and_efficiency :
  tick_quiet _tick_productivity_and_efficiency.
Proof.
  intros s g. rewrite productivity_and_efficiency_stages.
  pose proof (quiet_productivity_contributions s g) as Hp.
  cbn [det fst] in Hp. revert Hp.
  generalize (productivity_contributions s). intros s1 Hp. cbv zeta.
  destruct (_noise s1 0.03 g) as [n g1]. cbn [fst snd].
  match goal with
  | |- context [true_efficiency ?x ?y] =>
      pose proof (quiet_true_efficiency x y) as Ht;
      destruct (true_efficiency x y) as [s3 g3]
  end.
  pose proof (quiet_recognized_efficiency s3 g3) as Hr.
  unfold same_roster, same_seeds in *. reduce_attr. reduce_attr_in Ht.
  reduce_attr_in Hr.
  destruct Ht as (? & ? & ?), Hp as (? & ? & ?), Hr as (? & ? & ?).
  repeat split; congruence.
Qed.

(** The burnout tick rewrites the roster but not the seed counters. *)
Lemma seeds_of_burnout s g : same_seeds s (fst (_tick_burnout s g)).
Proof.
  rewrite burnout_stages.
  pose proof (quiet_burnout_drivers_and_relief s g) as Hp.
  cbn [det fst] in Hp. revert Hp.
  generalize (burnout_drivers_and_relief s). intros s1 Hp. cbv zeta.
  destruct (_noise s1 0.02 g) as [n g1].
  unfold same_roster, same_seeds in *. reduce_attr. tauto.
Qed.

(** ** Ranges, tick by tick *)

Section Ranges.

(** A condition on the constraints of [env] that keeps the demographic
    pressure from being negative: the ticks read nothing else of it
    outside a clamp. *)
Variable E : EnvironmentConstraints -> Prop.
Hypothesis E_pressure : forall e, E e -> 0 <= demographic_pressure e.

Ltac keep_tick T W :=
  let s := fresh "s" in
  let g := fresh "g" in
  let H := fresh "H" in
  let He := fresh "He" in
  let a := fresh "a" in
  let Hb := fresh "Hb" in
  let Hex := fresh "Hex" in
  let E := fresh "E" in
  intros s g [H He]; split;
  [ intros a Hb Hex; destruct a; try discriminate Hb; try (written Hex);
    open_tick T; split_branches; reduce_attr;
    first [ apply clamp01_range | apply H; [reflexivity | not_written] ]
  | destruct (W s g) as (E & _); rewrite E; exact He ].

Lemma keeps_infrastructure : tick_keeps E [] [] _tick_infrastructure.
Proof. keep_tick _tick_infrastructure writes_of_infrastructure. Qed.

Lemma keeps_dx_clarity : tick_keeps E [] [] _tick_dx_clarity.
Proof. keep_tick _tick_dx_clarity writes_of_dx_clarity. Qed.

(** The strategy layer adds to [burnout_index] and does not clamp it. *)
Lemma keeps_strategy_layer :
  tick_keeps E [] [burnout_index] (det _tick_strategy_layer).
Proof. keep_tick _tick_strategy_layer writes_of_strategy_layer. Qed.

Lemma keeps_portal_and_db :
  tick_keeps E [burnout_index] [burnout_index] _tick_portal_and_db.
Proof. keep_tick _tick_portal_and_db writes_of_portal_and_db. Qed.

(** The PM layer clamps [burnout_index], whatever it was. *)
Lemma keeps_pm_and_design :
  tick_keeps E [burnout_index] [] (det _tick_pm_and_design).
Proof. keep_tick _tick_pm_and_design writes_of_pm_and_design. Qed.

Lemma keeps_change_dynamics : tick_keeps E [] [] (det _tick_change_dynamics).
Proof. keep_tick _tick_change_dynamics writes_of_change_dynamics. Qed.

Lemma keeps_education_assets : tick_keeps E [] [] (det _tick_education_assets).
Proof. keep_tick _tick_education_assets writes_of_education_assets. Qed.

Lemma keeps_innovation : tick_keeps E [] [] (det _tick_innovation).
Proof. keep_tick _tick_innovation writes_of_innovation. Qed.

Lemma keeps_external_systems : tick_keeps E [] [] (det _tick_external_systems).
Proof. keep_tick _tick_external_systems writes_of_external_systems. Qed.

Lemma keeps_trust_and_transparency :
  tick_keeps E [] [] (det _tick_trust_and_transparency).
Proof.
  keep_tick _tick_trust_and_transparency writes_of_trust_and_transparency.
Qed.

Lemma keeps_students : tick_keeps E [] [] _tick_students.
Proof. keep_tick _tick_students writes_of_students. Qed.

Lemma keeps_burnout_drivers_and_relief :
  tick_keeps E [] [burnout_index] (det burnout_drivers_and_relief).
Proof.
  keep_tick burnout_drivers_and_relief writes_of_burnout_drivers_and_relief.
Qed.

Lemma keeps_productivity_contributions :
  tick_keeps E [] [productivity_index] (det productivity_contributions).
Proof.
  keep_tick productivity_contributions writes_of_productivity_contributions.
Qed.

Lemma keeps_true_efficiency : tick_keeps E [] [] true_efficiency.
Proof. keep_tick true_efficiency writes_of_true_efficiency. Qed.

Lemma keeps_recognized_efficiency :
  tick_keeps E [] [] (det recognized_efficiency).
Proof. keep_tick recognized_efficiency writes_of_recognized_efficiency. Qed.

Lemma bounded_write ex a v s :
  In a ex -> bounded_under E ex s -> bounded_under E ex (set a v s).
Proof.
  intros Hin [H He]. split; [|exact He].
  intros b Hb Hex. cbn [floats set].
  rewrite float_attr_beq_false; [auto|]. intros ->. contradiction.
Qed.

Lemma bounded_clamp a v s :
  bounded_under E [a] s -> bounded_under E [] (set a (clamp01 v) s).
Proof.
  intros [H He]. split; [|exact He].
  intros b Hb _. cbn [floats set].
  destruct (float_attr_beq a b) eqn:Eab; [apply clamp01_range|].
  apply H; [exact Hb|]. intros [->|[]].
  rewrite (internal_float_attr_dec_lb b b eq_refl) in Eab. discriminate.
Qed.

Lemma keeps_burnout : tick_keeps E [] [] _tick_burnout.
Proof.
  intros s g Hs. rewrite burnout_stages.
  pose proof (keeps_burnout_drivers_and_relief s g Hs) as H1.
  cbn [det fst] in H1. revert H1.
  generalize (burnout_drivers_and_relief s). intros s1 [H1 He1]. cbv zeta.
  destruct (_noise s1 0.02 g) as [n g1]. cbn [fst snd].
  split; [|reduce_attr; exact He1].
  intros a Hb _.
  destruct a; try discriminate Hb; reduce_attr;
    try (apply H1; [reflexivity | not_written]).
  - apply clamp01_range.
  - apply pymin_one_range.
    pose proof (clamp01_range (s1.[burnout_index] + n)) as Hc.
    pose proof (H1 system_complexity eq_refl ltac:(not_written)) as Hsc.
    pose proof (H1 leadership_trust_battery eq_refl ltac:(not_written)) as Ht.
    pose proof (E_pressure _ He1) as Hd.
    unfold in01 in *. lra.
Qed.

Lemma keeps_productivity_and_efficiency :
  tick_keeps E [] [] _tick_productivity_and_efficiency.
Proof.
  intros s g Hs. rewrite productivity_and_efficiency_stages.
  pose proof (keeps_productivity_contributions s g Hs) as H1.
  cbn [det fst] in H1. revert H1.
  generalize (productivity_contributions s). intros s1 H1. cbv zeta.
  destruct (_noise s1 0.03 g) as [n g1]. cbn [fst snd].
  assert (H2 : bounded_under E []
            (set productivity_index
               (clamp01 (add_to productivity_index n s1).[productivity_index])
               (add_to productivity_index n s1))).
  { apply bounded_clamp. unfold add_to. apply bounded_write; [simpl; tauto|].
    exact H1. }
  match goal with
  | |- context [true_efficiency ?x ?y] =>
      pose proof (keeps_true_efficiency x y H2) as H3;
      destruct (true_efficiency x y) as [s3 g3]
  end.
  cbn [fst] in *.
  exact (keeps_recognized_efficiency s3 g3 H3).
Qed.

End Ranges.

(** ** A year as a run of ticks *)

Lemma run_cons t l s g :
  run (t :: l) s g = run l (fst (t s g)) (snd (t s g)).
Proof.
  unfold run. cbn [fold_left fst snd]. destruct (t s g); reflexivity.
Qed.

Lemma run_nil s g : run [] s g = (s, g).
Proof. reflexivity. Qed.

Lemma simulate_year_run s g :
  simulate_year s g =
  run year_ticks (set_years_simulated (years_simulated s + 1)%Z s) g.
Proof.
  unfold simulate_year, year_ticks, ticks_before_change, ticks_after_change.
  cbn [app]. generalize (set_years_simulated (years_simulated s + 1)%Z s).
  intros s0. cbv beta zeta delta [det].
  repeat (rewrite run_cons; cbn [fst snd];
          try match goal with
              | |- context [run _ (fst ?p) _] =>
                  destruct p as [? ?]; cbn [fst snd]
              end).
  rewrite run_nil. reflexivity.
Qed.

(** Take the next tick of a run: [L] turns the fact [H] about the state
    before it into a fact about the state after it. *)
Ltac next_tick L H :=
  rewrite run_cons;
  match goal with
  | |- context [run _ (fst (?t ?s ?g)) _] =>
      let H' := fresh "H" in
      pose proof (L s g H) as H';
      clear H;
      generalize dependent (t s g);
      let p := fresh "p" in
      intros p; destruct p as [? ?]; cbn [fst snd]; intros H
  end.

Lemma year_keeps_bounded_fields E s g :
  (forall e, E e -> 0 <= demographic_pressure e) ->
  bounded_under E [] s -> bounded_under E [] (fst (simulate_year s g)).
Proof.
  intros HE H. rewrite simulate_year_run.
  assert (H0 : bounded_under E []
                 (set_years_simulated (years_simulated s + 1)%Z s))
    by exact H.
  clear H. revert H0.
  generalize (set_years_simulated (years_simulated s + 1)%Z s).
  clear s. intros s H.
  unfold year_ticks, ticks_before_change, ticks_after_change. cbn [app].
  next_tick (keeps_infrastructure E) H.
  next_tick (keeps_dx_clarity E) H.
  next_tick (keeps_strategy_layer E) H.
  next_tick (keeps_portal_and_db E) H.
  next_tick (keeps_pm_and_design E) H.
  next_tick (keeps_change_dynamics E) H.
  next_tick (keeps_education_assets E) H.
  next_tick (keeps_innovation E) H.
  next_tick (keeps_external_systems E) H.
  next_tick (keeps_trust_and_transparency E) H.
  next_tick (keeps_burnout E HE) H.
  next_tick (keeps_students E) H.
  next_tick (keeps_productivity_and_efficiency E) H.
  rewrite run_nil. exact H.
Qed.

Lemma years_keep_bounded_fields E years :
  (forall e, E e -> 0 <= demographic_pressure e) ->
  forall s g,
    bounded_under E [] s -> bounded_under E [] (fst (simulate_years years s g)).
Proof.
  intros HE. induction years as [|n IH]; intros s g H.
  - exact H.
  - cbn [simulate_years].
    pose proof (year_keeps_bounded_fields E s g HE H) as H1.
    destruct (simulate_year s g) as [s1 g1]. cbn [fst] in H1.
    apply IH. exact H1.
Qed.

Lemma bounded_attrs_okb_spec s :
  bounded_attrs_okb s = true -> bounded_attrs_ok s.
Proof.
  unfold bounded_attrs_okb, bounded_attrs_ok. rewrite forallb_forall.
  intros Hf a Ha. apply in01b_spec.
  assert (Hin : In a all_attrs) by (destruct a; simpl; tauto).
  specialize (Hf a Hin). rewrite Ha in Hf. exact Hf.
Qed.

(** C1, as amended.  If every bounded attribute of the ecosystem is
    within [0,1] and the demographic pressure of its [env] is not
    negative, then every bounded attribute is within [0,1] after any
    number of consecutive calls of [simulate_year], for every randomness
    level and whatever the noise draws are. *)
Theorem clamping_invariant (years : nat) (s : SchoolEcosystem) (g : Rng) :
  bounded_attrs_ok s ->
  0 <= demographic_pressure (env s) ->
  bounded_attrs_ok (fst (simulate_years years s g)).
Proof.
  intros Ha Hp.
  assert (H : bounded_under pressure_not_negative [] s)
    by (split; [intros a Hb _; exact (Ha a Hb) | exact Hp]).
  destruct (years_keep_bounded_fields pressure_not_negative years
              (fun e He => He) s g H) as [H1 _].
  intros a Hb. apply H1; [exact Hb | intros []].
Qed.

Lemma clamping_invariant_witness :
  bounded_attrs_ok (fst (simulate_years 3 demo_school half_rng)).
Proof.
  apply clamping_invariant.
  - apply bounded_attrs_okb_spec. vm_compute. reflexivity.
  - vm_compute. discriminate.
Defined.

(** C1 as the specification states it, without a word on [env], fails:
    with the dataclass defaults and a demographic pressure of -10, one
    year takes [recruitment_difficulty], which has an upper clamp only,
    below zero. *)
Lemma clamping_needs_the_pressure :
  bounded_attrs_ok negative_pressure_school
  /\ (fst (simulate_years 1 negative_pressure_school half_rng))
       .[recruitment_difficulty] == -0.4377
  /\ ~ bounded_attrs_ok
         (fst (simulate_years 1 negative_pressure_school half_rng)).
Proof.
  split; [apply bounded_attrs_okb_spec; vm_compute; reflexivity|].
  split; [vm_compute; reflexivity|].
  intros H. specialize (H recruitment_difficulty eq_refl).
  revert H. unfold in01. vm_compute. intros [H _]. apply H. reflexivity.
Qed.

(** ** The change-seed tick without high adapters *)

Lemma no_high_adapters l :
  (forall a, In a l -> is_staff a = true -> adaptability a < 0.7) ->
  filter is_high_adapter l = [].
Proof.
  induction l as [|a l IH]; intros H; [reflexivity|].
  cbn [filter].
  assert (Ha : is_high_adapter a = false).
  { unfold is_high_adapter. destruct (is_staff a) eqn:Es; [|reflexivity].
    cbn [andb]. apply Qle_bool_false. apply H; [left; reflexivity | exact Es]. }
  rewrite Ha. apply IH. intros b Hb. apply H. right. exact Hb.
Qed.

(** C10. If no teacher or admin has adaptability >= 0.7, the change-seed
    tick returns the ecosystem as it received it: counters, accumulators,
    indices and every actor are unchanged. *)
Theorem change_dynamics_needs_a_high_adapter (s : SchoolEcosystem) :
  (forall a, In a (actors s) -> is_staff a = true -> adaptability a < 0.7) ->
  _tick_change_dynamics s = s.
Proof.
  intros H. unfold _tick_change_dynamics.
  rewrite (no_high_adapters _ H). reflexivity.
Qed.

Lemma change_dynamics_needs_a_high_adapter_witness :
  _tick_change_dynamics legacy_school = legacy_school.
Proof.
  apply change_dynamics_needs_a_high_adapter.
  intros a Ha _. cbn in Ha.
  repeat (destruct Ha as [<-|Ha]; [reflexivity|]). destruct Ha.
Defined.

(** ** The strategy layer and [burnout_index] *)

(** C2. Starting from a state whose bounded attributes are all in range,
    the strategy-layer tick returns with [burnout_index] above 1: it adds
    [0.02 * suppression_level] and its closing clamp loop does not list
    the attribute. *)
Theorem strategy_layer_returns_burnout_unclamped :
  bounded_fields_ok exhausted_school
  /\ (_tick_strategy_layer exhausted_school).[burnout_index] == 1.016
  /\ ~ in01 (_tick_strategy_layer exhausted_school).[burnout_index].
Proof.
  split; [apply bounded_fields_okb_spec; vm_compute; reflexivity|].
  split; [vm_compute; reflexivity|].
  intros [_ H]. revert H. apply Qlt_not_le. vm_compute. reflexivity.
Qed.

(** The ticks that come after do clamp it: whatever the state, the PM
    layer, the external-systems tick and the burnout tick return with
    [burnout_index] in range. *)
Lemma siblings_clamp_burnout s g :
  in01 (_tick_pm_and_design s).[burnout_index]
  /\ in01 (_tick_external_systems s).[burnout_index]
  /\ in01 (fst (_tick_burnout s g)).[burnout_index].
Proof.
  repeat split.
  1-4: (open_tick _tick_pm_and_design; open_tick _tick_external_systems;
        split_branches; reduce_attr; apply clamp01_range).
  all: rewrite burnout_stages; generalize (burnout_drivers_and_relief s);
    intros s1; cbv zeta; destruct (_noise s1 0.02 g) as [n g1];
    reduce_attr; apply clamp01_range.
Qed.

(** ** The burnout trip *)

Ltac reduce_actor :=
  cbv beta delta [set_adaptability set_burned_out set_has_left_system
                  set_opportunity_cost set_opportunity_choice];
  cbn [name role os_version adaptability protected change_attitude
       burned_out has_left_system rebooted_outside casualty_of_system
       opportunity_cost opportunity_choice future_hope_probability
       is_future_hope].

Lemma burnout_actor_outcome b a : burnout_outcome b a (burnout_actor b a).
Proof.
  unfold burnout_actor.
  destruct (is_staff a) eqn:Es; cbn [andb];
    [|apply outcome_unchanged; unfold trips; intuition congruence].
  destruct (has_left_system a) eqn:El; cbn [negb];
    [apply outcome_unchanged; unfold trips; intuition congruence|].
  destruct (burned_out a) eqn:Eb; cbn [negb andb];
    [apply outcome_unchanged; unfold trips; intuition congruence|].
  destruct (Qgtb b (0.5 + (0.5 - adaptability a))) eqn:Et.
  - apply Qgtb_true in Et.
    assert (Ht : trips b a) by (unfold trips, burnout_threshold; auto).
    cbn [set_burned_out adaptability].
    destruct (Qgtb (adaptability a) 0.6) eqn:E6.
    + apply Qgtb_true in E6. reduce_actor.
      exact (outcome_leave b a Ht E6).
    + apply Qgtb_false in E6. reduce_actor. rewrite El.
      exact (outcome_stay b a Ht E6).
  - apply Qgtb_false in Et.
    apply outcome_unchanged. unfold trips, burnout_threshold.
    intros (_ & _ & _ & Hlt). lra.
Qed.

(** ** The burnout trip in binary64 *)

Lemma binary64_burnout_actor_outcome b a :
  Binary64.burnout_outcome b a (Binary64.burnout_actor b a).
Proof.
  unfold Binary64.burnout_actor. cbv zeta.
  destruct (Binary64.is_staff a) eqn:E1; cbn [andb negb];
    [|apply Binary64.outcome_unchanged; intros (H & _); congruence].
  destruct (Binary64.has_left_system a) eqn:E2; cbn [andb negb];
    [apply Binary64.outcome_unchanged; intros (_ & H & _); congruence|].
  destruct (Binary64.burned_out a) eqn:E3; cbn [andb negb];
    [apply Binary64.outcome_unchanged; intros (_ & _ & H & _); congruence|].
  destruct (Binary64.gtb b _) eqn:E4;
    [|apply Binary64.outcome_unchanged; intros (_ & _ & _ & H);
      unfold Binary64.burnout_threshold in H; congruence].
  assert (Ht : Binary64.trips b a) by (repeat split; assumption).
  cbn [Binary64.adaptability Binary64.set_burned_out].
  destruct (Binary64.gtb (Binary64.adaptability a) _) eqn:E5.
  - exact (Binary64.outcome_leave b a Ht E5).
  - pose proof (Binary64.outcome_stay b a Ht E5) as H.
    unfold Binary64.set_opportunity_cost, Binary64.set_opportunity_choice,
      Binary64.set_burned_out.
    cbn [Binary64.name Binary64.role Binary64.os_version Binary64.adaptability
         Binary64.protected Binary64.change_attitude Binary64.burned_out
         Binary64.has_left_system Binary64.rebooted_outside
         Binary64.casualty_of_system Binary64.opportunity_cost
         Binary64.opportunity_choice Binary64.future_hope_probability
         Binary64.is_future_hope].
    rewrite E2. exact H.
Qed.

Lemma binary64_burnout_roster_outcome b l :
  Forall2 (Binary64.burnout_outcome b) l (map (Binary64.burnout_actor b) l).
Proof.
  induction l as [|a l IH]; cbn [map]; constructor;
    [apply binary64_burnout_actor_outcome | exact IH].
Qed.

Lemma binary64_drivers_keep_the_roster s :
  Binary64.actors (Binary64.burnout_drivers_and_relief s) = Binary64.actors s.
Proof. reflexivity. Qed.

(** The threshold is a rounded number: at adaptability 0.8 it is
    0.19999999999999996, and a burnout index of 0.2 trips the actor, who
    leaves; in the exact model the threshold is 0.2 and the same index
    does not. *)
Lemma burnout_threshold_is_rounded :
  let a :=
    Binary64.new_Actor "HighAdaptTeacher2" teacher "HighAdaptOS-2022"
      0.8%float false support in
  Binary64.burnout_threshold a = 0.19999999999999996%float
  /\ Binary64.has_left_system (Binary64.burnout_actor 0.2%float a) = true
  /\ has_left_system
       (burnout_actor 0.2
          (new_Actor "HighAdaptTeacher2" teacher "HighAdaptOS-2022"
             0.8 false support)) = false.
Proof. cbv zeta. repeat split. Qed.

(** C4, as amended.  In the binary64 arithmetic of the source, the
    burnout tick takes every actor to its outcome under the burnout
    index that the tick itself has just clamped: a teacher or admin who
    has not left and is not burned out trips when that index is greater
    than the threshold [0.5 + (0.5 - adaptability)], the threshold
    being the binary64 result of these two operations; a tripped actor
    of adaptability above 0.6 leaves, with [leave_outside] and the
    binary64 sum of its opportunity cost and 1.0, and any other tripped
    actor stays, with [stay_inside] and the binary64 sum of its cost and
    0.7; every other actor is left as it is.  From the default cost 0.0
    the new cost is exactly 1.0 or 0.7. *)
Theorem burnout_tick_trips_actors
    (s : Binary64.SchoolEcosystem) (g : Binary64.Rng) :
  let s' := fst (Binary64._tick_burnout s g) in
  let burnout := Binary64.floats s' burnout_index in
  Forall2 (Binary64.burnout_outcome burnout)
    (Binary64.actors s) (Binary64.actors s')
  /\ forall a a',
       Binary64.burnout_outcome burnout a a' ->
       Binary64.trips burnout a ->
       Binary64.opportunity_cost a = 0%float ->
       Binary64.opportunity_cost a'
       = if Binary64.has_left_system a' then 1.0%float else 0.7%float.
Proof.
  cbv zeta. split.
  - unfold Binary64._tick_burnout. cbv zeta.
    rewrite <- (binary64_drivers_keep_the_roster s).
    generalize (Binary64.burnout_drivers_and_relief s). intros s1.
    destruct (Binary64._noise s1 _ g) as [n g1].
    cbn [fst Binary64.actors Binary64.floats Binary64.set_actors
         Binary64.set Binary64.add_to].
    apply binary64_burnout_roster_outcome.
  - intros a a' H Ht H0.
    destruct H as [Hn|_ _|_ _]; [contradiction| |];
      cbn [Binary64.opportunity_cost Binary64.has_left_system];
      rewrite H0; reflexivity.
Qed.

Lemma burnout_tick_trips_actors_witness :
  let burnout :=
    Binary64.floats
      (fst (Binary64._tick_burnout Binary64.indebted_school
              Binary64.half_rng)) burnout_index in
  let a :=
    Binary64.new_Actor "HighAdaptTeacher2" teacher "HighAdaptOS-2022"
      0.8%float false support in
  Binary64.opportunity_cost (Binary64.burnout_actor burnout a) = 1.0%float.
Proof.
  cbv zeta.
  refine (proj2 (burnout_tick_trips_actors Binary64.indebted_school
                   Binary64.half_rng) _ _ _ _ _).
  - apply binary64_burnout_actor_outcome.
  - repeat split.
  - reflexivity.
Defined.

(** C4 as the specification states it, with a cost that grows by
    exactly 1.0, fails: the teacher whose cost stands at 1e17 trips and
    leaves in the burnout tick, and the cost is 1e17 still, the sum
    1e17 + 1.0 being 1e17 in binary64. *)
Lemma burnout_trip_absorbs_the_cost :
  Binary64.actors Binary64.indebted_school = [Binary64.indebted_teacher]
  /\ Binary64.opportunity_cost Binary64.indebted_teacher = 1e17%float
  /\ Binary64.actors
       (fst (Binary64._tick_burnout Binary64.indebted_school
               Binary64.half_rng))
     = [ Binary64.mkActor "HighAdaptTeacher1" teacher
           "HighAdaptOS-2025 (LLM-aware)" 0.9%float
           false support true true false false 1e17%float leave_outside
           0%float false ].
Proof. repeat split. Qed.

(** ** The recognized-efficiency ratchet *)

Lemma tick_keeps_attr w t a :
  tick_writes w t -> ~ In a w -> forall s g, (fst (t s g)).[a] = s.[a].
Proof. intros Hw Ha s g. destruct (Hw s g) as (_ & _ & _ & Hf). auto. Qed.

Lemma tick_keeps_value (v : Q) w t a :
  tick_writes w t -> ~ In a w ->
  forall s g, s.[a] = v -> (fst (t s g)).[a] = v.
Proof. intros Hw Ha s g <-. apply (tick_keeps_attr w); assumption. Qed.

(** What the last tick needs to know: the recognized efficiency is still
    the one of the start of the year, and the two attributes that drive
    it are in range. *)
Lemma external_systems_clamps_drivers (v : Q) s g :
  s.[efficiency_index_recognized] = v ->
  (fst (det _tick_external_systems s g)).[efficiency_index_recognized] = v
  /\ in01 (fst (det _tick_external_systems s g)).[external_system_dependency]
  /\ in01 (fst (det _tick_external_systems s g)).[system_complexity].
Proof.
  intros <-. repeat split;
    open_tick _tick_external_systems; split_branches; reduce_attr;
    first [reflexivity | apply clamp01_range].
Qed.

Lemma drivers_stay v w t :
  tick_writes w t ->
  ~ In efficiency_index_recognized w ->
  ~ In external_system_dependency w ->
  ~ In system_complexity w ->
  forall s g,
    s.[efficiency_index_recognized] = v
    /\ in01 s.[external_system_dependency] /\ in01 s.[system_complexity] ->
    (fst (t s g)).[efficiency_index_recognized] = v
    /\ in01 (fst (t s g)).[external_system_dependency]
    /\ in01 (fst (t s g)).[system_complexity].
Proof.
  intros Hw H1 H2 H3 s g (He & Hd & Hc).
  rewrite !(tick_keeps_attr w t) by assumption. auto.
Qed.

Lemma recognized_efficiency_grows s :
  in01 s.[efficiency_index_recognized] ->
  in01 s.[external_system_dependency] -> in01 s.[system_complexity] ->
  s.[efficiency_index_recognized]
  <= (recognized_efficiency s).[efficiency_index_recognized].
Proof.
  unfold in01. intros He Hd Hc.
  open_tick recognized_efficiency. reduce_attr.
  apply clamp01_above; lra.
Qed.

Lemma productivity_tick_ratchet v s g :
  in01 v ->
  s.[efficiency_index_recognized] = v
  /\ in01 s.[external_system_dependency] /\ in01 s.[system_complexity] ->
  v <= (fst (_tick_productivity_and_efficiency s g)).[efficiency_index_recognized].
Proof.
  intros Hv H. rewrite productivity_and_efficiency_stages.
  pose proof (drivers_stay v _ _ writes_of_productivity_contributions
                ltac:(not_written) ltac:(not_written) ltac:(not_written)
                s g H) as H1.
  cbn [det fst] in H1. revert H1.
  generalize (productivity_contributions s). intros s1 H1. cbv zeta.
  destruct (_noise s1 0.03 g) as [n g1]. cbn [fst snd].
  match goal with
  | |- context [true_efficiency ?x ?y] =>
      assert (H2 : x.[efficiency_index_recognized] = v
                   /\ in01 x.[external_system_dependency]
                   /\ in01 x.[system_complexity])
        by (reduce_attr; exact H1);
      pose proof (drivers_stay v _ _ writes_of_true_efficiency
                ltac:(not_written) ltac:(not_written) ltac:(not_written)
                x y H2) as H3;
      destruct (true_efficiency x y) as [s3 g3]
  end.
  cbn [fst] in *. destruct H3 as (He & Hd & Hc). rewrite <- He.
  apply recognized_efficiency_grows; [rewrite He|..]; assumption.
Qed.

Lemma year_ratchet s g :
  in01 s.[efficiency_index_recognized] ->
  s.[efficiency_index_recognized]
  <= (fst (simulate_year s g)).[efficiency_index_recognized].
Proof.
  intros Hv. rewrite simulate_year_run.
  assert (H : (set_years_simulated (years_simulated s + 1)%Z s)
                .[efficiency_index_recognized]
              = s.[efficiency_index_recognized]) by reflexivity.
  revert H Hv. generalize (s.[efficiency_index_recognized]). intros v.
  generalize (set_years_simulated (years_simulated s + 1)%Z s).
  clear s. intros s H Hv.
  unfold year_ticks, ticks_before_change, ticks_after_change. cbn [app].
  next_tick (tick_keeps_value v _ _ efficiency_index_recognized
               writes_of_infrastructure ltac:(not_written)) H.
  next_tick (tick_keeps_value v _ _ efficiency_index_recognized
               writes_of_dx_clarity ltac:(not_written)) H.
  next_tick (tick_keeps_value v _ _ efficiency_index_recognized
               writes_of_strategy_layer ltac:(not_written)) H.
  next_tick (tick_keeps_value v _ _ efficiency_index_recognized
               writes_of_portal_and_db ltac:(not_written)) H.
  next_tick (tick_keeps_value v _ _ efficiency_index_recognized
               writes_of_pm_and_design ltac:(not_written)) H.
  next_tick (tick_keeps_value v _ _ efficiency_index_recognized
               writes_of_change_dynamics ltac:(not_written)) H.
  next_tick (tick_keeps_value v _ _ efficiency_index_recognized
               writes_of_education_assets ltac:(not_written)) H.
  next_tick (tick_keeps_value v _ _ efficiency_index_recognized
               writes_of_innovation ltac:(not_written)) H.
  next_tick (external_systems_clamps_drivers v) H.
  next_tick (drivers_stay v _ _ writes_of_trust_and_transparency
               ltac:(not_written) ltac:(not_written) ltac:(not_written)) H.
  next_tick (drivers_stay v _ _ writes_of_burnout
               ltac:(not_written) ltac:(not_written) ltac:(not_written)) H.
  next_tick (drivers_stay v _ _ writes_of_students
               ltac:(not_written) ltac:(not_written) ltac:(not_written)) H.
  next_tick (fun s g H => productivity_tick_ratchet v s g Hv H) H.
  rewrite run_nil. exact H.
Qed.

Lemma productivity_tick_clamps_recognized s g :
  in01 (fst (_tick_productivity_and_efficiency s g)).[efficiency_index_recognized].
Proof.
  rewrite productivity_and_efficiency_stages. cbv zeta. cbn [fst].
  match goal with
  | |- context [recognized_efficiency ?x] => generalize x
  end.
  intros s3. open_tick recognized_efficiency. reduce_attr.
  apply clamp01_range.
Qed.

(** Take the next tick of a run and forget the state before it. *)
Ltac skip_tick :=
  rewrite run_cons;
  match goal with
  | |- context [run _ (fst (?t ?s ?g)) _] =>
      generalize (t s g);
      let p := fresh "p" in
      intros p; destruct p as [? ?]; cbn [fst snd]
  end.

Lemma year_clamps_recognized s g :
  in01 (fst (simulate_year s g)).[efficiency_index_recognized].
Proof.
  rewrite simulate_year_run.
  generalize (set_years_simulated (years_simulated s + 1)%Z s).
  clear s. intros s.
  unfold year_ticks, ticks_before_change, ticks_after_change. cbn [app].
  do 12 skip_tick.
  rewrite run_cons.
  match goal with
  | |- context [run _ (fst (?t ?s ?g)) _] =>
      pose proof (productivity_tick_clamps_recognized s g) as H; revert H;
      generalize (t s g)
  end.
  intros [s' g'] H. rewrite run_nil. exact H.
Qed.

(** C3. The recognized efficiency is a ratchet: from a state where it is
    in [0,1], and after any number of years, one more call of
    [simulate_year] returns a value at least as large as the value the
    call received. *)
Theorem recognized_efficiency_never_decreases
    (years : nat) (s : SchoolEcosystem) (g : Rng) :
  in01 s.[efficiency_index_recognized] ->
  let before := simulate_years years s g in
  let after := simulate_year (fst before) (snd before) in
  (fst before).[efficiency_index_recognized]
  <= (fst after).[efficiency_index_recognized].
Proof.
  cbv zeta. revert s g. induction years as [|n IH]; intros s g H.
  - cbn [simulate_years fst snd]. apply year_ratchet. exact H.
  - cbn [simulate_years].
    pose proof (year_clamps_recognized s g) as H1.
    destruct (simulate_year s g) as [s1 g1]. cbn [fst] in H1.
    apply IH. exact H1.
Qed.

Lemma recognized_efficiency_never_decreases_witness :
  let before := simulate_years 2 demo_school half_rng in
  let after := simulate_year (fst before) (snd before) in
  (fst before).[efficiency_index_recognized]
  <= (fst after).[efficiency_index_recognized].
Proof.
  apply (recognized_efficiency_never_decreases 2 demo_school half_rng).
  split; vm_compute; discriminate.
Defined.

(** ** What the year does to the roster *)

Section Roster.

(** A relation between an actor before and after, which the two loops
    over the roster respect. *)
Variable R : Actor -> Actor -> Prop.
Hypothesis R_refl : forall a, R a a.
Hypothesis R_trans : forall a b c, R a b -> R b c -> R a c.
Hypothesis R_suppress : forall q a, R a (suppress_student q a).
Hypothesis R_burnout : forall b a, R a (burnout_actor b a).

Lemma roster_refl l : Forall2 R l l.
Proof. induction l; constructor; auto. Qed.

Lemma roster_trans l1 l2 l3 :
  Forall2 R l1 l2 -> Forall2 R l2 l3 -> Forall2 R l1 l3.
Proof.
  intros H. revert l3. induction H; intros l3 H3; inversion H3; subst;
    constructor; eauto.
Qed.

Lemma roster_map f l : (forall a, R a (f a)) -> Forall2 R l (map f l).
Proof. intros Hf. induction l; cbn [map]; constructor; auto. Qed.

Lemma quiet_relates t : tick_quiet t -> tick_relates R t.
Proof.
  intros Hq s g. destruct (Hq s g) as [Hr _]. unfold same_roster in Hr.
  rewrite Hr. apply roster_refl.
Qed.

Lemma change_dynamics_relates : tick_relates R (det _tick_change_dynamics).
Proof.
  intros s g. open_tick _tick_change_dynamics. split_branches; reduce_attr;
    first [apply roster_refl | apply roster_map; apply R_suppress].
Qed.

Lemma burnout_relates : tick_relates R _tick_burnout.
Proof.
  intros s g. rewrite burnout_stages.
  pose proof (quiet_burnout_drivers_and_relief s g) as [Hr _].
  unfold same_roster in Hr. cbn [det fst] in Hr. revert Hr.
  generalize (burnout_drivers_and_relief s). intros s1 Hr. cbv zeta.
  destruct (_noise s1 0.02 g) as [n g1]. reduce_attr. rewrite Hr.
  apply roster_map. apply R_burnout.
Qed.

Lemma year_ticks_relate : Forall (tick_relates R) year_ticks.
Proof.
  unfold year_ticks, ticks_before_change, ticks_after_change. cbn [app].
  constructor; [exact (quiet_relates _ quiet_infrastructure)|].
  constructor; [exact (quiet_relates _ quiet_dx_clarity)|].
  constructor; [exact (quiet_relates _ quiet_strategy_layer)|].
  constructor; [exact (quiet_relates _ quiet_portal_and_db)|].
  constructor; [exact (quiet_relates _ quiet_pm_and_design)|].
  constructor; [exact change_dynamics_relates|].
  constructor; [exact (quiet_relates _ quiet_education_assets)|].
  constructor; [exact (quiet_relates _ quiet_innovation)|].
  constructor; [exact (quiet_relates _ quiet_external_systems)|].
  constructor; [exact (quiet_relates _ quiet_trust_and_transparency)|].
  constructor; [exact burnout_relates|].
  constructor; [exact (quiet_relates _ quiet_students)|].
  constructor; [exact (quiet_relates _ quiet_productivity_and_efficiency)|].
  constructor.
Qed.

Lemma run_relates l :
  Forall (tick_relates R) l ->
  forall s g, Forall2 R (actors s) (actors (fst (run l s g))).
Proof.
  induction 1 as [|t l Ht _ IH]; intros s g.
  - rewrite run_nil. apply roster_refl.
  - rewrite run_cons. eapply roster_trans; [apply Ht | apply IH].
Qed.

Lemma year_relates s g :
  Forall2 R (actors s) (actors (fst (simulate_year s g))).
Proof.
  rewrite simulate_year_run.
  exact (run_relates year_ticks year_ticks_relate
           (set_years_simulated (years_simulated s + 1)%Z s) g).
Qed.

Lemma years_relate years :
  forall s g, Forall2 R (actors s) (actors (fst (simulate_years years s g))).
Proof.
  induction years as [|n IH]; intros s g.
  - apply roster_refl.
  - cbn [simulate_years]. pose proof (year_relates s g) as H1.
    destruct (simulate_year s g) as [s1 g1]. cbn [fst] in H1.
    eapply roster_trans; [exact H1 | apply IH].
Qed.

End Roster.

(** *** The one-way flags *)

Lemma flags_kept_refl a : flags_kept a a.
Proof. unfold flags_kept. auto. Qed.

Lemma flags_kept_trans a b c :
  flags_kept a b -> flags_kept b c -> flags_kept a c.
Proof. unfold flags_kept. intuition. Qed.

Lemma suppress_student_flags q a : flags_kept a (suppress_student q a).
Proof.
  unfold suppress_student. destruct (is_student a);
    [|apply flags_kept_refl].
  unfold flags_kept. reduce_actor. auto.
Qed.

Lemma burnout_actor_flags b a : flags_kept a (burnout_actor b a).
Proof.
  unfold burnout_actor. cbv zeta.
  repeat match goal with
         | |- context [if ?c then _ else _] => destruct c
         end;
    unfold flags_kept; reduce_actor; auto.
Qed.

(** C5. [burned_out] and [has_left_system] are one-way: no tick of the
    year resets either flag of any actor, and so an actor who has a flag
    set before [simulate_year] has it set after.  Actors are matched by
    their position in the roster, which no tick reorders. *)
Theorem flags_are_one_way (s : SchoolEcosystem) (g : Rng) :
  Forall tick_keeps_flags year_ticks
  /\ Forall2 flags_kept (actors s) (actors (fst (simulate_year s g))).
Proof.
  split.
  - exact (year_ticks_relate flags_kept flags_kept_refl
             suppress_student_flags burnout_actor_flags).
  - exact (year_relates flags_kept flags_kept_refl flags_kept_trans
             suppress_student_flags burnout_actor_flags s g).
Qed.

(** *** The fields of the reporting phase *)

Lemma report_fields_refl a : report_fields_kept a a.
Proof. unfold report_fields_kept. auto. Qed.

Lemma report_fields_trans a b c :
  report_fields_kept a b -> report_fields_kept b c -> report_fields_kept a c.
Proof. unfold report_fields_kept. intuition congruence. Qed.

Lemma suppress_student_report_fields q a :
  report_fields_kept a (suppress_student q a).
Proof.
  unfold suppress_student. destruct (is_student a);
    [|apply report_fields_refl].
  unfold report_fields_kept. reduce_actor. auto.
Qed.

Lemma burnout_actor_report_fields b a :
  report_fields_kept a (burnout_actor b a).
Proof.
  unfold burnout_actor. cbv zeta.
  repeat match goal with
         | |- context [if ?c then _ else _] => destruct c
         end;
    unfold report_fields_kept; reduce_actor; auto.
Qed.

(** ** Determinism with the randomness dial at zero *)

Lemma noise_off s scale g :
  s.[randomness] <= 0 -> _noise s scale g = (0, g).
Proof.
  intros H. unfold _noise. apply Qle_bool_iff in H. rewrite H. reflexivity.
Qed.

Lemma det_noise_free f : tick_noise_free (det f).
Proof. intros s g g' _. split; reflexivity. Qed.

Ltac noise_free_tick T :=
  let s := fresh "s" in
  let g := fresh "g" in
  let g' := fresh "g" in
  let H := fresh "H" in
  intros s g g' H; open_tick T;
  rewrite !noise_off by (reduce_attr; exact H);
  repeat match goal with
         | |- context [if ?c then _ else _] => destruct c
         end;
  cbn [fst snd]; split; reflexivity.

Lemma infrastructure_noise_free : tick_noise_free _tick_infrastructure.
Proof. noise_free_tick _tick_infrastructure. Qed.

Lemma dx_clarity_noise_free : tick_noise_free _tick_dx_clarity.
Proof. noise_free_tick _tick_dx_clarity. Qed.

Lemma portal_and_db_noise_free : tick_noise_free _tick_portal_and_db.
Proof. noise_free_tick _tick_portal_and_db. Qed.

Lemma students_noise_free : tick_noise_free _tick_students.
Proof. noise_free_tick _tick_students. Qed.

Lemma true_efficiency_noise_free : tick_noise_free true_efficiency.
Proof. noise_free_tick true_efficiency. Qed.

Lemma burnout_noise_free : tick_noise_free _tick_burnout.
Proof.
  intros s g g' H. rewrite !burnout_stages.
  rewrite <- (tick_keeps_attr _ _ randomness
                writes_of_burnout_drivers_and_relief ltac:(not_written) s g)
    in H.
  cbn [det fst] in H. revert H.
  generalize (burnout_drivers_and_relief s). intros s1 H. cbv zeta.
  rewrite !noise_off by exact H. cbn [fst snd]. split; reflexivity.
Qed.

Lemma productivity_and_efficiency_noise_free :
  tick_noise_free _tick_productivity_and_efficiency.
Proof.
  intros s g g' H. rewrite !productivity_and_efficiency_stages.
  rewrite <- (tick_keeps_attr _ _ randomness
                writes_of_productivity_contributions ltac:(not_written) s g)
    in H.
  cbn [det fst] in H. revert H.
  generalize (productivity_contributions s). intros s1 H. cbv zeta.
  rewrite !noise_off by exact H. cbn [fst snd].
  match goal with
  | |- context [true_efficiency ?x g] =>
      assert (Hx : x.[randomness] <= 0) by (reduce_attr; exact H);
      destruct (true_efficiency_noise_free x g g' Hx) as [E1 E2];
      revert E1 E2; generalize (true_efficiency x g) (true_efficiency x g')
  end.
  intros [s3 g3] [s3' g3']. cbn [fst snd]. intros -> ->.
  split; reflexivity.
Qed.

Lemma deterministic_tick w t :
  tick_noise_free t -> tick_writes w t -> ~ In randomness w ->
  tick_deterministic t.
Proof.
  intros Hn Hw Hr. split; [exact Hn|]. apply (tick_keeps_attr w); assumption.
Qed.

Lemma year_ticks_deterministic : Forall tick_deterministic year_ticks.
Proof.
  unfold year_ticks, ticks_before_change, ticks_after_change. cbn [app].
  constructor;
    [exact (deterministic_tick _ _ infrastructure_noise_free
              writes_of_infrastructure ltac:(not_written))|].
  constructor;
    [exact (deterministic_tick _ _ dx_clarity_noise_free
              writes_of_dx_clarity ltac:(not_written))|].
  constructor;
    [exact (deterministic_tick _ _ (det_noise_free _)
              writes_of_strategy_layer ltac:(not_written))|].
  constructor;
    [exact (deterministic_tick _ _ portal_and_db_noise_free
              writes_of_portal_and_db ltac:(not_written))|].
  constructor;
    [exact (deterministic_tick _ _ (det_noise_free _)
              writes_of_pm_and_design ltac:(not_written))|].
  constructor;
    [exact (deterministic_tick _ _ (det_noise_free _)
              writes_of_change_dynamics ltac:(not_written))|].
  constructor;
    [exact (deterministic_tick _ _ (det_noise_free _)
              writes_of_education_assets ltac:(not_written))|].
  constructor;
    [exact (deterministic_tick _ _ (det_noise_free _)
              writes_of_innovation ltac:(not_written))|].
  constructor;
    [exact (deterministic_tick _ _ (det_noise_free _)
              writes_of_external_systems ltac:(not_written))|].
  constructor;
    [exact (deterministic_tick _ _ (det_noise_free _)
              writes_of_trust_and_transparency ltac:(not_written))|].
  constructor;
    [exact (deterministic_tick _ _ burnout_noise_free
              writes_of_burnout ltac:(not_written))|].
  constructor;
    [exact (deterministic_tick _ _ students_noise_free
              writes_of_students ltac:(not_written))|].
  constructor;
    [exact (deterministic_tick _ _ productivity_and_efficiency_noise_free
              writes_of_productivity_and_efficiency ltac:(not_written))|].
  constructor.
Qed.

Lemma run_deterministic l :
  Forall tick_deterministic l ->
  forall s g g', s.[randomness] <= 0 ->
    fst (run l s g) = fst (run l s g')
    /\ snd (run l s g) = g
    /\ (fst (run l s g)).[randomness] = s.[randomness].
Proof.
  induction 1 as [|t l [Hn Hr] _ IH]; intros s g g' H.
  - rewrite !run_nil. auto.
  - rewrite !run_cons.
    destruct (Hn s g g' H) as [E1 E2].
    destruct (Hn s g' g H) as [_ E3].
    specialize (Hr s g). revert E1 E2 E3 Hr.
    generalize (t s g) (t s g'). intros [s1 g1] [s1' g1']. cbn [fst snd].
    intros <- -> -> Hr.
    assert (H1 : s1.[randomness] <= 0) by (rewrite Hr; exact H).
    destruct (IH s1 g g' H1) as (F1 & F2 & F3).
    repeat split; congruence.
Qed.

Lemma year_deterministic s g g' :
  s.[randomness] <= 0 ->
  fst (simulate_year s g) = fst (simulate_year s g')
  /\ snd (simulate_year s g) = g
  /\ (fst (simulate_year s g)).[randomness] = s.[randomness].
Proof.
  intros H. rewrite !simulate_year_run.
  exact (run_deterministic year_ticks year_ticks_deterministic
           (set_years_simulated (years_simulated s + 1)%Z s) g g' H).
Qed.

(** C7. With [randomness = 0.0] the simulation is deterministic: the state
    after any number of years is the same whatever the generator holds,
    and the generator is returned as it was received, no draw having been
    made.  The draws of [reintegration_outcome] and of the future-hope
    coin flip belong to [print_reintegration_report], which
    [simulate_year] does not call: the actor fields they decide are
    those the years leave as they were. *)
Theorem zero_randomness_is_deterministic
    (years : nat) (s : SchoolEcosystem) (g1 g2 : Rng) :
  s.[randomness] == 0 ->
  fst (simulate_years years s g1) = fst (simulate_years years s g2)
  /\ snd (simulate_years years s g1) = g1
  /\ Forall2 report_fields_kept
       (actors s) (actors (fst (simulate_years years s g1))).
Proof.
  intros H0.
  assert (Hr : Forall2 report_fields_kept
                 (actors s) (actors (fst (simulate_years years s g1))))
    by exact (years_relate report_fields_kept report_fields_refl
                report_fields_trans suppress_student_report_fields
                burnout_actor_report_fields years s g1).
  cut (fst (simulate_years years s g1) = fst (simulate_years years s g2)
       /\ snd (simulate_years years s g1) = g1); [tauto|]. clear Hr.
  assert (H : s.[randomness] <= 0) by lra. clear H0.
  revert s g1 g2 H. induction years as [|n IH]; intros s g1 g2 H.
  - cbn [simulate_years fst snd]. auto.
  - cbn [simulate_years].
    destruct (year_deterministic s g1 g2 H) as (E1 & E2 & E3).
    destruct (year_deterministic s g2 g1 H) as (_ & E4 & _).
    revert E1 E2 E3 E4.
    generalize (simulate_year s g1) (simulate_year s g2).
    intros [s1 h1] [s1' h2]. cbn [fst snd]. intros <- -> E3 ->.
    apply IH. rewrite E3. exact H.
Qed.

Lemma zero_randomness_is_deterministic_witness :
  let s := set randomness 0 demo_school in
  let other_rng := mkRng (fun n => inject_Z (Z.of_nat n) / 7) 3 in
  fst (simulate_years 2 s half_rng) = fst (simulate_years 2 s other_rng)
  /\ snd (simulate_years 2 s half_rng) = half_rng
  /\ Forall2 report_fields_kept
       (actors s) (actors (fst (simulate_years 2 s half_rng))).
Proof.
  apply zero_randomness_is_deterministic. reflexivity.
Defined.

(** ** The suppression branch *)

Lemma strategy_layer_cost_grows s g :
  s.[systemic_opportunity_cost]
  <= (fst (det _tick_strategy_layer s g)).[systemic_opportunity_cost].
Proof.
  open_tick _tick_strategy_layer.
  destruct (negb (has_swot s) && Qgtb s.[suppression_level] 0.6) eqn:E;
    split_branches; reduce_attr; try lra.
  all: apply andb_true_iff in E; destruct E as [_ E];
    apply Qgtb_true in E; lra.
Qed.






Lemma quiet_seeds t : tick_quiet t -> forall s g, same_seeds s (fst (t s g)).
Proof. intros Hq s g. apply Hq. Qed.




(** ** The suppression branch in binary64 *)


(** At the bound of the amended claim the additions still show in
    binary64, and so they do up to 2^52, where they stop. *)
Lemma suppression_cost_shows_below_the_bound :
  let year c :=
    Binary64.floats
      (fst (Binary64.simulate_year
              (Binary64.set systemic_opportunity_cost c
                 Binary64.indebted_school) Binary64.half_rng))
      systemic_opportunity_cost in
  year 1e15%float = 1000000000000000.5%float
  /\ year (-1e15)%float = (-999999999999999.5)%float
  /\ year 4503599627370495.5%float = 4503599627370496%float
  /\ year 4503599627370496%float = 4503599627370496%float.
Proof. cbv zeta. repeat split; vm_compute; reflexivity. Qed.


(** ** The future-hope probability *)














(** ** The future-hope ratio *)

Lemma reintegration_loop_keeps_roles world l :
  forall g,
    Forall (fun a => is_student a = false) l ->
    Forall (fun a => is_student a = false) (fst (reintegration_loop world l g)).
Proof.
  induction l as [|a l IH]; intros g H; [constructor|].
  inversion H as [|? ? Ha Hl]; subst. cbn [reintegration_loop].
  destruct (is_staff a && has_left_system a);
    [destruct (reintegration_outcome world a g) as [outcome g0];
     destruct (outcome =? "rebooted")%string|];
    match goal with
    | |- context [reintegration_loop world l ?h] =>
        specialize (IH h Hl);
        destruct (reintegration_loop world l h) as [rest g'']
    end;
    cbn [fst] in *; constructor; assumption.
Qed.

Lemma no_students l :
  Forall (fun a => is_student a = false) l -> filter is_student l = [].
Proof.
  induction 1 as [|a l Ha _ IH]; [reflexivity|].
  cbn [filter]. rewrite Ha. exact IH.
Qed.

(** C9. When the roster has no student, the report computes a future-hope
    ratio of 0.0 over a total of zero students: the division is guarded. *)
Theorem empty_population_ratio
    (school : SchoolEcosystem) (world : ExternalWorld) (g : Rng) :
  (forall a, In a (actors school) -> is_student a = false) ->
  report_total (print_reintegration_report school world g) = 0%Z
  /\ report_ratio (print_reintegration_report school world g) = 0.0.
Proof.
  intros H. apply Forall_forall in H.
  pose proof (reintegration_loop_keeps_roles world (actors school) g H) as Hr.
  apply no_students in Hr.
  unfold print_reintegration_report.
  destruct (reintegration_loop world (actors school) g) as [roster g1].
  cbn [fst] in Hr. cbv zeta. cbn [actors set_actors]. rewrite Hr.
  cbn [future_loop]. cbn. split; reflexivity.
Qed.

Lemma empty_population_ratio_witness :
  report_total (print_reintegration_report staff_school demo_world half_rng)
  = 0%Z
  /\ report_ratio (print_reintegration_report staff_school demo_world half_rng)
     = 0.0.
Proof.
  apply empty_population_ratio.
  intros a Ha. cbn in Ha.
  repeat (destruct Ha as [<-|Ha]; [reflexivity|]). destruct Ha.
Defined.

(** ** More on the roster *)

(** Split the body of one of the two loops over the roster into its
    branches, keeping the conditions. *)
Ltac actor_step :=
  unfold suppress_student, burnout_actor; cbv zeta;
  repeat match goal with
         | |- context [if ?c then _ else _] =>
             let E := fresh "E" in destruct c eqn:E
         end;
  reduce_actor.

Lemma roster_forall (P : Actor -> Prop) R l l' :
  (forall a a', R a a' -> P a -> P a') ->
  Forall2 R l l' -> Forall P l -> Forall P l'.
Proof.
  intros HR H. induction H as [|a a' l l' Ha _ IH]; intros HP;
    [constructor|].
  inversion HP; subst. constructor; eauto.
Qed.

Lemma roster_length (R : Actor -> Actor -> Prop) l l' :
  Forall2 R l l' -> List.length l' = List.length l.
Proof. induction 1; cbn [List.length]; congruence. Qed.

(** X1. No tick adds, removes or reorders actors, and none changes an
    actor's name, role, OS version, protection or attitude: after any
    number of years the roster has its length and every actor its
    identity. *)
Theorem roster_identity_is_kept (years : nat) (s : SchoolEcosystem) (g : Rng) :
  let roster := actors (fst (simulate_years years s g)) in
  List.length roster = List.length (actors s)
  /\ Forall2 identity_kept (actors s) roster.
Proof.
  cbv zeta.
  assert (H : Forall2 identity_kept
                (actors s) (actors (fst (simulate_years years s g)))).
  { apply years_relate.
    - unfold identity_kept. auto.
    - unfold identity_kept. intuition congruence.
    - intros q a. unfold identity_kept. actor_step; auto.
    - intros b a. unfold identity_kept. actor_step; auto. }
  split; [exact (roster_length _ _ _ H) | exact H].
Qed.

(** X2. The opportunity cost of an actor is an accumulator: no number of
    years lowers it. *)
Theorem opportunity_cost_never_decreases
    (years : nat) (s : SchoolEcosystem) (g : Rng) :
  Forall2 cost_never_refunded
    (actors s) (actors (fst (simulate_years years s g))).
Proof.
  apply years_relate; unfold cost_never_refunded.
  - intros a. lra.
  - intros a b c. lra.
  - intros q a. actor_step; lra.
  - intros b a. actor_step; lra.
Qed.

Lemma burnout_actor_frozen b a : frozen_once_burned a (burnout_actor b a).
Proof.
  unfold frozen_once_burned. intros Hb. unfold burnout_actor.
  rewrite Hb. cbn [negb andb].
  destruct (is_staff a && negb (has_left_system a)); auto.
Qed.

(** X3. The burnout trip happens at most once: for an actor already
    burned out, no later year changes [has_left_system], the
    opportunity cost or the opportunity choice, and the flag stays. *)
Theorem burned_out_actor_is_frozen
    (years : nat) (s : SchoolEcosystem) (g : Rng) :
  Forall2 frozen_once_burned
    (actors s) (actors (fst (simulate_years years s g))).
Proof.
  apply years_relate.
  - unfold frozen_once_burned. auto.
  - unfold frozen_once_burned. intros a b c Hab Hbc Ha.
    destruct (Hab Ha) as (Hb & ? & ? & ?).
    destruct (Hbc Hb) as (Hc & ? & ? & ?).
    repeat split; congruence.
  - intros q a. unfold frozen_once_burned. actor_step; auto.
  - exact burnout_actor_frozen.
Qed.

(** X4. The simulation never marks a student burned out or departed and
    never charges a student an opportunity cost: for a student these
    fields are, after any number of years, what they were. *)
Theorem students_keep_their_lifecycle
    (years : nat) (s : SchoolEcosystem) (g : Rng) :
  Forall2 student_lifecycle_kept
    (actors s) (actors (fst (simulate_years years s g))).
Proof.
  apply years_relate.
  - unfold student_lifecycle_kept. auto.
  - unfold student_lifecycle_kept. intros a b c Hab Hbc Ha.
    destruct (Hab Ha) as (Hb & ? & ? & ? & ?).
    destruct (Hbc Hb) as (Hc & ? & ? & ? & ?).
    repeat split; congruence.
  - intros q a. unfold student_lifecycle_kept.
    actor_step; unfold is_student in *; reduce_actor;
      try (intros Hf; discriminate Hf); auto.
  - intros b a. unfold student_lifecycle_kept. intros Hs.
    assert (Hn : is_staff a = false)
      by (unfold is_staff, is_student in *; destruct (role a); congruence).
    unfold burnout_actor. rewrite Hn. cbn [andb]. auto.
Qed.

Lemma suppress_student_decays q a :
  0 <= q -> adaptability_decays a (suppress_student q a).
Proof.
  intros Hq. unfold adaptability_decays. intros Ha.
  unfold suppress_student. destruct (is_student a); [|lra].
  reduce_actor.
  destruct (pymax_spec 0.0 (adaptability a - 0.01 * q)) as [[H ->]|[H ->]];
    nra.
Qed.

Lemma change_dynamics_decays :
  tick_relates adaptability_decays (det _tick_change_dynamics).
Proof.
  intros s g. open_tick _tick_change_dynamics.
  destruct (Z.of_nat _ =? 0)%Z;
    [apply roster_refl; unfold adaptability_decays; intros; lra|].
  reduce_attr.
  destruct (Qgtb s.[suppression_level] 0.5) eqn:E; reduce_attr.
  - apply Qgtb_true in E. apply roster_map. intros a.
    apply suppress_student_decays. lra.
  - apply roster_refl. unfold adaptability_decays. intros; lra.
Qed.

Lemma adaptability_decays_refl a : adaptability_decays a a.
Proof. unfold adaptability_decays. intros; lra. Qed.

Lemma adaptability_decays_trans a b c :
  adaptability_decays a b -> adaptability_decays b c ->
  adaptability_decays a c.
Proof.
  unfold adaptability_decays. intros Hab Hbc Ha.
  specialize (Hab Ha). specialize (Hbc ltac:(lra)). lra.
Qed.

Lemma burnout_actor_adaptability b a :
  adaptability (burnout_actor b a) = adaptability a.
Proof. actor_step; reflexivity. Qed.

Lemma year_ticks_decay : Forall (tick_relates adaptability_decays) year_ticks.
Proof.
  pose proof adaptability_decays_refl as Hr.
  unfold year_ticks, ticks_before_change, ticks_after_change. cbn [app].
  constructor; [exact (quiet_relates _ Hr _ quiet_infrastructure)|].
  constructor; [exact (quiet_relates _ Hr _ quiet_dx_clarity)|].
  constructor; [exact (quiet_relates _ Hr _ quiet_strategy_layer)|].
  constructor; [exact (quiet_relates _ Hr _ quiet_portal_and_db)|].
  constructor; [exact (quiet_relates _ Hr _ quiet_pm_and_design)|].
  constructor; [exact change_dynamics_decays|].
  constructor; [exact (quiet_relates _ Hr _ quiet_education_assets)|].
  constructor; [exact (quiet_relates _ Hr _ quiet_innovation)|].
  constructor; [exact (quiet_relates _ Hr _ quiet_external_systems)|].
  constructor; [exact (quiet_relates _ Hr _ quiet_trust_and_transparency)|].
  constructor.
  { apply burnout_relates. intros b a. unfold adaptability_decays.
    rewrite burnout_actor_adaptability. intros; lra. }
  constructor; [exact (quiet_relates _ Hr _ quiet_students)|].
  constructor;
    [exact (quiet_relates _ Hr _ quiet_productivity_and_efficiency)|].
  constructor.
Qed.

Lemma year_decays s g :
  Forall2 adaptability_decays (actors s) (actors (fst (simulate_year s g))).
Proof.
  rewrite simulate_year_run.
  exact (run_relates _ adaptability_decays_refl adaptability_decays_trans
           year_ticks year_ticks_decay
           (set_years_simulated (years_simulated s + 1)%Z s) g).
Qed.

(** X5. Adaptability never recovers.  After any number of years a teacher
    or admin has exactly the adaptability it started with, and every actor
    that started at or above zero is between zero and where it started
    (the suppression loop lowers students by [0.01 * suppression_level],
    with a floor at zero). *)
Theorem adaptability_never_recovers
    (years : nat) (s : SchoolEcosystem) (g : Rng) :
  Forall2 staff_adaptability_kept
    (actors s) (actors (fst (simulate_years years s g)))
  /\ Forall2 adaptability_decays
       (actors s) (actors (fst (simulate_years years s g))).
Proof.
  split.
  - apply years_relate.
    + unfold staff_adaptability_kept. auto.
    + unfold staff_adaptability_kept. intros a b c Hab Hbc Ha.
      destruct (Hab Ha) as (Hb & ?). destruct (Hbc Hb) as (Hc & ?).
      split; congruence.
    + intros q a. unfold staff_adaptability_kept. intros Hs.
      assert (Hn : is_student a = false)
        by (unfold is_staff, is_student in *; destruct (role a); congruence).
      unfold suppress_student. rewrite Hn. auto.
    + intros b a. unfold staff_adaptability_kept.
      intros Hs. split; [|apply burnout_actor_adaptability].
      revert Hs. actor_step; unfold is_staff; reduce_actor; auto.
  - revert s g. induction years as [|n IH]; intros s g.
    + apply roster_refl. exact adaptability_decays_refl.
    + cbn [simulate_years]. pose proof (year_decays s g) as H1.
      destruct (simulate_year s g) as [s1 g1]. cbn [fst] in H1.
      eapply roster_trans;
        [exact adaptability_decays_trans | exact H1 | apply IH].
Qed.

Lemma burnout_actor_lifecycle b a : lifecycle_kept a (burnout_actor b a).
Proof.
  unfold lifecycle_kept. intros H.
  destruct (burnout_actor_outcome b a) as [_|Ht H6|Ht H6]; [exact H| |].
  - destruct Ht as (Hs & Hl & Hb & _).
    destruct H as [(_ & _ & _ & Hc)|[(_ & Hb' & _)|(_ & Hb' & _)]];
      try congruence.
    right; left. unfold departed_state, is_staff in *. reduce_actor.
    repeat split; auto. lra.
  - destruct Ht as (Hs & Hl & Hb & _).
    destruct H as [(_ & _ & _ & Hc)|[(_ & Hb' & _)|(_ & Hb' & _)]];
      try congruence.
    right; right. unfold stayed_state, is_staff in *. reduce_actor.
    repeat split; auto. lra.
Qed.

Lemma suppress_student_lifecycle q a : lifecycle_kept a (suppress_student q a).
Proof.
  unfold lifecycle_kept, suppress_student.
  destruct (is_student a) eqn:Es; [|auto].
  assert (Hn : is_staff a = false)
    by (unfold is_staff, is_student in *; destruct (role a); congruence).
  intros [H|[(Hs & _)|(Hs & _)]]; try congruence.
  left. unfold in_system_state in *. reduce_actor. exact H.
Qed.

(** X6. An actor that starts in the system with the defaults is, after
    any number of years, in one of three states: still in the system with
    no cost; departed (staff of adaptability above 0.6, burned out, cost
    1.0, [leave_outside]); or stayed (staff of adaptability at most 0.6,
    burned out, cost 0.7, [stay_inside]).  In particular whoever has left
    is burned out. *)
Theorem lifecycle_states_are_closed
    (years : nat) (s : SchoolEcosystem) (g : Rng) :
  Forall lifecycle_state (actors s) ->
  Forall lifecycle_state (actors (fst (simulate_years years s g))).
Proof.
  apply (roster_forall lifecycle_state lifecycle_kept).
  - unfold lifecycle_kept. auto.
  - apply years_relate.
    + unfold lifecycle_kept. auto.
    + unfold lifecycle_kept. auto.
    + exact suppress_student_lifecycle.
    + exact burnout_actor_lifecycle.
Qed.

Lemma lifecycle_states_are_closed_witness :
  Forall lifecycle_state (actors (fst (simulate_years 5 demo_school half_rng))).
Proof.
  apply lifecycle_states_are_closed.
  repeat constructor; left; unfold in_system_state; cbn;
    repeat split; reflexivity.
Defined.

(** ** More on the year *)

Lemma year_ticks_forall (P : tick -> Prop) :
  P _tick_infrastructure -> P _tick_dx_clarity ->
  P (det _tick_strategy_layer) -> P _tick_portal_and_db ->
  P (det _tick_pm_and_design) -> P (det _tick_change_dynamics) ->
  P (det _tick_education_assets) -> P (det _tick_innovation) ->
  P (det _tick_external_systems) -> P (det _tick_trust_and_transparency) ->
  P _tick_burnout -> P _tick_students ->
  P _tick_productivity_and_efficiency ->
  Forall P year_ticks.
Proof.
  intros. unfold year_ticks, ticks_before_change, ticks_after_change.
  cbn [app]. repeat (constructor; [assumption|]). constructor.
Qed.

Lemma run_app l1 l2 s g :
  run (l1 ++ l2) s g = run l2 (fst (run l1 s g)) (snd (run l1 s g)).
Proof.
  revert s g. induction l1 as [|t l1 IH]; intros s g.
  - rewrite run_nil. reflexivity.
  - cbn [app]. rewrite !run_cons. apply IH.
Qed.

Section Ecosystem.

(** A relation between the ecosystem before and after, which every tick
    of the year respects. *)
Variable R : SchoolEcosystem -> SchoolEcosystem -> Prop.
Hypothesis R_refl : forall s, R s s.
Hypothesis R_trans : forall s1 s2 s3, R s1 s2 -> R s2 s3 -> R s1 s3.

Lemma run_respects l :
  Forall (tick_respects R) l -> forall s g, R s (fst (run l s g)).
Proof.
  induction 1 as [|t l Ht _ IH]; intros s g.
  - rewrite run_nil. apply R_refl.
  - rewrite run_cons. eapply R_trans; [apply Ht | apply IH].
Qed.

Hypothesis R_ticks : Forall (tick_respects R) year_ticks.
Hypothesis R_years : forall n s, R s (set_years_simulated n s).

Lemma year_respects s g : R s (fst (simulate_year s g)).
Proof.
  rewrite simulate_year_run.
  eapply R_trans; [apply R_years | apply run_respects; exact R_ticks].
Qed.

Lemma years_respect years : forall s g, R s (fst (simulate_years years s g)).
Proof.
  induction years as [|n IH]; intros s g.
  - apply R_refl.
  - cbn [simulate_years]. pose proof (year_respects s g) as H1.
    destruct (simulate_year s g) as [s1 g1]. cbn [fst] in H1.
    eapply R_trans; [exact H1 | apply IH].
Qed.

End Ecosystem.

(** *** The books *)

Ltac books_tick T :=
  let s := fresh "s" in
  let g := fresh "g" in
  intros s g; unfold same_books, same_slogans;
  repeat match goal with |- _ /\ _ => split end;
  open_tick T; split_branches; reduce_attr; reflexivity.

Lemma books_of_infrastructure : tick_respects same_books _tick_infrastructure.
Proof. books_tick _tick_infrastructure. Qed.

Lemma books_of_dx_clarity : tick_respects same_books _tick_dx_clarity.
Proof. books_tick _tick_dx_clarity. Qed.

Lemma books_of_strategy_layer :
  tick_respects same_books (det _tick_strategy_layer).
Proof. books_tick _tick_strategy_layer. Qed.

Lemma books_of_portal_and_db : tick_respects same_books _tick_portal_and_db.
Proof. books_tick _tick_portal_and_db. Qed.

Lemma books_of_pm_and_design :
  tick_respects same_books (det _tick_pm_and_design).
Proof. books_tick _tick_pm_and_design. Qed.

Lemma books_of_change_dynamics :
  tick_respects same_books (det _tick_change_dynamics).
Proof. books_tick _tick_change_dynamics. Qed.

Lemma books_of_education_assets :
  tick_respects same_books (det _tick_education_assets).
Proof. books_tick _tick_education_assets. Qed.

Lemma books_of_innovation : tick_respects same_books (det _tick_innovation).
Proof. books_tick _tick_innovation. Qed.

Lemma books_of_external_systems :
  tick_respects same_books (det _tick_external_systems).
Proof. books_tick _tick_external_systems. Qed.

Lemma books_of_trust_and_transparency :
  tick_respects same_books (det _tick_trust_and_transparency).
Proof. books_tick _tick_trust_and_transparency. Qed.

Lemma books_of_students : tick_respects same_books _tick_students.
Proof. books_tick _tick_students. Qed.

Lemma books_of_burnout_drivers_and_relief :
  tick_respects same_books (det burnout_drivers_and_relief).
Proof. books_tick burnout_drivers_and_relief. Qed.

Lemma books_of_productivity_contributions :
  tick_respects same_books (det productivity_contributions).
Proof. books_tick productivity_contributions. Qed.

Lemma books_of_true_efficiency : tick_respects same_books true_efficiency.
Proof. books_tick true_efficiency. Qed.

Lemma books_of_recognized_efficiency :
  tick_respects same_books (det recognized_efficiency).
Proof. books_tick recognized_efficiency. Qed.

Lemma books_of_burnout : tick_respects same_books _tick_burnout.
Proof.
  intros s g. rewrite burnout_stages.
  pose proof (books_of_burnout_drivers_and_relief s g) as H1.
  cbn [det fst] in H1. revert H1.
  generalize (burnout_drivers_and_relief s). intros s1 H1. cbv zeta.
  destruct (_noise s1 0.02 g) as [n g1].
  unfold same_books in *. reduce_attr. exact H1.
Qed.

Lemma books_of_productivity_and_efficiency :
  tick_respects same_books _tick_productivity_and_efficiency.
Proof.
  intros s g. rewrite productivity_and_efficiency_stages.
  pose proof (books_of_productivity_contributions s g) as H1.
  cbn [det fst] in H1. revert H1.
  generalize (productivity_contributions s). intros s1 H1. cbv zeta.
  destruct (_noise s1 0.03 g) as [n g1]. cbn [fst snd].
  match goal with
  | |- context [true_efficiency ?x ?y] =>
      pose proof (books_of_true_efficiency x y) as Ht;
      destruct (true_efficiency x y) as [s3 g3]
  end.
  pose proof (books_of_recognized_efficiency s3 g3) as Hr.
  unfold same_books in *. reduce_attr. reduce_attr_in Ht. reduce_attr_in Hr.
  destruct H1, Ht, Hr. split; congruence.
Qed.

Lemma year_ticks_keep_books : Forall (tick_respects same_books) year_ticks.
Proof.
  apply year_ticks_forall.
  - exact books_of_infrastructure.
  - exact books_of_dx_clarity.
  - exact books_of_strategy_layer.
  - exact books_of_portal_and_db.
  - exact books_of_pm_and_design.
  - exact books_of_change_dynamics.
  - exact books_of_education_assets.
  - exact books_of_innovation.
  - exact books_of_external_systems.
  - exact books_of_trust_and_transparency.
  - exact books_of_burnout.
  - exact books_of_students.
  - exact books_of_productivity_and_efficiency.
Qed.

Lemma same_books_refl s : same_books s s.
Proof. unfold same_books. auto. Qed.

Lemma same_books_trans s1 s2 s3 :
  same_books s1 s2 -> same_books s2 s3 -> same_books s1 s3.
Proof. unfold same_books. intuition congruence. Qed.

Lemma year_counts_one s g :
  years_simulated (fst (simulate_year s g)) = (years_simulated s + 1)%Z.
Proof.
  rewrite simulate_year_run.
  destruct (run_respects same_books same_books_refl same_books_trans
              year_ticks year_ticks_keep_books
              (set_years_simulated (years_simulated s + 1)%Z s) g)
    as [_ H].
  rewrite H. reflexivity.
Qed.

(** X7. The year counter counts the calls: after [years] calls of
    [simulate_year] it has grown by exactly [years]. *)
Theorem years_simulated_counts_the_calls
    (years : nat) (s : SchoolEcosystem) (g : Rng) :
  years_simulated (fst (simulate_years years s g))
  = (years_simulated s + Z.of_nat years)%Z.
Proof.
  revert s g. induction years as [|n IH]; intros s g.
  - cbn [simulate_years fst]. lia.
  - cbn [simulate_years]. pose proof (year_counts_one s g) as H1.
    destruct (simulate_year s g) as [s1 g1]. cbn [fst] in H1.
    rewrite IH, H1. lia.
Qed.

(** *** The configuration *)

Lemma writes_keep_configuration w t :
  tick_writes w t -> tick_respects same_books t ->
  ~ In suppression_level w -> ~ In pm_capability w ->
  ~ In grand_design_clarity w -> ~ In randomness w ->
  tick_respects same_configuration t.
Proof.
  intros Hw Hb H1 H2 H3 H4 s g.
  destruct (Hw s g) as (He & Hd & Hs & Hf). destruct (Hb s g) as [Hn _].
  unfold same_configuration. rewrite !Hf by assumption. auto 10.
Qed.

Lemma year_ticks_keep_configuration :
  Forall (tick_respects same_configuration) year_ticks.
Proof.
  apply year_ticks_forall.
  - exact (writes_keep_configuration _ _ writes_of_infrastructure
             books_of_infrastructure ltac:(not_written) ltac:(not_written)
             ltac:(not_written) ltac:(not_written)).
  - exact (writes_keep_configuration _ _ writes_of_dx_clarity
             books_of_dx_clarity ltac:(not_written) ltac:(not_written)
             ltac:(not_written) ltac:(not_written)).
  - exact (writes_keep_configuration _ _ writes_of_strategy_layer
             books_of_strategy_layer ltac:(not_written) ltac:(not_written)
             ltac:(not_written) ltac:(not_written)).
  - exact (writes_keep_configuration _ _ writes_of_portal_and_db
             books_of_portal_and_db ltac:(not_written) ltac:(not_written)
             ltac:(not_written) ltac:(not_written)).
  - exact (writes_keep_configuration _ _ writes_of_pm_and_design
             books_of_pm_and_design ltac:(not_written) ltac:(not_written)
             ltac:(not_written) ltac:(not_written)).
  - exact (writes_keep_configuration _ _ writes_of_change_dynamics
             books_of_change_dynamics ltac:(not_written) ltac:(not_written)
             ltac:(not_written) ltac:(not_written)).
  - exact (writes_keep_configuration _ _ writes_of_education_assets
             books_of_education_assets ltac:(not_written) ltac:(not_written)
             ltac:(not_written) ltac:(not_written)).
  - exact (writes_keep_configuration _ _ writes_of_innovation
             books_of_innovation ltac:(not_written) ltac:(not_written)
             ltac:(not_written) ltac:(not_written)).
  - exact (writes_keep_configuration _ _ writes_of_external_systems
             books_of_external_systems ltac:(not_written) ltac:(not_written)
             ltac:(not_written) ltac:(not_written)).
  - exact (writes_keep_configuration _ _ writes_of_trust_and_transparency
             books_of_trust_and_transparency ltac:(not_written)
             ltac:(not_written) ltac:(not_written) ltac:(not_written)).
  - exact (writes_keep_configuration _ _ writes_of_burnout
             books_of_burnout ltac:(not_written) ltac:(not_written)
             ltac:(not_written) ltac:(not_written)).
  - exact (writes_keep_configuration _ _ writes_of_students
             books_of_students ltac:(not_written) ltac:(not_written)
             ltac:(not_written) ltac:(not_written)).
  - exact (writes_keep_configuration _ _ writes_of_productivity_and_efficiency
             books_of_productivity_and_efficiency ltac:(not_written)
             ltac:(not_written) ltac:(not_written) ltac:(not_written)).
Qed.

Lemma same_configuration_refl s : same_configuration s s.
Proof. unfold same_configuration. auto 10. Qed.

Lemma same_configuration_trans s1 s2 s3 :
  same_configuration s1 s2 -> same_configuration s2 s3 ->
  same_configuration s1 s3.
Proof. unfold same_configuration. intuition congruence. Qed.

(** X8. The simulation never assigns its own configuration: the name, the
    constraints of [env], the dynamics coefficients, [has_swot],
    [suppression_level], [pm_capability], [grand_design_clarity] and
    [randomness] are, after any number of years, what they were. *)
Theorem configuration_is_never_assigned
    (years : nat) (s : SchoolEcosystem) (g : Rng) :
  same_configuration s (fst (simulate_years years s g)).
Proof.
  apply years_respect.
  - exact same_configuration_refl.
  - exact same_configuration_trans.
  - exact year_ticks_keep_configuration.
  - intros n s0. unfold same_configuration. reduce_attr. auto 10.
Qed.

(** *** The accumulators *)

Lemma change_dynamics_cost_grows s g :
  s.[systemic_opportunity_cost]
  <= (fst (det _tick_change_dynamics s g)).[systemic_opportunity_cost].
Proof.
  open_tick _tick_change_dynamics.
  destruct (Z.of_nat (List.length (filter is_high_adapter (actors s))) =? 0)%Z;
    reduce_attr; [lra|].
  destruct (Qgtb s.[suppression_level] 0.5) eqn:E; reduce_attr; [|lra].
  apply Qgtb_true in E.
  assert (Hz : 0 <= inject_Z
                      (Z.of_nat (List.length (filter is_high_adapter (actors s))))).
  { change 0 with (inject_Z 0). rewrite <- Zle_Qle. lia. }
  nra.
Qed.

Lemma external_systems_spend_grows s g :
  s.[external_spend] <= (fst (det _tick_external_systems s g)).[external_spend].
Proof.
  open_tick _tick_external_systems. split_branches; reduce_attr; lra.
Qed.

Lemma unwritten_accumulators w t :
  tick_writes w t ->
  ~ In systemic_opportunity_cost w -> ~ In external_spend w ->
  tick_respects accumulators_grow t.
Proof.
  intros Hw H1 H2 s g. unfold accumulators_grow.
  rewrite !(tick_keeps_attr w t) by assumption. lra.
Qed.

Lemma year_ticks_grow_accumulators :
  Forall (tick_respects accumulators_grow) year_ticks.
Proof.
  apply year_ticks_forall.
  - exact (unwritten_accumulators _ _ writes_of_infrastructure
             ltac:(not_written) ltac:(not_written)).
  - exact (unwritten_accumulators _ _ writes_of_dx_clarity
             ltac:(not_written) ltac:(not_written)).
  - intros s g. split; [apply strategy_layer_cost_grows|].
    rewrite (tick_keeps_attr _ _ external_spend writes_of_strategy_layer)
      by not_written. lra.
  - exact (unwritten_accumulators _ _ writes_of_portal_and_db
             ltac:(not_written) ltac:(not_written)).
  - exact (unwritten_accumulators _ _ writes_of_pm_and_design
             ltac:(not_written) ltac:(not_written)).
  - intros s g. split; [apply change_dynamics_cost_grows|].
    rewrite (tick_keeps_attr _ _ external_spend writes_of_change_dynamics)
      by not_written. lra.
  - exact (unwritten_accumulators _ _ writes_of_education_assets
             ltac:(not_written) ltac:(not_written)).
  - exact (unwritten_accumulators _ _ writes_of_innovation
             ltac:(not_written) ltac:(not_written)).
  - intros s g. split; [|apply external_systems_spend_grows].
    rewrite (tick_keeps_attr _ _ systemic_opportunity_cost
               writes_of_external_systems) by not_written. lra.
  - exact (unwritten_accumulators _ _ writes_of_trust_and_transparency
             ltac:(not_written) ltac:(not_written)).
  - exact (unwritten_accumulators _ _ writes_of_burnout
             ltac:(not_written) ltac:(not_written)).
  - exact (unwritten_accumulators _ _ writes_of_students
             ltac:(not_written) ltac:(not_written)).
  - exact (unwritten_accumulators _ _ writes_of_productivity_and_efficiency
             ltac:(not_written) ltac:(not_written)).
Qed.

(** X9. The two unbounded accumulators never decrease:
    [systemic_opportunity_cost] and [external_spend] are, after any number
    of years, at least what they were, whatever the state. *)
Theorem accumulators_never_decrease
    (years : nat) (s : SchoolEcosystem) (g : Rng) :
  accumulators_grow s (fst (simulate_years years s g)).
Proof.
  apply years_respect.
  - intros s0. unfold accumulators_grow. lra.
  - unfold accumulators_grow. intros s1 s2 s3. lra.
  - exact year_ticks_grow_accumulators.
  - intros n s0. unfold accumulators_grow. reduce_attr. lra.
Qed.

(** *** The seed counters *)

Lemma change_dynamics_counts_seeds s :
  change_seeds_planted (_tick_change_dynamics s)
  = (change_seeds_planted s + seeds_per_year s)%Z
  /\ (0.5 < s.[suppression_level] ->
      change_seeds_suppressed (_tick_change_dynamics s)
      = (change_seeds_suppressed s + seeds_per_year s)%Z)
  /\ (s.[suppression_level] <= 0.5 ->
      change_seeds_suppressed (_tick_change_dynamics s)
      = change_seeds_suppressed s).
Proof.
  unfold seeds_per_year. open_tick _tick_change_dynamics.
  destruct (Z.of_nat (List.length (filter is_high_adapter (actors s))) =? 0)%Z
    eqn:E0.
  - apply Z.eqb_eq in E0. rewrite E0. repeat split; intros; lia.
  - reduce_attr.
    destruct (Qgtb s.[suppression_level] 0.5) eqn:E; reduce_attr;
      order_hyps; repeat split; intros; first [reflexivity | lra].
Qed.

Lemma quiet_run l :
  Forall tick_quiet l ->
  forall s g, same_roster s (fst (run l s g)) /\ same_seeds s (fst (run l s g)).
Proof.
  induction 1 as [|t l Ht _ IH]; intros s g.
  - rewrite run_nil. unfold same_roster, same_seeds. auto.
  - rewrite run_cons. destruct (Ht s g) as (Hr & Hp & Hs).
    revert Hr Hp Hs. generalize (t s g). intros [s1 g1]. cbn [fst snd].
    intros Hr Hp Hs. destruct (IH s1 g1) as (Hr' & Hp' & Hs').
    unfold same_roster, same_seeds in *. repeat split; congruence.
Qed.

Lemma seeds_run l :
  Forall (fun t => forall s g, same_seeds s (fst (t s g))) l ->
  forall s g, same_seeds s (fst (run l s g)).
Proof.
  induction 1 as [|t l Ht _ IH]; intros s g.
  - rewrite run_nil. unfold same_seeds. auto.
  - rewrite run_cons. destruct (Ht s g) as (Hp & Hs).
    revert Hp Hs. generalize (t s g). intros [s1 g1]. cbn [fst snd].
    intros Hp Hs. destruct (IH s1 g1) as (Hp' & Hs').
    unfold same_seeds in *. split; congruence.
Qed.

Lemma ticks_before_change_quiet : Forall tick_quiet ticks_before_change.
Proof.
  unfold ticks_before_change.
  constructor; [exact quiet_infrastructure|].
  constructor; [exact quiet_dx_clarity|].
  constructor; [exact quiet_strategy_layer|].
  constructor; [exact quiet_portal_and_db|].
  constructor; [exact quiet_pm_and_design|].
  constructor.
Qed.

Lemma ticks_after_change_keep_seeds :
  Forall (fun t => forall s g, same_seeds s (fst (t s g))) ticks_after_change.
Proof.
  unfold ticks_after_change.
  constructor; [exact (quiet_seeds _ quiet_education_assets)|].
  constructor; [exact (quiet_seeds _ quiet_innovation)|].
  constructor; [exact (quiet_seeds _ quiet_external_systems)|].
  constructor; [exact (quiet_seeds _ quiet_trust_and_transparency)|].
  constructor; [exact seeds_of_burnout|].
  constructor; [exact (quiet_seeds _ quiet_students)|].
  constructor; [exact (quiet_seeds _ quiet_productivity_and_efficiency)|].
  constructor.
Qed.

Lemma ticks_before_change_keep_suppression l :
  l = ticks_before_change ->
  forall s g, (fst (run l s g)).[suppression_level] = s.[suppression_level].
Proof.
  intros -> s g.
  destruct (run_respects same_configuration same_configuration_refl
              same_configuration_trans ticks_before_change) with (s := s) (g := g)
    as (_ & _ & _ & _ & H & _); [|exact H].
  pose proof year_ticks_keep_configuration as Hall.
  unfold year_ticks in Hall. apply Forall_app in Hall. apply Hall.
Qed.

Lemma year_counts_seeds s g :
  change_seeds_planted (fst (simulate_year s g))
  = (change_seeds_planted s + seeds_per_year s)%Z
  /\ (0.5 < s.[suppression_level] ->
      change_seeds_suppressed (fst (simulate_year s g))
      = (change_seeds_suppressed s + seeds_per_year s)%Z)
  /\ (s.[suppression_level] <= 0.5 ->
      change_seeds_suppressed (fst (simulate_year s g))
      = change_seeds_suppressed s).
Proof.
  rewrite simulate_year_run. unfold year_ticks. rewrite !run_app.
  assert (H0 : let s0 := set_years_simulated (years_simulated s + 1)%Z s in
               actors s0 = actors s
               /\ change_seeds_planted s0 = change_seeds_planted s
               /\ change_seeds_suppressed s0 = change_seeds_suppressed s
               /\ s0.[suppression_level] = s.[suppression_level])
    by (cbv zeta; reduce_attr; auto).
  cbv zeta in H0. revert H0.
  generalize (set_years_simulated (years_simulated s + 1)%Z s).
  intros s0 (Ha0 & Hp0 & Hs0 & Hl0).
  destruct (quiet_run _ ticks_before_change_quiet s0 g) as (Hr & Hp & Hs).
  pose proof (ticks_before_change_keep_suppression _ eq_refl s0 g) as Hl.
  revert Hr Hp Hs Hl. generalize (run ticks_before_change s0 g).
  intros [s5 g5]. cbn [fst snd]. unfold same_roster. intros Hr Hp Hs Hl.
  rewrite run_cons, run_nil. cbn [det fst snd].
  destruct (change_dynamics_counts_seeds s5) as (Hcp & Hcs1 & Hcs2).
  assert (Hk : seeds_per_year s5 = seeds_per_year s)
    by (unfold seeds_per_year; congruence).
  revert Hcp Hcs1 Hcs2. generalize (_tick_change_dynamics s5). intros s6.
  intros Hcp Hcs1 Hcs2.
  destruct (seeds_run _ ticks_after_change_keep_seeds s6 g5) as (Hp' & Hs').
  revert Hp' Hs'. generalize (run ticks_after_change s6 g5).
  intros [s13 g13]. cbn [fst]. intros Hp' Hs'.
  rewrite Hl, Hl0 in Hcs1, Hcs2.
  repeat split.
  - lia.
  - intros H. rewrite Hs', Hcs1 by exact H. lia.
  - intros H. rewrite Hs', Hcs2 by exact H. lia.
Qed.

Lemma high_adapter_count_kept (years : nat) s g :
  seeds_per_year (fst (simulate_years years s g)) = seeds_per_year s.
Proof.
  unfold seeds_per_year. f_equal.
  assert (H : Forall2 high_adapter_kept
                (actors s) (actors (fst (simulate_years years s g)))).
  { apply years_relate; unfold high_adapter_kept.
    - reflexivity.
    - intros; congruence.
    - intros q a. unfold is_high_adapter, suppress_student.
      destruct (is_student a) eqn:Es; [|reflexivity].
      assert (Hn : is_staff a = false)
        by (unfold is_staff, is_student in *; destruct (role a); congruence).
      unfold is_staff in *. reduce_actor. rewrite Hn. reflexivity.
    - intros b a. unfold is_high_adapter.
      rewrite burnout_actor_adaptability. f_equal.
      actor_step; unfold is_staff; reduce_actor; reflexivity. }
  induction H as [|a a' l l' Ha _ IH]; [reflexivity|].
  cbn [filter]. unfold high_adapter_kept in Ha. rewrite Ha.
  destruct (is_high_adapter a); cbn [List.length]; congruence.
Qed.

(** X10. Seeds are planted by head count.  Every year plants as many seeds
    as the roster has teachers and admins of adaptability at least 0.7,
    whether they have left the system or not, so after [years] years
    [change_seeds_planted] has grown by [years] times that number; with
    [suppression_level > 0.5] [change_seeds_suppressed] grows by the same
    amount, and otherwise it does not move. *)
Theorem seeds_are_planted_by_head_count
    (years : nat) (s : SchoolEcosystem) (g : Rng) :
  let s' := fst (simulate_years years s g) in
  change_seeds_planted s'
  = (change_seeds_planted s + Z.of_nat years * seeds_per_year s)%Z
  /\ (0.5 < s.[suppression_level] ->
      change_seeds_suppressed s'
      = (change_seeds_suppressed s + Z.of_nat years * seeds_per_year s)%Z)
  /\ (s.[suppression_level] <= 0.5 ->
      change_seeds_suppressed s' = change_seeds_suppressed s).
Proof.
  cbv zeta. revert s g. induction years as [|n IH]; intros s g.
  - cbn [simulate_years fst]. repeat split; intros; lia.
  - cbn [simulate_years].
    destruct (year_counts_seeds s g) as (Hp & Hs1 & Hs2).
    pose proof (high_adapter_count_kept 1 s g) as Hk.
    pose proof (configuration_is_never_assigned 1 s g) as Hc.
    cbn [simulate_years] in Hk, Hc.
    revert Hp Hs1 Hs2 Hk Hc. generalize (simulate_year s g).
    intros [s1 g1]. cbn [fst]. intros Hp Hs1 Hs2 Hk Hc.
    destruct Hc as (_ & _ & _ & _ & Hl & _).
    destruct (IH s1 g1) as (Ip & Is1 & Is2).
    rewrite Hk, Hl in *.
    repeat split.
    + rewrite Ip, Hp. lia.
    + intros H. rewrite Is1, Hs1 by exact H. lia.
    + intros H. rewrite Is2, Hs2 by exact H. reflexivity.
Qed.

(** *** The slogan counter *)

Ltac slogans_tick T :=
  let s := fresh "s" in
  let g := fresh "g" in
  intros s g; unfold same_slogans;
  open_tick T; split_branches; reduce_attr; reflexivity.

Lemma slogans_of_infrastructure : tick_respects same_slogans _tick_infrastructure.
Proof. slogans_tick _tick_infrastructure. Qed.

Lemma slogans_of_dx_clarity : tick_respects same_slogans _tick_dx_clarity.
Proof. slogans_tick _tick_dx_clarity. Qed.

Lemma slogans_of_portal_and_db : tick_respects same_slogans _tick_portal_and_db.
Proof. slogans_tick _tick_portal_and_db. Qed.

Lemma slogans_of_pm_and_design :
  tick_respects same_slogans (det _tick_pm_and_design).
Proof. slogans_tick _tick_pm_and_design. Qed.

Lemma slogans_of_change_dynamics :
  tick_respects same_slogans (det _tick_change_dynamics).
Proof. slogans_tick _tick_change_dynamics. Qed.

Lemma slogans_of_education_assets :
  tick_respects same_slogans (det _tick_education_assets).
Proof. slogans_tick _tick_education_assets. Qed.

Lemma slogans_of_innovation : tick_respects same_slogans (det _tick_innovation).
Proof. slogans_tick _tick_innovation. Qed.

Lemma slogans_of_external_systems :
  tick_respects same_slogans (det _tick_external_systems).
Proof. slogans_tick _tick_external_systems. Qed.

Lemma slogans_of_trust_and_transparency :
  tick_respects same_slogans (det _tick_trust_and_transparency).
Proof. slogans_tick _tick_trust_and_transparency. Qed.

Lemma slogans_of_students : tick_respects same_slogans _tick_students.
Proof. slogans_tick _tick_students. Qed.

Lemma slogans_of_burnout_drivers_and_relief :
  tick_respects same_slogans (det burnout_drivers_and_relief).
Proof. slogans_tick burnout_drivers_and_relief. Qed.

Lemma slogans_of_productivity_contributions :
  tick_respects same_slogans (det productivity_contributions).
Proof. slogans_tick productivity_contributions. Qed.

Lemma slogans_of_true_efficiency : tick_respects same_slogans true_efficiency.
Proof. slogans_tick true_efficiency. Qed.

Lemma slogans_of_recognized_efficiency :
  tick_respects same_slogans (det recognized_efficiency).
Proof. slogans_tick recognized_efficiency. Qed.

Lemma slogans_of_burnout : tick_respects same_slogans _tick_burnout.
Proof.
  intros s g. rewrite burnout_stages.
  pose proof (slogans_of_burnout_drivers_and_relief s g) as H1.
  cbn [det fst] in H1. revert H1.
  generalize (burnout_drivers_and_relief s). intros s1 H1. cbv zeta.
  destruct (_noise s1 0.02 g) as [n g1].
  unfold same_slogans in *. reduce_attr. exact H1.
Qed.

Lemma slogans_of_productivity_and_efficiency :
  tick_respects same_slogans _tick_productivity_and_efficiency.
Proof.
  intros s g. rewrite productivity_and_efficiency_stages.
  pose proof (slogans_of_productivity_contributions s g) as H1.
  cbn [det fst] in H1. revert H1.
  generalize (productivity_contributions s). intros s1 H1. cbv zeta.
  destruct (_noise s1 0.03 g) as [n g1]. cbn [fst snd].
  match goal with
  | |- context [true_efficiency ?x ?y] =>
      pose proof (slogans_of_true_efficiency x y) as Ht;
      destruct (true_efficiency x y) as [s3 g3]
  end.
  pose proof (slogans_of_recognized_efficiency s3 g3) as Hr.
  unfold same_slogans in *. reduce_attr. reduce_attr_in Ht. reduce_attr_in Hr.
  congruence.
Qed.

Lemma strategy_layer_counts_slogans s :
  rhetorical_change_slogans (_tick_strategy_layer s)
  = (rhetorical_change_slogans s + slogans_per_year s)%Z.
Proof.
  unfold slogans_per_year. open_tick _tick_strategy_layer.
  destruct (negb (has_swot s) && Qgtb s.[suppression_level] 0.6);
    split_branches; reduce_attr; lia.
Qed.

Lemma same_slogans_run l :
  Forall (tick_respects same_slogans) l ->
  forall s g, same_slogans s (fst (run l s g)).
Proof.
  apply run_respects; unfold same_slogans; intros; congruence.
Qed.

Lemma year_counts_slogans s g :
  rhetorical_change_slogans (fst (simulate_year s g))
  = (rhetorical_change_slogans s + slogans_per_year s)%Z.
Proof.
  rewrite simulate_year_run.
  assert (H0 : let s0 := set_years_simulated (years_simulated s + 1)%Z s in
               rhetorical_change_slogans s0 = rhetorical_change_slogans s
               /\ slogans_per_year s0 = slogans_per_year s)
    by (cbv zeta; unfold slogans_per_year; reduce_attr; auto).
  cbv zeta in H0. revert H0.
  generalize (set_years_simulated (years_simulated s + 1)%Z s).
  intros s0 (Hr0 & Hk0).
  change year_ticks
    with ([_tick_infrastructure; _tick_dx_clarity]
          ++ [det _tick_strategy_layer]
          ++ [_tick_portal_and_db; det _tick_pm_and_design;
              det _tick_change_dynamics; det _tick_education_assets;
              det _tick_innovation; det _tick_external_systems;
              det _tick_trust_and_transparency; _tick_burnout;
              _tick_students; _tick_productivity_and_efficiency]).
  rewrite !run_app.
  assert (H2 : same_slogans s0
                 (fst (run [_tick_infrastructure; _tick_dx_clarity] s0 g))
               /\ same_configuration s0
                    (fst (run [_tick_infrastructure; _tick_dx_clarity] s0 g))).
  { split.
    - apply same_slogans_run.
      constructor; [exact slogans_of_infrastructure|].
      constructor; [exact slogans_of_dx_clarity|]. constructor.
    - apply (run_respects same_configuration same_configuration_refl
               same_configuration_trans).
      pose proof year_ticks_keep_configuration as Hall.
      inversion Hall as [|? ? H1 Hall1]; subst.
      inversion Hall1 as [|? ? H2 _]; subst.
      constructor; [exact H1|]. constructor; [exact H2|]. constructor. }
  revert H2. generalize (run [_tick_infrastructure; _tick_dx_clarity] s0 g).
  intros [s2 g2]. cbn [fst snd]. intros (Hs2 & Hc2).
  rewrite (run_cons (det _tick_strategy_layer) []), run_nil.
  cbn [det fst snd].
  pose proof (strategy_layer_counts_slogans s2) as H3.
  assert (Hk2 : slogans_per_year s2 = slogans_per_year s0).
  { destruct Hc2 as (_ & _ & _ & Hw & Hl & _).
    unfold slogans_per_year. rewrite Hw, Hl. reflexivity. }
  revert H3. generalize (_tick_strategy_layer s2). intros s3 H3.
  match goal with
  | |- context [run ?l s3 g2] =>
      assert (H4 : same_slogans s3 (fst (run l s3 g2)))
  end.
  { apply same_slogans_run.
    constructor; [exact slogans_of_portal_and_db|].
    constructor; [exact slogans_of_pm_and_design|].
    constructor; [exact slogans_of_change_dynamics|].
    constructor; [exact slogans_of_education_assets|].
    constructor; [exact slogans_of_innovation|].
    constructor; [exact slogans_of_external_systems|].
    constructor; [exact slogans_of_trust_and_transparency|].
    constructor; [exact slogans_of_burnout|].
    constructor; [exact slogans_of_students|].
    constructor; [exact slogans_of_productivity_and_efficiency|].
    constructor. }
  revert H4.
  match goal with
  | |- context [run ?l s3 g2] => generalize (run l s3 g2)
  end.
  intros [s13 g13]. cbn [fst]. unfold same_slogans in *. intros H4.
  congruence.
Qed.

(** X11. The slogan counter has a closed form: each year adds one slogan
    exactly when the school has no SWOT view and
    [suppression_level > 0.6], and none otherwise, so after [years] years
    the counter has grown by [years] or not at all. *)
Theorem slogans_count_the_suppressed_years
    (years : nat) (s : SchoolEcosystem) (g : Rng) :
  rhetorical_change_slogans (fst (simulate_years years s g))
  = (rhetorical_change_slogans s + Z.of_nat years * slogans_per_year s)%Z.
Proof.
  revert s g. induction years as [|n IH]; intros s g.
  - cbn [simulate_years fst]. lia.
  - cbn [simulate_years].
    pose proof (year_counts_slogans s g) as H1.
    pose proof (configuration_is_never_assigned 1 s g) as Hc.
    cbn [simulate_years] in Hc.
    revert H1 Hc. generalize (simulate_year s g).
    intros [s1 g1]. cbn [fst]. intros H1 Hc.
    assert (Hk : slogans_per_year s1 = slogans_per_year s).
    { destruct Hc as (_ & _ & _ & Hw & Hl & _).
      unfold slogans_per_year. rewrite Hw, Hl. reflexivity. }
    rewrite IH, H1, Hk. lia.
Qed.

(** *** The recruitment floor *)

Lemma burnout_sets_recruitment s g :
  0 <= s.[system_complexity] -> s.[leadership_trust_battery] <= 1 ->
  0 <= demographic_pressure (env s) ->
  0.3 <= (fst (_tick_burnout s g)).[recruitment_difficulty] <= 1.
Proof.
  intros Hc Ht Hd. rewrite burnout_stages.
  pose proof (writes_of_burnout_drivers_and_relief s g) as (He & _ & _ & Hf).
  cbn [det fst] in He, Hf.
  rewrite <- (Hf system_complexity) in Hc by not_written.
  rewrite <- (Hf leadership_trust_battery) in Ht by not_written.
  rewrite <- He in Hd. revert Hc Ht Hd. clear He Hf.
  generalize (burnout_drivers_and_relief s). intros s1 Hc Ht Hd. cbv zeta.
  destruct (_noise s1 0.02 g) as [n g1]. reduce_attr.
  pose proof (clamp01_range (s1.[burnout_index] + n)) as [Hb _].
  match goal with
  | |- _ <= pymin 1.0 ?v <= _ =>
      destruct (pymin_spec 1.0 v) as [[H ->]|[H ->]]
  end; lra.
Qed.

Lemma tick_keeps_value_range w t :
  tick_writes w t -> ~ In recruitment_difficulty w ->
  forall s g,
    0.3 <= s.[recruitment_difficulty] <= 1 ->
    0.3 <= (fst (t s g)).[recruitment_difficulty] <= 1.
Proof.
  intros Hw Hn s g H. rewrite (tick_keeps_attr w t) by assumption. exact H.
Qed.

(** X12. Recruitment never gets easy: after a year, whatever the state at
    its start, [recruitment_difficulty] is between 0.3 and 1, provided the
    demographic pressure is not negative. *)
Theorem recruitment_difficulty_has_a_floor (s : SchoolEcosystem) (g : Rng) :
  0 <= demographic_pressure (env s) ->
  0.3 <= (fst (simulate_year s g)).[recruitment_difficulty] <= 1.
Proof.
  intros Hd. rewrite simulate_year_run.
  assert (H0 : 0 <= demographic_pressure
                      (env (set_years_simulated (years_simulated s + 1)%Z s)))
    by exact Hd.
  revert H0. generalize (set_years_simulated (years_simulated s + 1)%Z s).
  clear s Hd. intros s Hd.
  change year_ticks
    with ([_tick_infrastructure; _tick_dx_clarity; det _tick_strategy_layer;
           _tick_portal_and_db; det _tick_pm_and_design;
           det _tick_change_dynamics; det _tick_education_assets;
           det _tick_innovation]
          ++ [det _tick_external_systems; det _tick_trust_and_transparency;
              _tick_burnout; _tick_students;
              _tick_productivity_and_efficiency]).
  rewrite run_app.
  match goal with
  | |- context [run ?l s g] =>
      assert (He : env (fst (run l s g)) = env s)
  end.
  { match goal with
    | |- env (fst (run ?l s g)) = _ =>
        destruct (run_respects same_configuration same_configuration_refl
                    same_configuration_trans l) with (s := s) (g := g)
          as (_ & H & _); [|exact H]
    end.
    pose proof year_ticks_keep_configuration as Hall.
    unfold year_ticks, ticks_before_change, ticks_after_change in Hall.
    cbn [app] in Hall.
    repeat match type of Hall with
           | Forall _ (_ :: _) =>
               let H1 := fresh in
               inversion Hall as [|? ? H1 Hall']; subst; clear Hall;
               rename Hall' into Hall; constructor; [exact H1|]
           end; constructor. }
  rewrite <- He in Hd. clear He. revert Hd.
  match goal with
  | |- context [run ?l s g] => generalize (run l s g)
  end.
  clear s g. intros [s g]. cbn [fst snd]. intros Hd.
  (* the external-systems tick clamps the complexity *)
  rewrite run_cons.
  assert (H9 : in01 (fst (det _tick_external_systems s g)).[system_complexity]
               /\ 0 <= demographic_pressure
                         (env (fst (det _tick_external_systems s g)))).
  { split.
    - open_tick _tick_external_systems. split_branches; reduce_attr;
        apply clamp01_range.
    - destruct (writes_of_external_systems s g) as (He & _).
      rewrite He. exact Hd. }
  revert H9. generalize (det _tick_external_systems s g).
  clear s g Hd. intros [s g]. cbn [fst snd]. intros (Hc & Hd).
  (* the trust tick clamps the trust battery *)
  rewrite run_cons.
  assert (H10 : in01 (fst (det _tick_trust_and_transparency s g))
                       .[system_complexity]
                /\ in01 (fst (det _tick_trust_and_transparency s g))
                       .[leadership_trust_battery]
                /\ 0 <= demographic_pressure
                          (env (fst (det _tick_trust_and_transparency s g)))).
  { destruct (writes_of_trust_and_transparency s g) as (He & _ & _ & Hf).
    rewrite He, (Hf system_complexity) by not_written.
    repeat split; try apply Hc; try exact Hd;
      open_tick _tick_trust_and_transparency; split_branches; reduce_attr;
      apply clamp01_range. }
  revert H10. generalize (det _tick_trust_and_transparency s g).
  clear s g Hc Hd. intros [s g]. cbn [fst snd]. intros (Hc & Ht & Hd).
  rewrite run_cons.
  pose proof (burnout_sets_recruitment s g (proj1 Hc) (proj2 Ht) Hd) as H11.
  revert H11. generalize (_tick_burnout s g).
  clear s g Hc Ht Hd. intros [s g]. cbn [fst snd]. intros H.
  next_tick (tick_keeps_value_range writes_students _tick_students
               writes_of_students ltac:(not_written)) H.
  next_tick (tick_keeps_value_range writes_productivity_and_efficiency
               _tick_productivity_and_efficiency
               writes_of_productivity_and_efficiency ltac:(not_written)) H.
  rewrite run_nil. exact H.
Qed.

Lemma recruitment_difficulty_has_a_floor_witness :
  0.3 <= (fst (simulate_year demo_school half_rng)).[recruitment_difficulty]
  <= 1.
Proof.
  apply recruitment_difficulty_has_a_floor. vm_compute. discriminate.
Defined.

(** *** Improvement is gated by the suppression level *)

Lemma clamp01_below u v : 0 <= u -> v <= u -> 0 <= clamp01 v <= u.
Proof.
  intros Hu Hv. unfold clamp01.
  destruct (pymin_spec 1.0 v) as [[H1 ->]|[H1 ->]];
    [destruct (pymax_spec 0.0 v) as [[H2 ->]|[H2 ->]]
    |destruct (pymax_spec 0.0 1.0) as [[H2 ->]|[H2 ->]]]; lra.
Qed.

Lemma unwritten_gated w t :
  tick_writes w t ->
  ~ In suppression_level w ->
  (forall a, gated_improvement a = true -> ~ In a w) ->
  tick_respects no_gated_improvement t.
Proof.
  intros Hw Hs Hg s g _. split; [apply (tick_keeps_attr w); assumption|].
  intros a Ha H0. rewrite (tick_keeps_attr w t) by auto. lra.
Qed.

Ltac gated_unwritten :=
  let a := fresh "a" in
  let Ha := fresh "Ha" in
  intros a Ha; destruct a; try discriminate Ha; not_written.

(** Take the branches of a tick apart from the inside out, with the
    gated conditions already known to fail. *)
Ltac ungate Hk :=
  reduce_attr; rewrite ?Hk, ?andb_false_r; cbn [andb orb negb].

Ltac ungated_branches Hk :=
  repeat (ungate Hk;
          match goal with
          | |- context [_noise ?s ?c ?g] => destruct (_noise s c g) as [? ?]
          | |- context [if ?c then _ else _] =>
              lazymatch c with
              | context [if _ then _ else _] => fail
              | _ => destruct c
              end
          end);
  ungate Hk; reduce_attr.

Ltac gated_tick T W :=
  let s := fresh "s" in
  let g := fresh "g" in
  let Hs := fresh "Hs" in
  let Hk := fresh "Hk" in
  let a := fresh "a" in
  let Ha := fresh "Ha" in
  let H0 := fresh "H0" in
  intros s g Hs;
  split; [apply (tick_keeps_attr _ _ suppression_level W); not_written|];
  assert (Hk : Qltb s.[suppression_level] 0.4 = false)
    by (apply Qltb_false; exact Hs);
  intros a Ha H0; destruct a; try discriminate Ha;
  open_tick T; ungated_branches Hk;
  first [lra | apply clamp01_below; lra].

Lemma gated_strategy_layer :
  tick_respects no_gated_improvement (det _tick_strategy_layer).
Proof. gated_tick _tick_strategy_layer writes_of_strategy_layer. Qed.

Lemma gated_portal_and_db :
  tick_respects no_gated_improvement _tick_portal_and_db.
Proof. gated_tick _tick_portal_and_db writes_of_portal_and_db. Qed.

Lemma gated_pm_and_design :
  tick_respects no_gated_improvement (det _tick_pm_and_design).
Proof. gated_tick _tick_pm_and_design writes_of_pm_and_design. Qed.

Lemma gated_education_assets :
  tick_respects no_gated_improvement (det _tick_education_assets).
Proof. gated_tick _tick_education_assets writes_of_education_assets. Qed.

Lemma gated_innovation :
  tick_respects no_gated_improvement (det _tick_innovation).
Proof. gated_tick _tick_innovation writes_of_innovation. Qed.

Lemma gated_trust_and_transparency :
  tick_respects no_gated_improvement (det _tick_trust_and_transparency).
Proof.
  gated_tick _tick_trust_and_transparency writes_of_trust_and_transparency.
Qed.

Lemma year_ticks_gated : Forall (tick_respects no_gated_improvement) year_ticks.
Proof.
  apply year_ticks_forall.
  - exact (unwritten_gated _ _ writes_of_infrastructure
             ltac:(not_written) ltac:(gated_unwritten)).
  - exact (unwritten_gated _ _ writes_of_dx_clarity
             ltac:(not_written) ltac:(gated_unwritten)).
  - exact gated_strategy_layer.
  - exact gated_portal_and_db.
  - exact gated_pm_and_design.
  - exact (unwritten_gated _ _ writes_of_change_dynamics
             ltac:(not_written) ltac:(gated_unwritten)).
  - exact gated_education_assets.
  - exact gated_innovation.
  - exact (unwritten_gated _ _ writes_of_external_systems
             ltac:(not_written) ltac:(gated_unwritten)).
  - exact gated_trust_and_transparency.
  - exact (unwritten_gated _ _ writes_of_burnout
             ltac:(not_written) ltac:(gated_unwritten)).
  - exact (unwritten_gated _ _ writes_of_students
             ltac:(not_written) ltac:(gated_unwritten)).
  - exact (unwritten_gated _ _ writes_of_productivity_and_efficiency
             ltac:(not_written) ltac:(gated_unwritten)).
Qed.

Lemma no_gated_improvement_trans s1 s2 s3 :
  no_gated_improvement s1 s2 -> no_gated_improvement s2 s3 ->
  no_gated_improvement s1 s3.
Proof.
  unfold no_gated_improvement. intros H12 H23 Hs.
  destruct (H12 Hs) as (E12 & F12).
  assert (Hs2 : 0.4 <= s2.[suppression_level]) by (rewrite E12; exact Hs).
  destruct (H23 Hs2) as (E23 & F23).
  split; [congruence|]. intros a Ha H0.
  specialize (F12 a Ha H0). specialize (F23 a Ha ltac:(lra)). lra.
Qed.

(** X13. Improvement is gated by the suppression level.  With
    [suppression_level >= 0.4] none of the attributes that only a
    low-suppression path raises can rise: portal maturity, database
    foundation, educational assets, central repository, innovation
    potential, local LLM infrastructure, AI service quality and
    accessibility, leadership trust, information transparency and
    strategic consistency are, after any number of years, at most what
    they were (each taken from a non-negative start). *)
Theorem suppression_blocks_improvement
    (years : nat) (s : SchoolEcosystem) (g : Rng) :
  0.4 <= s.[suppression_level] ->
  forall a, gated_improvement a = true -> 0 <= s.[a] ->
    0 <= (fst (simulate_years years s g)).[a] <= s.[a].
Proof.
  intros Hs.
  assert (H : no_gated_improvement s (fst (simulate_years years s g))).
  { apply years_respect.
    - intros s0 _. split; [reflexivity|]. intros; lra.
    - exact no_gated_improvement_trans.
    - exact year_ticks_gated.
    - intros n s0 _. reduce_attr. split; [reflexivity|]. intros; lra. }
  exact (proj2 (H Hs)).
Qed.

Lemma suppression_blocks_improvement_witness :
  0 <= (fst (simulate_years 3 demo_school half_rng)).[leadership_trust_battery]
  <= demo_school.[leadership_trust_battery].
Proof.
  apply (suppression_blocks_improvement 3 demo_school half_rng).
  - vm_compute. discriminate.
  - reflexivity.
  - vm_compute. discriminate.
Defined.

(** ** The noise helper and the external world *)

(** X14. The noise helper stays within its scale: for a draw of
    [random.random()] in [0,1], a non-negative randomness dial and a
    non-negative scale, the noise is between [-scale * randomness] and
    [scale * randomness]. *)
Theorem noise_stays_within_its_scale
    (s : SchoolEcosystem) (scale : Q) (g : Rng) :
  0 <= draws g (pos g) <= 1 ->
  0 <= s.[randomness] -> 0 <= scale ->
  - (scale * s.[randomness]) <= fst (_noise s scale g)
  <= scale * s.[randomness].
Proof.
  intros Hd Hr Hs. unfold _noise.
  destruct (Qle_bool s.[randomness] 0 || Qle_bool scale 0) eqn:E.
  - cbn [fst]. nra.
  - apply orb_false_elim in E. destruct E as [E1 E2]. order_hyps.
    unfold uniform, random. cbn [fst].
    set (r := draws g (pos g)) in *. set (d := s.[randomness]) in *.
    assert (Ht : 0 <= scale * d) by nra.
    assert (H1 : 0 <= scale * d * r) by nra.
    assert (H2 : scale * d * r <= scale * d) by nra.
    split; nra.
Qed.

Lemma noise_stays_within_its_scale_witness :
  - (0.02 * demo_school.[randomness]) <= fst (_noise demo_school 0.02 half_rng)
  <= 0.02 * demo_school.[randomness].
Proof.
  apply noise_stays_within_its_scale.
  - vm_compute. split; discriminate.
  - vm_compute. discriminate.
  - vm_compute. discriminate.
Defined.

(** X15. The effective adaptability is the actor's adaptability moved
    by at most 0.2 (0.15 for the OS tags, 0.05 for the attitude), it is
    not clamped, and the world plays no part in it. *)
Theorem effective_adaptability_stays_near (w : ExternalWorld) (a : Actor) :
  adaptability a - 0.2 <= base_effective_adaptability w a
  <= adaptability a + 0.2
  /\ forall w', base_effective_adaptability w' a
                = base_effective_adaptability w a.
Proof.
  split; [|reflexivity].
  unfold base_effective_adaptability. cbv zeta.
  destruct (contains "LegacyOS" (os_version a)),
    (existsb _ _), (change_attitude a); lra.
Qed.

Lemma base_effective_adaptability_shift w a v :
  base_effective_adaptability w (set_adaptability v a)
  == base_effective_adaptability w a + (v - adaptability a).
Proof.
  unfold base_effective_adaptability, set_adaptability. cbv zeta.
  cbn [adaptability os_version change_attitude].
  destruct (contains "LegacyOS" (os_version a)),
    (existsb _ _), (change_attitude a); lra.
Qed.

(** X16. Survival outside is monotone: an actor who survives still
    survives with a higher adaptability in a world that selects and
    shifts no more. *)
Theorem evaluate_actor_is_monotone
    (w w' : ExternalWorld) (a : Actor) (v : Q) :
  adaptability a <= v ->
  selection_pressure w' <= selection_pressure w ->
  ai_shift_speed w' <= ai_shift_speed w ->
  evaluate_actor w a = true ->
  evaluate_actor w' (set_adaptability v a) = true.
Proof.
  unfold evaluate_actor. cbv zeta. intros Hv Hp Hs H.
  apply Qgeb_true in H. apply Qgeb_true.
  pose proof (base_effective_adaptability_shift w' a v) as E.
  assert (E' : base_effective_adaptability w' a
               = base_effective_adaptability w a) by reflexivity.
  rewrite E' in E. unfold required_threshold in *. lra.
Qed.

Lemma evaluate_actor_is_monotone_witness :
  evaluate_actor (mkExternalWorld 0.7 0.8)
    (set_adaptability 0.95
       (new_Actor "HighAdaptTeacher1" teacher "HighAdaptOS-2025 (LLM-aware)"
          0.9 false support)) = true.
Proof.
  apply (evaluate_actor_is_monotone demo_world).
  - vm_compute. discriminate.
  - vm_compute. discriminate.
  - vm_compute. discriminate.
  - vm_compute. reflexivity.
Defined.

(** At the margin itself the rounding of the source decides: with a
    threshold of 0.2, an adaptability of 0.3 and a draw of 0, the sum
    0.3 + (-0.1) is 0.19999999999999998 in binary64 and the actor is a
    casualty, where exact arithmetic gives 0.2 and a reboot. *)
Lemma reintegration_at_the_margin :
  let w := Binary64.mkExternalWorld 0.2 0 in
  let a := Binary64.new_Actor "Teacher" teacher "OS" 0.3 false neutral in
  let g := Binary64.mkRng (fun _ => 0%float) 0 in
  fst (Binary64.reintegration_outcome w a g) = "casualty"%string
  /\ fst (reintegration_outcome (mkExternalWorld 0.2 0)
            (new_Actor "Teacher" teacher "OS" 0.3 false neutral)
            (mkRng (fun _ => 0) 0)) = "rebooted"%string.
Proof. cbv zeta. split; vm_compute; reflexivity. Qed.



(** X18. Burnout never helps reintegration: with the same draw, an
    actor who is rebooted when burned out is rebooted when not. *)
Theorem burnout_never_helps_reintegration
    (w : ExternalWorld) (a : Actor) (g : Rng) :
  fst (reintegration_outcome w (set_burned_out true a) g) = "rebooted"%string ->
  fst (reintegration_outcome w (set_burned_out false a) g) = "rebooted"%string.
Proof.
  unfold reintegration_outcome, uniform, random. cbv zeta. cbn [fst snd].
  assert (E : forall b, base_effective_adaptability w (set_burned_out b a)
                        = base_effective_adaptability w a) by reflexivity.
  rewrite !E. cbn [burned_out set_burned_out].
  match goal with
  | |- context [Qgeb (_ - 0.2 + ?x) _] => set (u := x)
  end.
  destruct (Qgeb (base_effective_adaptability w a - 0.2 + u) _) eqn:E1;
    [intros _|intros H; discriminate H].
  destruct (Qgeb (base_effective_adaptability w a + u) _) eqn:E2;
    [reflexivity|].
  order_hyps. exfalso. lra.
Qed.

Lemma burnout_never_helps_reintegration_witness :
  fst (reintegration_outcome (mkExternalWorld 0.5 0.5)
         (set_burned_out false
            (new_Actor "HighAdaptTeacher1" teacher
               "HighAdaptOS-2025 (LLM-aware)" 0.9 false support)) half_rng)
  = "rebooted"%string.
Proof.
  apply burnout_never_helps_reintegration. vm_compute. reflexivity.
Defined.

(** *** The world comparison *)

Lemma comparison_kept_refl a : comparison_kept a a.
Proof. unfold comparison_kept. auto. Qed.

Lemma comparison_kept_trans a b c :
  comparison_kept a b -> comparison_kept b c -> comparison_kept a c.
Proof.
  unfold comparison_kept.
  intros (Hn & Hr & Ho & Hc & Ha) (Hn' & Hr' & Ho' & Hc' & Ha').
  repeat split; try congruence.
  intros Hs. rewrite Ha', Ha; auto.
  unfold is_staff in *. rewrite Hr. exact Hs.
Qed.

Lemma comparison_kept_lines w s s' :
  Forall2 comparison_kept (actors s) (actors s') ->
  print_world_comparison s' w = print_world_comparison s w.
Proof.
  unfold print_world_comparison.
  generalize (actors s) (actors s'). intros l l' H. f_equal.
  induction H as [|a a' l l' (Hn & Hr & Ho & Hc & Ha) _ IH]; [reflexivity|].
  cbn [filter]. unfold is_staff at 1 3. rewrite Hr.
  fold (is_staff a). destruct (is_staff a) eqn:Es; [|exact IH].
  cbn [map]. rewrite IH, Hn, Ho. do 2 f_equal.
  unfold evaluate_actor, base_effective_adaptability. cbv zeta.
  rewrite Ho, Hc, (Ha eq_refl). reflexivity.
Qed.

(** X19. The survival check reads nothing that the simulation changes:
    after any number of years [print_world_comparison] prints exactly
    the lines it printed before, so the two tables of a run are the
    same. *)
Theorem world_comparison_is_stable
    (years : nat) (s : SchoolEcosystem) (g : Rng) (w : ExternalWorld) :
  print_world_comparison (fst (simulate_years years s g)) w
  = print_world_comparison s w.
Proof.
  assert (H : Forall2 comparison_kept
                (actors s) (actors (fst (simulate_years years s g)))).
  { apply years_relate.
    - exact comparison_kept_refl.
    - exact comparison_kept_trans.
    - intros q a. unfold comparison_kept. actor_step; auto.
      repeat split; auto. unfold is_staff, is_student in *.
      destruct (role a); congruence.
    - intros b a. unfold comparison_kept. actor_step; auto. }
  exact (comparison_kept_lines w _ _ H).
Qed.

(** ** The reporting phase *)

Lemma reintegration_loop_steps w l :
  forall g,
    Forall2 verdict_step l (fst (reintegration_loop w l g))
    /\ pos (snd (reintegration_loop w l g))
       = (pos g + List.length (filter departed_staff l))%nat
    /\ draws (snd (reintegration_loop w l g)) = draws g.
Proof.
  induction l as [|a l IH]; intros g.
  - cbn. repeat split; [constructor | lia].
  - cbn [reintegration_loop filter]. unfold verdict_step at 1.
    fold (departed_staff a). destruct (departed_staff a) eqn:Ed.
    + unfold reintegration_outcome, uniform, random. cbv zeta.
      match goal with
      | |- context [Qgeb ?x ?y] => destruct (Qgeb x y)
      end; cbn [String.eqb Ascii.eqb Bool.eqb andb];
        match goal with
        | |- context [reintegration_loop w l ?h] =>
            destruct (IH h) as (H1 & H2 & H3);
            destruct (reintegration_loop w l h) as [rest g']
        end;
        cbn [fst snd pos draws List.length] in *;
        (split; [constructor; [rewrite Ed; auto | exact H1]|]);
        (split; [lia | exact H3]).
    + destruct (IH g) as (H1 & H2 & H3).
      destruct (reintegration_loop w l g) as [rest g'].
      cbn [fst snd] in *.
      split; [constructor; [rewrite Ed; reflexivity | exact H1]|].
      split; [lia | exact H3].
Qed.

Lemma future_loop_steps school world students :
  forall acc g,
    let r := future_loop school world students acc g in
    Forall2 (hope_step school world) students (fst (fst r))
    /\ snd (fst r) = acc ++ filter is_future_hope (fst (fst r))
    /\ pos (snd r) = (pos g + List.length students)%nat
    /\ draws (snd r) = draws g.
Proof.
  induction students as [|a l IH]; intros acc g; cbv zeta.
  - cbn. rewrite app_nil_r. repeat split; [constructor | lia].
  - cbn [future_loop]. unfold random. cbv zeta.
    cbn [is_future_hope set_is_future_hope].
    match goal with
    | |- context [future_loop school world l ?acc' ?h] =>
        specialize (IH acc' h); cbv zeta in IH;
        destruct IH as (H1 & H2 & H3 & H4);
        destruct (future_loop school world l acc' h) as [[rest fhs] g']
    end.
    cbn [fst snd pos draws List.length filter] in *.
    split; [constructor; [eexists; reflexivity | exact H1]|].
    split; [|split; [lia | exact H4]].
    rewrite H2. cbn [is_future_hope set_is_future_hope].
    destruct (Rlt_dec _ _); [rewrite <- app_assoc|]; reflexivity.
Qed.

Lemma write_back_steps (R : Actor -> Actor -> Prop) l :
  forall st,
    Forall2 R (filter is_student l) st ->
    Forall2 (fun a a' => if is_student a then R a a' else a' = a)
      l (write_back l st).
Proof.
  induction l as [|a l IH]; intros st H; [constructor|].
  cbn [filter write_back] in *. destruct (is_student a) eqn:Es.
  - inversion H as [|? s ? ss Hs Hr]; subst.
    constructor; [rewrite Es; exact Hs | exact (IH _ Hr)].
  - constructor; [rewrite Es; reflexivity | exact (IH _ H)].
Qed.


Lemma verdict_step_role a a' : verdict_step a a' -> role a' = role a.
Proof.
  unfold verdict_step. destruct (departed_staff a);
    [intros [->| ->] | intros ->]; reflexivity.
Qed.


Lemma filter_students_related (R : Actor -> Actor -> Prop) l l' :
  (forall a a', R a a' -> role a' = role a) ->
  Forall2 R l l' ->
  Forall2 R (filter is_student l) (filter is_student l').
Proof.
  intros HR. induction 1 as [|a a' l l' Ha _ IH]; [constructor|].
  assert (E : is_student a' = is_student a)
    by (unfold is_student; rewrite (HR _ _ Ha); reflexivity).
  cbn [filter]. rewrite E.
  destruct (is_student a); [constructor; assumption | exact IH].
Qed.

Lemma student_not_departed a : is_student a = true -> departed_staff a = false.
Proof.
  unfold is_student, departed_staff, is_staff.
  destruct (role a); try discriminate; reflexivity.
Qed.

(** The report, split into its three results. *)
Lemma report_stages school world g :
  exists roster students,
    Forall2 verdict_step (actors school) roster
    /\ Forall2 (hope_step (set_actors roster school) world)
         (filter is_student roster) students
    /\ report_school (print_reintegration_report school world g)
       = set_actors (write_back roster students) school
    /\ report_total (print_reintegration_report school world g)
       = Z.of_nat (List.length students)
    /\ report_fh (print_reintegration_report school world g)
       = Z.of_nat (List.length (filter is_future_hope students))
    /\ pos (report_rng (print_reintegration_report school world g))
       = (pos g + List.length (filter departed_staff (actors school))
          + List.length (filter is_student (actors school)))%nat
    /\ draws (report_rng (print_reintegration_report school world g))
       = draws g.
Proof.
  unfold print_reintegration_report.
  destruct (reintegration_loop_steps world (actors school) g)
    as (H1 & H2 & H3).
  destruct (reintegration_loop world (actors school) g) as [roster g1].
  cbn [fst snd] in *. cbv zeta. cbn [actors set_actors].
  pose proof (future_loop_steps (set_actors roster school) world
                (filter is_student roster) [] g1) as H.
  cbv zeta in H. destruct H as (F1 & F2 & F3 & F4).
  destruct (future_loop _ _ _ _ _) as [[students fhs] g2].
  cbn [fst snd app] in *.
  exists roster, students.
  cbn [report_school report_total report_fh report_rng].
  repeat split; try assumption; try congruence.
  rewrite F3, H2.
  pose proof (filter_students_related _ _ _ verdict_step_role H1) as Hs.
  rewrite (roster_length _ _ _ Hs). lia.
Qed.


Lemma roster_compose (R S : Actor -> Actor -> Prop) l1 l2 :
  Forall2 R l1 l2 ->
  forall l3, Forall2 S l2 l3 ->
    Forall2 (fun a c => exists b, R a b /\ S b c) l1 l3.
Proof.
  induction 1 as [|a b l1 l2 Hab _ IH]; intros l3 H;
    inversion H; subst; constructor; eauto.
Qed.

Lemma roster_weaken (R S : Actor -> Actor -> Prop) l l' :
  (forall a a', R a a' -> S a a') -> Forall2 R l l' -> Forall2 S l l'.
Proof. intros HRS. induction 1; constructor; auto. Qed.





Lemma report_outcome_of_steps school world roster a b c :
  verdict_step a b ->
  (if is_student b then hope_step (set_actors roster school) world b c
   else c = b) ->
  report_outcome school world a c.
Proof.
  intros Hab Hbc. pose proof (verdict_step_role _ _ Hab) as Hr.
  assert (Es : is_student b = is_student a)
    by (unfold is_student; rewrite Hr; reflexivity).
  rewrite Es in Hbc. unfold verdict_step in Hab.
  destruct (is_student a) eqn:E.
  - rewrite (student_not_departed a E) in Hab. subst b.
    destruct Hbc as [f ->]. exact (outcome_student school world a f E).
  - subst c. destruct (departed_staff a) eqn:Ed.
    + destruct Hab as [-> | ->]; [apply outcome_rebooted | apply outcome_casualty];
        exact Ed.
    + subst b. apply outcome_untouched; assumption.
Qed.

Lemma report_roster school world g :
  Forall2 (report_outcome school world)
    (actors school)
    (actors (report_school (print_reintegration_report school world g))).
Proof.
  destruct (report_stages school world g)
    as (roster & students & H1 & H2 & -> & _).
  cbn [actors set_actors].
  pose proof (write_back_steps _ roster students H2) as H3.
  pose proof (roster_compose _ _ _ _ H1 _ H3) as H.
  revert H. apply roster_weaken. intros a c (b & Hab & Hbc).
  exact (report_outcome_of_steps school world roster a b c Hab Hbc).
Qed.

Lemma report_keeps_the_rest school world g :
  only_roster_differs school
    (report_school (print_reintegration_report school world g)).
Proof.
  destruct (report_stages school world g)
    as (roster & students & _ & _ & -> & _).
  unfold only_roster_differs. cbn. repeat split; reflexivity.
Qed.






(** *** The verdicts after a run *)

Lemma roster_carries (P Q : Actor -> Prop) (R : Actor -> Actor -> Prop) l l' :
  (forall a a', R a a' -> P a -> Q a') ->
  Forall2 R l l' -> Forall P l -> Forall Q l'.
Proof.
  intros HR H. induction H as [|a a' l l' Ha _ IH]; intros HP;
    [constructor|].
  inversion HP; subst. constructor; eauto.
Qed.

Lemma years_keep_report_fields years s g :
  Forall2 report_fields_kept
    (actors s) (actors (fst (simulate_years years s g))).
Proof.
  exact (years_relate report_fields_kept report_fields_refl
           report_fields_trans suppress_student_report_fields
           burnout_actor_report_fields years s g).
Qed.

Lemma years_keep_no_verdict years s g :
  Forall no_verdict (actors s) ->
  Forall no_verdict (actors (fst (simulate_years years s g))).
Proof.
  apply (roster_carries no_verdict no_verdict report_fields_kept);
    [|apply years_keep_report_fields].
  unfold no_verdict, report_fields_kept.
  intros a a' (Hr & Hc & _) (H1 & H2). split; congruence.
Qed.

Lemma report_outcome_one_verdict school world a a' :
  report_outcome school world a a' -> no_verdict a -> one_verdict a'.
Proof.
  unfold no_verdict, one_verdict, departed_staff.
  intros H (Hr & Hc).
  assert (Hd : is_student a = true -> is_staff a && has_left_system a = false)
    by exact (student_not_departed a).
  destruct H as [H|H|b H|H _]; unfold departed_staff in H;
    try specialize (Hd H); unfold is_staff in *;
    cbn [rebooted_outside casualty_of_system role has_left_system
         set_rebooted_outside set_casualty_of_system set_is_future_hope
         set_future_hope_probability];
    rewrite ?Hr, ?Hc, ?H, ?Hd; try reflexivity; split; assumption.
Qed.

Lemma report_gives_one_verdict school world g :
  Forall no_verdict (actors school) ->
  Forall one_verdict
    (actors (report_school (print_reintegration_report school world g))).
Proof.
  exact (roster_carries no_verdict one_verdict (report_outcome school world)
           _ _ (report_outcome_one_verdict school world)
           (report_roster school world g)).
Qed.

(** X24. One verdict for each departure.  When no actor carries a
    verdict at the start, then after any number of years and the report
    an actor carries exactly one of [rebooted_outside] and
    [casualty_of_system] if it is a teacher or admin who left, and
    neither otherwise. *)
Theorem every_departure_gets_one_verdict
    (years : nat) (s : SchoolEcosystem) (g : Rng) (world : ExternalWorld) :
  Forall no_verdict (actors s) ->
  let after := simulate_years years s g in
  let r := print_reintegration_report (fst after) world (snd after) in
  Forall one_verdict (actors (report_school r)).
Proof.
  intros H. cbv zeta. apply report_gives_one_verdict.
  apply years_keep_no_verdict. exact H.
Qed.

Lemma every_departure_gets_one_verdict_witness :
  let after := simulate_years 5 demo_school half_rng in
  let r := print_reintegration_report (fst after) demo_world (snd after) in
  Forall one_verdict (actors (report_school r)).
Proof.
  apply every_departure_gets_one_verdict.
  repeat constructor.
Defined.

(** ** The teacher counts of the summary *)

Lemma filter_partition (f : Actor -> bool) l :
  (List.length (filter (fun a => negb (f a)) l) + List.length (filter f l)
   = List.length l)%nat.
Proof.
  induction l as [|a l IH]; [reflexivity|].
  cbn [filter]. destruct (f a); cbn [negb List.length]; lia.
Qed.

Lemma count_grows (f : Actor -> bool) l l' :
  Forall2 (fun a a' => role a' = role a /\ (f a = true -> f a' = true)) l l' ->
  (List.length (filter f (filter is_teacher l))
   <= List.length (filter f (filter is_teacher l')))%nat.
Proof.
  induction 1 as [|a a' l l' (Hr & Hf) _ IH]; [reflexivity|].
  assert (E : is_teacher a' = is_teacher a)
    by (unfold is_teacher; rewrite Hr; reflexivity).
  cbn [filter]. rewrite E. destruct (is_teacher a); [|exact IH].
  cbn [filter]. destruct (f a).
  - rewrite (Hf eq_refl). cbn [List.length]. lia.
  - destruct (f a'); cbn [List.length]; lia.
Qed.

Lemma count_kept (f : Actor -> bool) l l' :
  Forall2 (fun a a' => role a' = role a /\ f a' = f a) l l' ->
  List.length (filter f (filter is_teacher l'))
  = List.length (filter f (filter is_teacher l)).
Proof.
  induction 1 as [|a a' l l' (Hr & Hf) _ IH]; [reflexivity|].
  assert (E : is_teacher a' = is_teacher a)
    by (unfold is_teacher; rewrite Hr; reflexivity).
  cbn [filter]. rewrite E. destruct (is_teacher a); [|exact IH].
  cbn [filter]. rewrite Hf. destruct (f a); cbn [List.length]; congruence.
Qed.

Lemma years_counts_step years s g :
  Forall2 counts_step (actors s) (actors (fst (simulate_years years s g))).
Proof.
  apply years_relate.
  - unfold counts_step. auto.
  - unfold counts_step. intuition congruence.
  - intros q a. unfold counts_step. actor_step; auto.
  - intros b a. unfold counts_step. actor_step; auto 6.
Qed.

(** X25. The teacher counts of the summary are consistent.  Active
    teachers and teachers who left add up to the total; and over any
    number of years the total stays, the numbers of burned-out teachers
    and of teachers who left never fall, and the numbers of rebooted
    teachers and of casualties do not move (only the report assigns
    those flags). *)
Theorem summary_counts_are_consistent
    (years : nat) (s : SchoolEcosystem) (g : Rng) :
  let c := summary_counts s in
  let c' := summary_counts (fst (simulate_years years s g)) in
  (teachers_active c + teachers_who_left c = teachers_total c)%Z
  /\ teachers_total c' = teachers_total c
  /\ (teachers_burned_out c <= teachers_burned_out c')%Z
  /\ (teachers_who_left c <= teachers_who_left c')%Z
  /\ teachers_rebooted_outside c' = teachers_rebooted_outside c
  /\ teacher_casualties c' = teacher_casualties c.
Proof.
  cbv zeta. unfold summary_counts. cbv zeta.
  cbn [teachers_total teachers_active teachers_burned_out teachers_who_left
       teachers_rebooted_outside teacher_casualties].
  pose proof (years_counts_step years s g) as H. revert H.
  generalize (actors (fst (simulate_years years s g))). intros l' H.
  split.
  { pose proof (filter_partition has_left_system
                  (filter is_teacher (actors s))). lia. }
  split.
  { f_equal.
    pose proof (count_kept (fun _ => true) (actors s) l') as Hk.
    assert (E : forall l : list Actor, filter (fun _ => true) l = l).
    { induction l as [|x l IH]; cbn [filter]; congruence. }
    rewrite !E in Hk. apply Hk. revert H. apply roster_weaken.
    unfold counts_step. tauto. }
  split.
  { apply inj_le. apply count_grows. revert H. apply roster_weaken.
    unfold counts_step. tauto. }
  split.
  { apply inj_le. apply count_grows. revert H. apply roster_weaken.
    unfold counts_step. tauto. }
  split; f_equal; apply count_kept; revert H; apply roster_weaken;
    unfold counts_step; tauto.
Qed.

Lemma verdicts_add_up l :
  Forall one_verdict l ->
  (List.length (filter rebooted_outside (filter is_teacher l))
   + List.length (filter casualty_of_system (filter is_teacher l))
   = List.length (filter has_left_system (filter is_teacher l)))%nat.
Proof.
  induction 1 as [|a l Ha _ IH]; [reflexivity|].
  cbn [filter]. unfold one_verdict, departed_staff in Ha.
  destruct (is_teacher a) eqn:Et; [|exact IH].
  assert (Es : is_staff a = true)
    by (unfold is_teacher, is_staff in *; destruct (role a); congruence).
  rewrite Es in Ha. cbn [andb] in Ha. cbn [filter].
  unfold no_verdict in Ha.
  destruct (rebooted_outside a), (casualty_of_system a), (has_left_system a);
    try discriminate Ha; try (destruct Ha; discriminate);
    cbn [List.length]; lia.
Qed.

Lemma no_verdict_counts l :
  Forall no_verdict l ->
  filter rebooted_outside (filter is_teacher l) = []
  /\ filter casualty_of_system (filter is_teacher l) = [].
Proof.
  induction 1 as [|a l (Hr & Hc) _ IH]; [split; reflexivity|].
  cbn [filter]. destruct (is_teacher a); [|exact IH].
  cbn [filter]. rewrite Hr, Hc. exact IH.
Qed.

(** X26. The verdicts in the summary.  When no actor carries a verdict
    at the start, a summary taken after any number of years shows no
    rebooted teacher and no casualty, however many teachers left: the
    flags are set by the report only.  In a summary taken after the
    report the two numbers add up to the number of teachers who left. *)
Theorem summary_verdicts_wait_for_the_report
    (years : nat) (s : SchoolEcosystem) (g : Rng) (world : ExternalWorld) :
  Forall no_verdict (actors s) ->
  let after := simulate_years years s g in
  let r := print_reintegration_report (fst after) world (snd after) in
  let c := summary_counts (fst after) in
  let c' := summary_counts (report_school r) in
  teachers_rebooted_outside c = 0%Z /\ teacher_casualties c = 0%Z
  /\ (teachers_rebooted_outside c' + teacher_casualties c'
      = teachers_who_left c')%Z
  /\ teachers_who_left c' = teachers_who_left c.
Proof.
  intros H. cbv zeta.
  pose proof (years_keep_no_verdict years s g H) as H1.
  pose proof (report_gives_one_verdict _ world
                (snd (simulate_years years s g)) H1) as H2.
  pose proof (report_roster (fst (simulate_years years s g)) world
                (snd (simulate_years years s g))) as H3.
  revert H1 H2 H3.
  generalize (report_school
                (print_reintegration_report (fst (simulate_years years s g))
                   world (snd (simulate_years years s g)))).
  generalize (fst (simulate_years years s g)). intros s1 s2 H1 H2 H3.
  unfold summary_counts. cbv zeta.
  cbn [teachers_who_left teachers_rebooted_outside teacher_casualties].
  destruct (no_verdict_counts _ H1) as (-> & ->).
  split; [reflexivity|]. split; [reflexivity|].
  split; [pose proof (verdicts_add_up _ H2); lia|].
  f_equal. apply count_kept. revert H3. apply roster_weaken.
  intros a a' Ho. destruct Ho; split; reflexivity.
Qed.

Lemma summary_verdicts_wait_for_the_report_witness :
  let after := simulate_years 5 demo_school half_rng in
  let r := print_reintegration_report (fst after) demo_world (snd after) in
  let c := summary_counts (fst after) in
  let c' := summary_counts (report_school r) in
  teachers_rebooted_outside c = 0%Z /\ teacher_casualties c = 0%Z
  /\ (teachers_rebooted_outside c' + teacher_casualties c'
      = teachers_who_left c')%Z
  /\ teachers_who_left c' = teachers_who_left c.
Proof.
  apply summary_verdicts_wait_for_the_report.
  repeat constructor.
Defined.

(** ** Stakeholder utilities *)




(** X28. The default utilities never raise, and on a school whose 0-1
    attributes are in range the teachers' score is between -1.5 and
    0.7 and the students' and parents' score between -0.8 and 1.4; the
    management score has no such range, since it subtracts 0.3 times
    the accumulated external spend. *)
Theorem default_utilities_always_score (school : SchoolEcosystem) :
  exists t m p,
    map (fun u => score u school) build_default_utilities
    = [Some t; Some m; Some p]
    /\ (bounded_fields_ok school ->
        -1.5 <= t <= 0.7
        /\ -0.8 - 0.3 * school.[external_spend] <= m
           <= 0.6 - 0.3 * school.[external_spend]
        /\ -0.8 <= p <= 1.4).
Proof.
  do 3 eexists. split; [cbv -[Qplus Qmult floats]; reflexivity|].
  intros [H _].
  assert (B : forall a, bounded_attr a = true -> 0 <= floats school a <= 1)
    by (intros a Ha; exact (H a Ha (fun f => f))).
  pose proof (B burnout_index eq_refl).
  pose proof (B workload_index eq_refl).
  pose proof (B student_learning_efficiency eq_refl).
  pose proof (B leadership_trust_battery eq_refl).
  pose proof (B recruitment_difficulty eq_refl).
  pose proof (B efficiency_index_recognized eq_refl).
  pose proof (B competitor_gap_index eq_refl).
  pose proof (B student_exit_rate eq_refl).
  pose proof (B ai_accessibility_index eq_refl).
  pose proof (B ai_service_quality_index eq_refl).
  repeat split; lra.
Qed.

Lemma default_utilities_always_score_witness :
  exists t m p,
    map (fun u => score u demo_school) build_default_utilities
    = [Some t; Some m; Some p]
    /\ -1.5 <= t <= 0.7
    /\ -0.8 - 0.3 * demo_school.[external_spend] <= m
       <= 0.6 - 0.3 * demo_school.[external_spend]
    /\ -0.8 <= p <= 1.4.
Proof.
  destruct (default_utilities_always_score demo_school)
    as (t & m & p & E & H).
  exists t, m, p. split; [exact E|]. apply H.
  apply bounded_fields_okb_spec. vm_compute. reflexivity.
Defined.

Lemma score_reads_the_numbers u s s' :
  only_roster_differs s s' -> score u s' = score u s.
Proof.
  intros (_ & _ & _ & Hf & Hy & Hp & Hs & Hw & Hr).
  unfold score. generalize 0.0. 
  induction (weights u) as [|[attr w] rest IH]; intros q; [reflexivity|].
  cbn [score_loop].
  assert (E : numeric_attribute s' attr = numeric_attribute s attr)
    by (unfold numeric_attribute; rewrite Hf, Hy, Hp, Hs, Hw, Hr;
        reflexivity).
  rewrite E. destruct (numeric_attribute s attr); [apply IH | reflexivity].
Qed.

(** X29. The scores read the state, not the roster: the report, which
    rewrites actors only, leaves the score of every utility as it
    was. *)
Theorem report_leaves_the_scores
    (u : StakeholderUtility) (school : SchoolEcosystem)
    (world : ExternalWorld) (g : Rng) :
  score u (report_school (print_reintegration_report school world g))
  = score u school.
Proof.
  apply score_reads_the_numbers. apply report_keeps_the_rest.
Qed.
